(** * Scoring, time-series and ranking engine of [scripts/generate_report.py]

    A shallow embedding of the report generator's core: the daily
    time series ([extract_scores]), the per-site summary
    ([calculate_scores]), the reading-age resolver ([find_reading_age],
    [translate_reading_age]), the per-metric rankings
    ([build_combined_rankings]) and the leaderboard ([build_top_table]),
    followed by the properties established about them.

    Conventions of the embedding:
    - Python [int] is [Z]; a score (a JSON number, i.e. a Python [float]
      or [int]) is a rational [Q], compared by value ([Qeq], [Qle]); the
      rounding to [float] that ends [statistics.mean] is a parameter
      [to_float] of the summary;
    - a Python [dict] is an insertion-ordered association list with
      unique string keys ([PyDict]); assigning to an existing key keeps
      its position;
    - a character of a string is a code point below 256;
    - Python [None] inside data is [None] of an [option]; a raised
      exception is the [Raise] outcome of a [result];
    - reads of the environment (the clock, the module's global
      variables) are explicit arguments. *)

From Stdlib Require Import List String Ascii ZArith QArith Lia Bool.
From Stdlib Require Import Permutation Sorted OrdersEx.
Import ListNotations.

Local Open Scope Z_scope.

(* ================================================================= *)
(** ** Exceptions and outcomes *)

Inductive exn : Type :=
| KeyError (key : string)
| ValueError
| IndexError
| NameError (name : string)
| TypeError
| AttributeError
| OverflowError.

Inductive result (A : Type) : Type :=
| Ok (a : A)
| Raise (e : exn).

Arguments Ok {A} a.
Arguments Raise {A} e.

Definition bind {A B : Type} (r : result A) (k : A -> result B) : result B :=
  match r with
  | Ok a => k a
  | Raise e => Raise e
  end.

Notation "x <- r ;; k" := (bind r (fun x => k))
  (at level 61, r at next level, right associativity).

(** [try: r  except ValueError: (keep dflt)]. Other exceptions pass. *)
Definition except_ValueError {A : Type} (r : result A) (dflt : A) : result A :=
  match r with
  | Raise ValueError => Ok dflt
  | _ => r
  end.

(** [try: r  except KeyError: dflt]. Other exceptions pass. *)
Definition except_KeyError {A : Type} (r : result A) (dflt : A) : result A :=
  match r with
  | Raise (KeyError _) => Ok dflt
  | _ => r
  end.

(* ================================================================= *)
(** ** Insertion-ordered dictionaries with string keys *)

Module PyDict.

Definition t (V : Type) : Type := list (string * V).

Definition empty {V : Type} : t V := [].

(** [k in d], [d.get(k)] *)
Fixpoint get {V : Type} (d : t V) (k : string) : option V :=
  match d with
  | [] => None
  | (k', v) :: d' => if String.eqb k' k then Some v else get d' k
  end.

Definition mem {V : Type} (d : t V) (k : string) : bool :=
  match get d k with Some _ => true | None => false end.

(** [d[k]] *)
Definition getitem {V : Type} (d : t V) (k : string) : result V :=
  match get d k with
  | Some v => Ok v
  | None => Raise (KeyError k)
  end.

(** [d[k] = v]: an existing key keeps its place, a new one goes last. *)
Fixpoint set {V : Type} (d : t V) (k : string) (v : V) : t V :=
  match d with
  | [] => [(k, v)]
  | (k', v') :: d' =>
      if String.eqb k' k then (k', v) :: d' else (k', v') :: set d' k v
  end.

(** [list(d)], [d.keys()] *)
Definition keys {V : Type} (d : t V) : list string := map fst d.

(** [d.values()] *)
Definition values {V : Type} (d : t V) : list V := map snd d.

(** [d.items()] *)
Definition items {V : Type} (d : t V) : list (string * V) := d.

(** [OrderedDict(pairs)], [dict(pairs)] *)
Definition of_items {V : Type} (l : list (string * V)) : t V :=
  fold_left (fun d kv => set d (fst kv) (snd kv)) l empty.

End PyDict.

(** [l.index(x)]: position of the first occurrence, or [ValueError]. *)
Fixpoint index_of (l : list string) (x : string) : option Z :=
  match l with
  | [] => None
  | y :: l' =>
      if String.eqb y x then Some 0 else option_map Z.succ (index_of l' x)
  end.

Definition py_index (l : list string) (x : string) : result Z :=
  match index_of l x with
  | Some i => Ok i
  | None => Raise ValueError
  end.

(* ================================================================= *)
(** ** [sorted(iterable, key=..., reverse=...)]

    Python's sort is stable and compares keys with [<] only.  With
    [reverse=True] the list is reversed, sorted, and reversed again,
    which is how equal keys keep their original order. *)

Section PySorted.
Context {A K : Type}.
Variable key : A -> K.
Variable lt : K -> K -> bool.

Fixpoint insert_sorted (x : A) (s : list A) : list A :=
  match s with
  | [] => [x]
  | y :: s' =>
      if lt (key y) (key x) then y :: insert_sorted x s' else x :: y :: s'
  end.

Definition sort_stable (l : list A) : list A :=
  fold_right insert_sorted [] l.

Definition py_sorted (reverse : bool) (l : list A) : list A :=
  if reverse then rev (sort_stable (rev l)) else sort_stable l.

(** [before x y]: [x] may stand before [y] in ascending order;
    [after x y]: in descending order. *)
Definition before (x y : A) : Prop := lt (key y) (key x) = false.
Definition after (x y : A) : Prop := lt (key x) (key y) = false.
End PySorted.

Definition Qltb (x y : Q) : bool := negb (Qle_bool y x).

(* ================================================================= *)
(** ** Strings: [str.split(sep)], [int(str)], [re.search(r'\d+', str)] *)

Definition is_digit (c : ascii) : bool :=
  (48 <=? Z.of_N (N_of_ascii c)) && (Z.of_N (N_of_ascii c) <=? 57).

Definition digit_value (c : ascii) : Z := Z.of_N (N_of_ascii c) - 48.

Definition digit_char (n : Z) : ascii := ascii_of_N (Z.to_N (48 + n)).

(** [s.split(sep)] for a one-character separator. *)
Fixpoint split_on (sep : ascii) (s : string) : list string :=
  match s with
  | EmptyString => [EmptyString]
  | String c s' =>
      if Ascii.eqb c sep then EmptyString :: split_on sep s'
      else match split_on sep s' with
           | [] => [String c EmptyString]
           | part :: parts => String c part :: parts
           end
  end.

(** [l[i]] on a list. *)
Definition list_getitem {A : Type} (l : list A) (i : nat) : result A :=
  match nth_error l i with
  | Some x => Ok x
  | None => Raise IndexError
  end.

Fixpoint all_digits (s : string) : bool :=
  match s with
  | EmptyString => true
  | String c s' => is_digit c && all_digits s'
  end.

Fixpoint digits_value (acc : Z) (s : string) : Z :=
  match s with
  | EmptyString => acc
  | String c s' => digits_value (acc * 10 + digit_value c) s'
  end.

(** The blanks that [int] skips around a number: tab, line feed,
    vertical tab, form feed, carriage return, space, and the next-line
    and no-break-space characters (code points 133 and 160).  A
    character of a string is a code point below 256. *)
Definition is_space (c : ascii) : bool :=
  let n := Z.of_N (N_of_ascii c) in
  ((9 <=? n) && (n <=? 13)) || (n =? 32) || (n =? 133) || (n =? 160).

Fixpoint lstrip (s : string) : string :=
  match s with
  | EmptyString => EmptyString
  | String c s' => if is_space c then lstrip s' else s
  end.

Fixpoint all_spaces (s : string) : bool :=
  match s with
  | EmptyString => true
  | String c s' => is_space c && all_spaces s'
  end.

(** The digits of a number written with single underscores between
    digits, and what follows the number. *)
Fixpoint scan_digits (s : string) : string * string :=
  match s with
  | EmptyString => (EmptyString, EmptyString)
  | String c s' =>
      if is_digit c then
        let (digits, rest) := scan_digits s' in (String c digits, rest)
      else if Ascii.eqb c "_" then
        match s' with
        | String c' _ =>
            if is_digit c' then scan_digits s' else (EmptyString, s)
        | EmptyString => (EmptyString, s)
        end
      else (EmptyString, s)
  end.

(** [int(s)] on a string: blanks, an optional sign, decimal digits with
    single underscores between them, blanks; anything else is a
    [ValueError].  (The interpreter's configurable cap on the number of
    digits, [sys.set_int_max_str_digits], is not part of the model.) *)
Definition py_int (s : string) : result Z :=
  let s1 := lstrip s in
  let (negative, s2) :=
    match s1 with
    | String c r =>
        if Ascii.eqb c "+" then (false, r)
        else if Ascii.eqb c "-" then (true, r)
        else (false, s1)
    | EmptyString => (false, s1)
    end in
  match s2 with
  | String c _ =>
      if is_digit c then
        let (digits, rest) := scan_digits s2 in
        if all_spaces rest
        then Ok (if negative then - digits_value 0 digits
                 else digits_value 0 digits)
        else Raise ValueError
      else Raise ValueError
  | EmptyString => Raise ValueError
  end.

(** [re.search(r'\d+', s)]: the first maximal run of digits, if any. *)
Fixpoint take_digits (s : string) : string :=
  match s with
  | EmptyString => EmptyString
  | String c s' => if is_digit c then String c (take_digits s') else EmptyString
  end.

Fixpoint search_digits (s : string) : option string :=
  match s with
  | EmptyString => None
  | String c s' =>
      if is_digit c then Some (String c (take_digits s'))
      else search_digits s'
  end.

(* ================================================================= *)
(** ** Calendar dates: [datetime.date] *)

Record date : Type := mkdate { year : Z; month : Z; day : Z }.

Definition is_leap (y : Z) : bool :=
  (y mod 4 =? 0) && (negb (y mod 100 =? 0) || (y mod 400 =? 0)).

Definition days_in_month (y m : Z) : Z :=
  match m with
  | 1 => 31
  | 2 => if is_leap y then 29 else 28
  | 3 => 31
  | 4 => 30
  | 5 => 31
  | 6 => 30
  | 7 => 31
  | 8 => 31
  | 9 => 30
  | 10 => 31
  | 11 => 30
  | 12 => 31
  | _ => 0
  end.

(** A month and a day that exist, in any year. *)
Definition wf_date (d : date) : Prop :=
  1 <= month d <= 12 /\ 1 <= day d <= days_in_month (year d) (month d).

(** What the constructor [date(y, m, d)] accepts. *)
Definition valid_dateb (d : date) : bool :=
  (1 <=? year d) && (year d <=? 9999) &&
  (1 <=? month d) && (month d <=? 12) &&
  (1 <=? day d) && (day d <=? days_in_month (year d) (month d)).

Definition valid_date (d : date) : Prop := valid_dateb d = true.

(** The arguments of [date(y, m, d)] are converted to C [int]s first:
    one that does not fit raises [OverflowError], before any range
    check; a year, month or day out of range raises [ValueError]. *)
Definition c_int (n : Z) : bool :=
  (-2147483648 <=? n) && (n <=? 2147483647).

Definition date_of (y m d : Z) : result date :=
  if c_int y && c_int m && c_int d then
    if valid_dateb (mkdate y m d) then Ok (mkdate y m d)
    else Raise ValueError
  else Raise OverflowError.

(** [date.toordinal()]: days since 0001-01-01, that day being 1. *)
Definition days_before_year (y : Z) : Z :=
  let p := y - 1 in p * 365 + p / 4 - p / 100 + p / 400.

Definition days_before_month (y m : Z) : Z :=
  match m with
  | 1 => 0
  | 2 => 31
  | 3 => 59
  | 4 => 90
  | 5 => 120
  | 6 => 151
  | 7 => 181
  | 8 => 212
  | 9 => 243
  | 10 => 273
  | 11 => 304
  | 12 => 334
  | _ => 0
  end + (if (2 <? m) && is_leap y then 1 else 0).

Definition toordinal (d : date) : Z :=
  days_before_year (year d) + days_before_month (year d) (month d) + day d.

(** [d + timedelta(days=1)] *)
Definition next_day (d : date) : date :=
  if day d <? days_in_month (year d) (month d)
  then mkdate (year d) (month d) (day d + 1)
  else if month d <? 12 then mkdate (year d) (month d + 1) 1
  else mkdate (year d + 1) 1 1.

(** [d.strftime('%Y-%m-%d')].  The month and the day are written on
    two digits; the year is written by the C library's [%Y], in decimal
    without leading zeros (['999'] for the year 999), so on four digits
    from the year 1000 on only. *)
Definition pad2 (n : Z) : string :=
  String (digit_char (n / 10)) (String (digit_char (n mod 10)) EmptyString).

Definition pad4 (n : Z) : string :=
  String (digit_char (n / 1000))
    (String (digit_char (n / 100 mod 10))
       (String (digit_char (n / 10 mod 10))
          (String (digit_char (n mod 10)) EmptyString))).

Definition year_digits (y : Z) : string :=
  if y <? 10 then String (digit_char y) EmptyString
  else if y <? 100 then pad2 y
  else if y <? 1000 then String (digit_char (y / 100)) (pad2 (y mod 100))
  else pad4 y.

Definition strftime (d : date) : string :=
  (year_digits (year d) ++ "-" ++ pad2 (month d) ++ "-"
   ++ pad2 (day d))%string.

(** Modelled from the spec: [c19utils.daterange], a helper of the
    repository that is not among its sources.  The specification has
    the time series iterate "every calendar day from [first_date] to
    [last_date] inclusive"; the days are produced in order, each the day
    after the one before. *)
Fixpoint days_from (d : date) (n : nat) : list date :=
  match n with
  | O => []
  | S n' => d :: days_from (next_day d) n'
  end.

Definition daterange (first_date last_date : date) : list date :=
  days_from first_date
    (Z.to_nat (toordinal last_date - toordinal first_date + 1)).

(* ================================================================= *)
(** ** MetricExtractor: [extract_scores] *)

(** A score as the audit report carries it: a number, or [None]. *)
Definition sample : Type := option Q.

(** One audit report (the JSON object of one file), reduced to the
    keys the program reads; [categories[name]['score']] is a sample. *)
Record report : Type := {
  finalUrl : string;
  fetchTime : string;
  categories : PyDict.t (PyDict.t sample)
}.

(** [data[str_date]['categories'][category]['score']] *)
Definition category_score (data : PyDict.t report) (str_date category : string)
    : result sample :=
  r <- PyDict.getitem data str_date ;;
  c <- PyDict.getitem (categories r) category ;;
  PyDict.getitem c "score".

(** The score a report carries for a category, [None] when it has no
    such score entry; and the score recorded for a day: that of the
    report dated that day, [None] when there is no such report. *)
Definition report_score (r : report) (category : string) : sample :=
  match PyDict.get (categories r) category with
  | Some c =>
      match PyDict.get c "score" with
      | Some score => score
      | None => None
      end
  | None => None
  end.

Definition day_score (data : PyDict.t report) (str_date category : string)
    : sample :=
  match PyDict.get data str_date with
  | Some r => report_score r category
  | None => None
  end.

(** [output]: the two series, date string -> sample. *)
Record time_series : Type := {
  ts_accessibility : PyDict.t sample;
  ts_speed : PyDict.t sample
}.

(** [date(int(parts[0]), int(parts[1]), int(parts[2]))] on
    [parts = s.split('-')] *)
Definition first_date_of (s : string) : result date :=
  let first_date_parts := split_on "-" s in
  y <- (p <- list_getitem first_date_parts 0 ;; py_int p) ;;
  m <- (p <- list_getitem first_date_parts 1 ;; py_int p) ;;
  d <- (p <- list_getitem first_date_parts 2 ;; py_int p) ;;
  date_of y m d.

(** The body of the loop over the days. *)
Definition record_day (data : PyDict.t report) (output : result time_series)
    (single_date : date) : result time_series :=
  out <- output ;;
  let str_date := strftime single_date in
  a <- except_KeyError (category_score data str_date "accessibility") None ;;
  s <- except_KeyError (category_score data str_date "performance") None ;;
  Ok {| ts_accessibility := PyDict.set (ts_accessibility out) str_date a;
        ts_speed := PyDict.set (ts_speed out) str_date s |}.

(** [today] is the value of [date.today()]. *)
Definition extract_scores (today : date) (data : PyDict.t report)
    (dates : list string) : result time_series :=
  let dates := py_sorted (fun s : string => s) String.ltb false dates in
  first <- list_getitem dates 0 ;;
  first_date <- first_date_of first ;;
  let last_date := today in
  fold_left (record_day data) (daterange first_date last_date)
    (Ok {| ts_accessibility := PyDict.empty; ts_speed := PyDict.empty |}).

(* ================================================================= *)
(** ** SiteScoreSummarizer: [calculate_scores] *)

(** [None.__ne__] as a filter predicate: [False] on [None], and on
    anything else [NotImplemented], which [filter] takes as true (as
    Python does up to 3.13). *)
Definition None_ne (x : sample) : bool :=
  match x with
  | None => false
  | Some _ => true
  end.

(** The numbers of a list that holds no [None]. *)
Fixpoint numbers (l : list sample) : list Q :=
  match l with
  | [] => []
  | Some q :: l' => q :: numbers l'
  | None :: l' => numbers l'
  end.

(** [list(filter(None.__ne__, values))] *)
Definition filter_not_None (values : list sample) : list Q :=
  numbers (filter None_ne values).

(** [max(l)] on a non-empty list: the first of the largest elements. *)
Definition py_max (x : Q) (l : list Q) : Q :=
  fold_left (fun m y => if Qltb m y then y else m) l x.

Definition Qsum (l : list Q) : Q := fold_right Qplus 0%Q l.

(** The calculations dictionary: a field is [None] when its key is not
    in the dictionary; [current_*], when present, is a sample. *)
Record calculations : Type := {
  max_accessibility : option Q;
  average_accessibility : option Q;
  current_accessibility : option sample;
  max_speed : option Q;
  average_speed : option Q;
  current_speed : option sample
}.

Definition no_calculations : calculations :=
  {| max_accessibility := None; average_accessibility := None;
     current_accessibility := None;
     max_speed := None; average_speed := None; current_speed := None |}.

(** What the function writes to standard output: the [repr] of an
    exception, and the message naming the site, formatted with the
    value of the global [name]. *)
Inductive printed : Type :=
| PrintRepr (err : exn)
| PrintProblemWith (name : string).

(** The names the module binds at top level; [calculate_scores]
    assigns no [url] of its own, so the name is looked up here (no
    builtin has that name). *)
Definition module_globals : list string :=
  ["os"; "glob"; "orjson"; "Environment"; "FileSystemLoader"; "statistics";
   "base64"; "imageio"; "OrderedDict"; "c19utils"; "re"; "date";
   "url_mappings"; "translate_to_lighthouse_key"; "get_reading_ages";
   "get_map_of_lighthouse_data"; "get_date_indexed_lighthouse_data";
   "extract_scores"; "calculate_scores"; "find_reading_age";
   "translate_reading_age"; "generate_timelapse"; "build_combined_rankings";
   "build_top_table"; "process_site"; "add_video_elements"; "directories";
   "page_tmpl_file"; "index_tmpl_file"; "latest_language_data";
   "lighthouse_index"; "site_list"; "tmpl_env"; "page_template";
   "index_template"; "top_scores"; "avg_scores"; "site"; "stripped_url";
   "scores"; "clean_url"; "url_stub"; "report"; "output"; "rankings";
   "sorted_rankings"; "index"; "index_file"]%string.

Definition global_bound (name : string) : bool :=
  existsb (String.eqb name) module_globals.

(** [except Exception as err: print(repr(err));
     print(f"Problem with {url}"); raise err] *)
Definition report_problem {A : Type} (err : exn) : list printed * result A :=
  if global_bound "url"
  then ([PrintRepr err; PrintProblemWith "url"], Raise err)
  else ([PrintRepr err], Raise (NameError "url")).

Section Summarizer.
(** [to_float] is the rounding of an exact rational to the nearest
    [float], the last step of [statistics.mean]. *)
Variable to_float : Q -> Q.

(** [statistics.mean(l)] on a non-empty list: the exact mean, rounded. *)
Definition mean (l : list Q) : Q :=
  to_float (Qsum l / inject_Z (Z.of_nat (List.length l))).

(** The body of the [try]; [len(l) > 0] is the case of a non-empty
    list. *)
Definition summarize (latest_date : string) (extracted_accessibility
    extracted_speed : list Q) (data : PyDict.t report) : result calculations :=
  c1 <- match extracted_accessibility with
        | [] => Ok no_calculations
        | x :: rest =>
            cur <- category_score data latest_date "accessibility" ;;
            Ok {| max_accessibility := Some (py_max x rest);
                  average_accessibility := Some (mean extracted_accessibility);
                  current_accessibility := Some cur;
                  max_speed := None; average_speed := None;
                  current_speed := None |}
        end ;;
  match extracted_speed with
  | [] => Ok c1
  | x :: rest =>
      cur <- category_score data latest_date "performance" ;;
      Ok {| max_accessibility := max_accessibility c1;
            average_accessibility := average_accessibility c1;
            current_accessibility := current_accessibility c1;
            max_speed := Some (py_max x rest);
            average_speed := Some (mean extracted_speed);
            current_speed := Some cur |}
  end.

Definition calculate_scores (latest_date : string) (extracted : time_series)
    (data : PyDict.t report) : list printed * result calculations :=
  let extracted_speed :=
    filter_not_None (PyDict.values (ts_speed extracted)) in
  let extracted_accessibility :=
    filter_not_None (PyDict.values (ts_accessibility extracted)) in
  match summarize latest_date extracted_accessibility extracted_speed data with
  | Ok calculations => ([], Ok calculations)
  | Raise err => report_problem err
  end.
End Summarizer.

(* ================================================================= *)
(** ** ReadingAgeResolver: [find_reading_age], [translate_reading_age] *)

(** The values that [scores['reading age']] takes. *)
Inductive pyval : Type :=
| PyNone
| PyStr (s : string)
| PyInt (n : Z).

(** [language_data[method]['standard']] *)
Definition standard_label (language_data : PyDict.t (PyDict.t pyval))
    (method : string) : result pyval :=
  d <- PyDict.getitem language_data method ;;
  PyDict.getitem d "standard".

Definition try_except_KeyError {A : Type} (r handler : result A) : result A :=
  match r with
  | Raise (KeyError _) => handler
  | _ => r
  end.

Definition find_reading_age (language_data : PyDict.t (PyDict.t pyval))
    : result pyval :=
  reading_age <-
    try_except_KeyError (standard_label language_data "dragnet")
      (try_except_KeyError (standard_label language_data "trafilatura")
         (Ok PyNone)) ;;
  match reading_age with
  | PyStr s => if String.eqb s "-1th and 0th grade" then Ok PyNone
               else Ok reading_age
  | _ => Ok reading_age
  end.

(** The module's global variable [scores], as far as the resolver can
    see it: unbound ([None]), or a dictionary whose ['reading age'] key
    is missing or holds a value. *)
Record py_globals : Type := {
  g_scores : option (PyDict.t pyval)
}.

(** [re.search(r'\d+', v)]: a [TypeError] unless [v] is a string. *)
Definition re_search_digits (v : pyval) : result (option string) :=
  match v with
  | PyStr s => Ok (search_digits s)
  | _ => Raise TypeError
  end.

(** The grade-to-age steps of [translate_reading_age]. *)
Definition approx_age_of (score_to_use : Z) : option Z :=
  if (0 <? score_to_use) && (score_to_use <? 13) then Some (score_to_use + 5)
  else if 13 <? score_to_use then Some 18
  else None.

(** The function reads the global [scores], not its parameter. *)
Definition translate_reading_age (g : py_globals) (current_age : pyval)
    : option Z :=
  let body : result (option Z) :=
    scores <- match g_scores g with
              | Some d => Ok d
              | None => Raise (NameError "scores")
              end ;;
    label <- PyDict.getitem scores "reading age" ;;
    extracted_numbers <- re_search_digits label ;;
    digits <- match extracted_numbers with
              | Some m => Ok m
              | None => Raise AttributeError
              end ;;
    score_to_use <- py_int digits ;;
    Ok (approx_age_of score_to_use) in
  match body with
  | Ok approx_age => approx_age
  | Raise _ => None
  end.

(** The mapping as the specification words it, a function of the label
    alone: grades 1 to 12 give grade + 5, grades above 12 give 18,
    grade 0 or no number gives absent. *)
Definition spec_reading_age (label : string) : option Z :=
  match search_digits label with
  | None => None
  | Some digits =>
      let grade := digits_value 0 digits in
      if (1 <=? grade) && (grade <=? 12) then Some (grade + 5)
      else if 12 <? grade then Some 18
      else None
  end.

(* ================================================================= *)
(** ** RankingBuilder: [build_combined_rankings] *)

(** [avg_scores]: per metric, site -> average value. *)
Record avg_scores : Type := {
  avg_accessibility : PyDict.t Q;
  avg_speed : PyDict.t Q;
  avg_reading_age : PyDict.t Z
}.

(** The three rankings, [rankings['speed']], [rankings['accessibility']]
    and [rankings['reading age']], each an [OrderedDict] site -> value. *)
Record rankings : Type := {
  r_speed : PyDict.t Q;
  r_accessibility : PyDict.t Q;
  r_reading_age : PyDict.t Z
}.

(** [OrderedDict(sorted(d.items(), key=lambda x: x[1], reverse=...))]:
    speed and accessibility with [reverse=True], reading age without. *)
Definition build_combined_rankings (avg : avg_scores) : rankings :=
  {| r_speed :=
       PyDict.of_items (py_sorted snd Qltb true (PyDict.items (avg_speed avg)));
     r_accessibility :=
       PyDict.of_items
         (py_sorted snd Qltb true (PyDict.items (avg_accessibility avg)));
     r_reading_age :=
       PyDict.of_items
         (py_sorted snd Z.ltb false (PyDict.items (avg_reading_age avg))) |}.

(* ================================================================= *)
(** ** LeaderboardComposer: [build_top_table] *)

(** One row [top_table[site]].  [e_accessibility] and [e_speed] are
    [None] where the source stores the ['-'] default, [e_reading_age]
    where it stores [None]; [e_overall = None] means the row has no
    ['overall'] key. *)
Record entry : Type := {
  e_accessibility : option Q;
  e_speed : option Q;
  e_reading_age : option Z;
  e_overall : option Z
}.

Definition with_overall (e : entry) (o : Z) : entry :=
  {| e_accessibility := e_accessibility e;
     e_speed := e_speed e;
     e_reading_age := e_reading_age e;
     e_overall := Some o |}.

(** [row['overall']] *)
Definition getitem_overall (e : entry) : result Z :=
  match e_overall e with
  | Some o => Ok o
  | None => Raise (KeyError "overall")
  end.

(** [try: row['overall'] = 2 * (site_count - list(ranking).index(site))
     except ValueError: ''] *)
Definition set_overall (site_count : Z) (ranking : list string)
    (site : string) (e : entry) : result entry :=
  except_ValueError
    (i <- py_index ranking site ;;
     Ok (with_overall e (2 * (site_count - i))))
    e.

(** [try: row['overall'] += site_count - list(ranking).index(site)
     except ValueError: ''].
    An augmented assignment to a subscript loads the current value
    before it evaluates the right-hand side. *)
Definition add_overall (site_count : Z) (ranking : list string)
    (site : string) (e : entry) : result entry :=
  except_ValueError
    (o <- getitem_overall e ;;
     i <- py_index ranking site ;;
     Ok (with_overall e (o + (site_count - i))))
    e.

(** The body of the loop for one site. *)
Definition site_entry (site_count : Z) (rk : rankings) (site : string)
    : result entry :=
  let e0 := {| e_accessibility := PyDict.get (r_accessibility rk) site;
               e_speed := PyDict.get (r_speed rk) site;
               e_reading_age := PyDict.get (r_reading_age rk) site;
               e_overall := None |} in
  e1 <- set_overall site_count (PyDict.keys (r_speed rk)) site e0 ;;
  e2 <- add_overall site_count (PyDict.keys (r_accessibility rk)) site e1 ;;
  add_overall site_count (PyDict.keys (r_reading_age rk)) site e2.

Fixpoint fill_top_table (site_count : Z) (rk : rankings)
    (sites : list string) (top_table : PyDict.t entry)
    : result (PyDict.t entry) :=
  match sites with
  | [] => Ok top_table
  | site :: rest =>
      e <- site_entry site_count rk site ;;
      fill_top_table site_count rk rest (PyDict.set top_table site e)
  end.

(** The keys [x[1]['overall']] of the final sort, computed for every
    item before any comparison. *)
Fixpoint overall_keys (items : list (string * entry))
    : result (list (Z * (string * entry))) :=
  match items with
  | [] => Ok []
  | x :: rest =>
      o <- getitem_overall (snd x) ;;
      keyed <- overall_keys rest ;;
      Ok ((o, x) :: keyed)
  end.

Definition build_top_table (site_list : list string) (rk : rankings)
    : result (PyDict.t entry) :=
  let site_count := Z.of_nat (List.length site_list) in
  top_table <- fill_top_table site_count rk site_list PyDict.empty ;;
  keyed <- overall_keys (PyDict.items top_table) ;;
  Ok (PyDict.of_items (map snd (py_sorted fst Z.ltb true keyed))).

(** The contribution of one ranking to a site's overall score:
    [site_count - position] when the site is ranked, nothing otherwise;
    and the blend of the three, speed counted twice. *)
Definition rank_term (site_count : Z) (ranking : list string) (site : string)
    : Z :=
  match index_of ranking site with
  | Some i => site_count - i
  | None => 0
  end.

Definition overall_formula (site_count : Z) (rk : rankings) (site : string)
    : Z :=
  2 * rank_term site_count (PyDict.keys (r_speed rk)) site
  + rank_term site_count (PyDict.keys (r_accessibility rk)) site
  + rank_term site_count (PyDict.keys (r_reading_age rk)) site.

(** The row the loop builds for a site of the speed ranking. *)
Definition row_of (site_count : Z) (rk : rankings) (site : string) : entry :=
  {| e_accessibility := PyDict.get (r_accessibility rk) site;
     e_speed := PyDict.get (r_speed rk) site;
     e_reading_age := PyDict.get (r_reading_age rk) site;
     e_overall := Some (overall_formula site_count rk site) |}.

(** The blend as the specification words it: each term counts from the
    number of entries of the ranking it consults. *)
Definition spec_overall (rk : rankings) (site : string) : Z :=
  let term (ranking : list string) :=
    rank_term (Z.of_nat (List.length ranking)) ranking site in
  2 * term (PyDict.keys (r_speed rk))
  + term (PyDict.keys (r_accessibility rk))
  + term (PyDict.keys (r_reading_age rk)).

(* ================================================================= *)
(** ** The run: [process_site] and the loop of [__main__]

    Reading files, rendering templates and the timelapse are left out;
    a file of audit data stands for the report decoded from it. *)

Definition url_mappings : PyDict.t string :=
  [("https://coronaviruscolombia.gov.co/",
    "https://coronaviruscolombia.gov.co/Covid19/index.html");
   ("https://health.ri.gov/covid", "https://health.ri.gov/covid/");
   ("https://www.health.ny.gov/diseases/communicable/coronavirus/",
    "https://coronavirus.health.ny.gov/home");
   ("https://www.govt.nz/covid-19-novel-coronavirus/",
    "https://covid19.govt.nz/");
   ("https://en.ssi.dk", "https://en.ssi.dk/");
   ("https://arkartassituacija.gov.lv", "https://arkartassituacija.gov.lv/");
   ("https://www.bahamas.gov.bs", "https://www.bahamas.gov.bs/");
   ("https://www.mspas.gob.gt/index.php/noticias/coronavirus-2019-ncov",
    "https://www.mspas.gob.gt/index.php/noticias/covid-19/coronavirus-2019-ncov");
   ("https://www.mspas.gob.gt/index.php/noticias/covid-19/coronavirus-2019-ncov",
    "https://www.mspas.gob.gt/index.php/noticias/coronavirus-2019-ncov");
   ("https://www.ontario.ca/page/2019-novel-coronavirus",
    "https://covid-19.ontario.ca")]%string.

Definition translate_to_lighthouse_key (lighthouse_keys : list string)
    (url : string) : result string :=
  if existsb (String.eqb url) lighthouse_keys then Ok url
  else
    mapped <- PyDict.getitem url_mappings url ;;
    if existsb (String.eqb mapped) lighthouse_keys then Ok mapped else Ok url.

(** The body of the loop of [get_map_of_lighthouse_data]:
    [if not url in combined.keys(): combined[url] = []] and then
    [combined[url].append(json_file)]. *)
Definition add_file (combined : PyDict.t (list report)) (loaded_json : report)
    : PyDict.t (list report) :=
  let url := finalUrl loaded_json in
  let combined :=
    if PyDict.mem combined url then combined
    else PyDict.set combined url [] in
  match PyDict.get combined url with
  | Some files => PyDict.set combined url (files ++ [loaded_json])
  | None => combined
  end.

(** [get_map_of_lighthouse_data]: the files of the audit folder grouped
    by the [finalUrl] of the report each holds. *)
Definition get_map_of_lighthouse_data (json_file_list : list report)
    : PyDict.t (list report) :=
  fold_left add_file json_file_list PyDict.empty.

(** [parsed_data[fetchTime.split('T')[0]] = loaded_json], file by file. *)
Definition get_date_indexed_lighthouse_data (json_file_list : list report)
    : PyDict.t report :=
  fold_left
    (fun parsed_data loaded_json =>
       PyDict.set parsed_data
         (hd EmptyString (split_on "T" (fetchTime loaded_json))) loaded_json)
    json_file_list PyDict.empty.

(** [l[-1]] *)
Definition list_last {A : Type} (l : list A) : result A :=
  match rev l with
  | x :: _ => Ok x
  | [] => Raise IndexError
  end.

(** The per-metric dictionaries the loop fills, and the site list (the
    details stored for a site are reduced to its URL). *)
Record main_state : Type := {
  site_list : PyDict.t string;
  top_scores_accessibility : PyDict.t Q;
  top_scores_speed : PyDict.t Q;
  avg : avg_scores
}.

Definition initial_state : main_state :=
  {| site_list := PyDict.empty;
     top_scores_accessibility := PyDict.empty;
     top_scores_speed := PyDict.empty;
     avg := {| avg_accessibility := PyDict.empty;
               avg_speed := PyDict.empty;
               avg_reading_age := PyDict.empty |} |}.

(** [scores.get(key, 0)] on a numeric key of the calculations. *)
Definition get_or_0 (v : option Q) : Q :=
  match v with
  | Some q => q
  | None => 0%Q
  end.

Section Run.
Variable to_float : Q -> Q.
Variable today : date.
Variable lighthouse_index : PyDict.t (list report).
Variable latest_language_data : PyDict.t (PyDict.t (PyDict.t pyval)).

Definition process_site (stripped_url : string)
    : result (calculations * time_series) :=
  key <- translate_to_lighthouse_key (PyDict.keys lighthouse_index)
           stripped_url ;;
  files <- PyDict.getitem lighthouse_index key ;;
  let site_data := get_date_indexed_lighthouse_data files in
  let dates_covered :=
    py_sorted (fun s : string => s) String.ltb false (PyDict.keys site_data) in
  latest_date <- list_last dates_covered ;;
  extracted_scores <- extract_scores today site_data dates_covered ;;
  scores <- snd (calculate_scores to_float latest_date extracted_scores
                   site_data) ;;
  Ok (scores, extracted_scores).

(** [scores = {}; try: scores = process_site(...) except KeyError: ...]:
    after a [KeyError] the loop goes on with the empty [scores]. *)
Definition site_scores (stripped_url : string) : result calculations :=
  match process_site stripped_url with
  | Ok (scores, _) => Ok scores
  | Raise (KeyError _) => Ok no_calculations
  | Raise err => Raise err
  end.

(** [scores['reading age']] after lines 243-248: the label found for the
    site is stored in the global [scores], then translated. *)
Definition site_reading_age (stripped_url : string) : option Z :=
  match (language_data <- PyDict.getitem latest_language_data stripped_url ;;
         find_reading_age language_data) with
  | Ok label =>
      translate_reading_age
        {| g_scores := Some (PyDict.set PyDict.empty "reading age" label) |}
        label
  | Raise _ => None
  end.

(** [if age: d[url] = age] *)
Definition set_if_truthy (d : PyDict.t Z) (url : string) (age : option Z)
    : PyDict.t Z :=
  match age with
  | Some n => if n =? 0 then d else PyDict.set d url n
  | None => d
  end.

(** One turn of the loop over the monitored sites. *)
Definition main_step (state : result main_state) (stripped_url : string)
    : result main_state :=
  st <- state ;;
  scores <- site_scores stripped_url ;;
  let reading_age := site_reading_age stripped_url in
  Ok {| site_list := PyDict.set (site_list st) stripped_url stripped_url;
        top_scores_accessibility :=
          PyDict.set (top_scores_accessibility st) stripped_url
            (get_or_0 (max_accessibility scores));
        top_scores_speed :=
          PyDict.set (top_scores_speed st) stripped_url
            (get_or_0 (max_speed scores));
        avg :=
          {| avg_accessibility :=
               PyDict.set (avg_accessibility (avg st)) stripped_url
                 (get_or_0 (average_accessibility scores));
             avg_speed :=
               PyDict.set (avg_speed (avg st)) stripped_url
                 (get_or_0 (average_speed scores));
             avg_reading_age :=
               set_if_truthy (avg_reading_age (avg st)) stripped_url
                 reading_age |} |}.

Definition main_loop (sites : list string) : result main_state :=
  fold_left main_step sites (Ok initial_state).

(** The rankings and the leaderboard handed to the index template. *)
Definition main (sites : list string)
    : result (rankings * PyDict.t entry) :=
  st <- main_loop sites ;;
  let rankings := build_combined_rankings (avg st) in
  sorted_rankings <- build_top_table (PyDict.keys (site_list st)) rankings ;;
  Ok (rankings, sorted_rankings).
End Run.

(* ================================================================= *)
(** ** Vocabulary of the properties *)

(** The date under which a report is indexed:
    [fetchTime.split('T')[0]]. *)
Definition fetch_date (r : report) : string :=
  hd EmptyString (split_on "T" (fetchTime r)).

(** The order of the calendar, on year, month and day. *)
Definition date_lt (a b : date) : Prop :=
  year a < year b \/
  (year a = year b /\
   (month a < month b \/ (month a = month b /\ day a < day b))).

Definition is_decimal (k : Z) : Prop := 0 <= k <= 9.

(** The ISO string of a date, [YYYY-MM-DD] with the year on four
    digits ([d.isoformat()]): the form of the date that a report's
    [fetchTime] starts with. *)
Definition isoformat (d : date) : string :=
  (pad4 (year d) ++ "-" ++ pad2 (month d) ++ "-" ++ pad2 (day d))%string.

(** The ten characters of a date string, from the digits of the year,
    the month and the day. *)
Definition date_string (y1 y2 y3 y4 m1 m2 d1 d2 : Z) : string :=
  String (digit_char y1) (String (digit_char y2) (String (digit_char y3)
    (String (digit_char y4) (String "-"
      (String (digit_char m1) (String (digit_char m2) (String "-"
        (String (digit_char d1) (String (digit_char d2) EmptyString))))))))).

(** What the summary holds for one metric, given the non-absent values
    [xs] of its series and the outcome [lookup] of reading the score at
    the latest date: nothing when [xs] is empty; otherwise the largest
    value, the rounded mean and the looked-up current score, with
    [least value <= average <= max]. *)
Definition metric_statistics (to_float : Q -> Q) (xs : list Q)
    (lookup : result sample) (mx av : option Q) (cur : option sample) : Prop :=
  match xs with
  | [] => mx = None /\ av = None /\ cur = None
  | _ :: _ =>
      exists (m a : Q) (c : sample) (lo : Q),
        mx = Some m /\ av = Some a /\ cur = Some c /\ lookup = Ok c /\
        In m xs /\ (forall y, In y xs -> (y <= m)%Q) /\
        a = to_float (Qsum xs / inject_Z (Z.of_nat (List.length xs)))%Q /\
        In lo xs /\ (forall y, In y xs -> (lo <= y)%Q) /\
        (lo <= a)%Q /\ (a <= m)%Q
  end.

(** A dictionary filled with [d[k] = f k] for the keys seen so far. *)
Definition filled_with {V : Type} (f : string -> V) (seen : list string)
    (d : PyDict.t V) : Prop :=
  NoDup (PyDict.keys d) /\
  (forall k, In k (PyDict.keys d) <-> In k seen) /\
  (forall k v, PyDict.get d k = Some v -> v = f k).

(** A dictionary filled with [if g k: d[k] = g k] for the keys seen. *)
Definition filled_if_truthy (g : string -> option Z) (seen : list string)
    (d : PyDict.t Z) : Prop :=
  NoDup (PyDict.keys d) /\
  (forall k, In k (PyDict.keys d)
             <-> In k seen /\ exists n, g k = Some n /\ n <> 0) /\
  (forall k n, PyDict.get d k = Some n -> g k = Some n).

(** A pair of series as the loop of [extract_scores] keeps it: the same
    dates in the same order in both, no date twice, and under each date
    the scores of the report of that date. *)
Definition daily_series (data : PyDict.t report) (out : time_series) : Prop :=
  PyDict.keys (ts_accessibility out) = PyDict.keys (ts_speed out) /\
  NoDup (PyDict.keys (ts_accessibility out)) /\
  (forall k v, PyDict.get (ts_accessibility out) k = Some v ->
               v = day_score data k "accessibility") /\
  (forall k v, PyDict.get (ts_speed out) k = Some v ->
               v = day_score data k "performance").

Section RunState.
Variable to_float : Q -> Q.
Variable today : date.
Variable lighthouse_index : PyDict.t (list report).
Variable latest_language_data : PyDict.t (PyDict.t (PyDict.t pyval)).

(** The averages a site enters the rankings with: its computed average,
    or the placeholder 0 when its summary has none. *)
Definition average_or_0 (field : calculations -> option Q) (url : string) : Q :=
  match site_scores to_float today lighthouse_index url with
  | Ok scores => get_or_0 (field scores)
  | Raise _ => 0%Q
  end.

(** The state of the loop after the sites [seen]. *)
Definition accumulated (seen : list string) (st : main_state) : Prop :=
  filled_with (fun url => url) seen (site_list st) /\
  filled_with (average_or_0 average_accessibility) seen
    (avg_accessibility (avg st)) /\
  filled_with (average_or_0 average_speed) seen (avg_speed (avg st)) /\
  filled_if_truthy (site_reading_age latest_language_data) seen
    (avg_reading_age (avg st)) /\
  (forall url, In url seen ->
     exists scores,
       site_scores to_float today lighthouse_index url = Ok scores).
End RunState.

(* ================================================================= *)
(** ** Sample inputs *)

(** Sample inputs: a report with both categories scored, and one from a
    run that audited performance only. *)
Definition report_both (fetched : string) (accessibility performance : Q)
    : report :=
  {| finalUrl := "https://covid19.govt.nz/";
     fetchTime := fetched;
     categories := [("accessibility", [("score", Some accessibility)]);
                    ("performance", [("score", Some performance)])]%string |}.

Definition report_performance_only (fetched : string) (performance : Q)
    : report :=
  {| finalUrl := "https://covid19.govt.nz/";
     fetchTime := fetched;
     categories := [("performance", [("score", Some performance)])]%string |}.

Definition data_latest_unscored : PyDict.t report :=
  [("2020-05-01", report_both "2020-05-01T03:10:00.000Z" 0.9 0.5);
   ("2020-05-02", report_performance_only "2020-05-02T03:10:00.000Z" 0.6)
  ]%string%Q.

Definition series_latest_unscored : time_series :=
  {| ts_accessibility :=
       [("2020-05-01", Some 0.9); ("2020-05-02", None)]%string%Q;
     ts_speed :=
       [("2020-05-01", Some 0.5); ("2020-05-02", Some 0.6)]%string%Q |}.

Definition data_scored : PyDict.t report :=
  [("2020-05-01", report_both "2020-05-01T03:10:00.000Z" 0.9 0.5);
   ("2020-05-03", report_both "2020-05-03T03:10:00.000Z" 0.7 0.6)
  ]%string%Q.

Definition series_scored : time_series :=
  {| ts_accessibility :=
       [("2020-05-01", Some 0.9); ("2020-05-02", None);
        ("2020-05-03", Some 0.7)]%string%Q;
     ts_speed :=
       [("2020-05-01", Some 0.5); ("2020-05-02", None);
        ("2020-05-03", Some 0.6)]%string%Q |}.



Definition averages_with_ties : avg_scores :=
  {| avg_accessibility :=
       [("https://a.example/", 0.8); ("https://b.example/", 0.95);
        ("https://c.example/", 0.8)]%string%Q;
     avg_speed :=
       [("https://a.example/", 0.5); ("https://b.example/", 0.5);
        ("https://c.example/", 0.9)]%string%Q;
     avg_reading_age :=
       [("https://a.example/", 14); ("https://b.example/", 12);
        ("https://c.example/", 14)]%string |}.

(** A run over two monitored sites: one whose audit data is filed under
    the URL it redirects to, with two reports and a reading-level
    label, and one without any data. *)
Definition lighthouse_index_nz : PyDict.t (list report) :=
  [("https://covid19.govt.nz/",
    [report_both "2020-05-01T03:10:00.000Z" 0.9 0.5;
     report_both "2020-05-03T03:10:00.000Z" 0.7 0.6])]%string%Q.

Definition language_data_nz : PyDict.t (PyDict.t (PyDict.t pyval)) :=
  [("https://www.govt.nz/covid-19-novel-coronavirus/",
    [("dragnet", [("standard", PyStr "9th and 10th grade")])])]%string.

Definition sites_nz : list string :=
  ["https://www.govt.nz/covid-19-novel-coronavirus/";
   "https://nodata.example/"]%string.

(** An index in which the latest report of a site lacks the
    accessibility category. *)
Definition lighthouse_index_unscored : PyDict.t (list report) :=
  [("https://covid19.govt.nz/",
    [report_both "2020-05-01T03:10:00.000Z" 0.9 0.5;
     report_performance_only "2020-05-02T03:10:00.000Z" 0.6])]%string%Q.

(* ================================================================= *)
(** ** Tactics for the calendar and for digits *)

Ltac month_cases m :=
  let H := fresh "Hm" in
  assert (H : m = 1 \/ m = 2 \/ m = 3 \/ m = 4 \/ m = 5 \/ m = 6 \/ m = 7 \/
              m = 8 \/ m = 9 \/ m = 10 \/ m = 11 \/ m = 12) by lia;
  destruct H as [H|[H|[H|[H|[H|[H|[H|[H|[H|[H|[H|H]]]]]]]]]]]; subst m.

Ltac calendar_tables :=
  unfold days_before_month, days_in_month in *;
  cbn [Z.ltb Z.compare Pos.compare Pos.compare_cont andb] in *.

Ltac digit_cases k :=
  let H := fresh "Hk" in
  assert (H : k = 0 \/ k = 1 \/ k = 2 \/ k = 3 \/ k = 4 \/ k = 5 \/ k = 6 \/
              k = 7 \/ k = 8 \/ k = 9) by lia;
  destruct H as [H|[H|[H|[H|[H|[H|[H|[H|[H|H]]]]]]]]]; subst k.

(* ================================================================= *)
(** * Properties *)

(* ----------------------------------------------------------------- *)
(** ** The error monad *)

Lemma bind_Ok_inv {A B : Type} (r : result A) (k : A -> result B) (b : B) :
  bind r k = Ok b -> exists a, r = Ok a /\ k a = Ok b.
Proof.
  destruct r as [a|e]; simpl; intros H; [eauto | discriminate].
Qed.

(* ----------------------------------------------------------------- *)
(** ** Dictionaries *)

Lemma PyDict_get_None_iff {V : Type} (d : PyDict.t V) (k : string) :
  PyDict.get d k = None <-> ~ In k (PyDict.keys d).
Proof.
  induction d as [|[k' v] d IH]; simpl.
  - tauto.
  - destruct (String.eqb_spec k' k) as [->|Hne].
    + split; [discriminate | tauto].
    + rewrite IH. tauto.
Qed.

Lemma PyDict_get_Some_In {V : Type} (d : PyDict.t V) (k : string) (v : V) :
  PyDict.get d k = Some v -> In (k, v) d.
Proof.
  induction d as [|[k' v'] d IH]; simpl; [discriminate|].
  destruct (String.eqb_spec k' k) as [->|Hne].
  - intros [= ->]. now left.
  - intros H. right. now apply IH.
Qed.

Lemma PyDict_In_get {V : Type} (d : PyDict.t V) (k : string) (v : V) :
  NoDup (PyDict.keys d) -> In (k, v) d -> PyDict.get d k = Some v.
Proof.
  induction d as [|[k' v'] d IH]; simpl; [tauto|].
  intros Hnd [Heq|Hin].
  - inversion Heq; subst. now rewrite String.eqb_refl.
  - inversion Hnd as [|? ? Hnotin Hnd']; subst.
    destruct (String.eqb_spec k' k) as [->|Hne].
    + exfalso. apply Hnotin. change k with (fst (k, v)). now apply in_map.
    + now apply IH.
Qed.

Lemma PyDict_set_fresh {V : Type} (d : PyDict.t V) (k : string) (v : V) :
  ~ In k (PyDict.keys d) -> PyDict.set d k v = d ++ [(k, v)].
Proof.
  induction d as [|[k' v'] d IH]; simpl; intros Hnotin; [reflexivity|].
  destruct (String.eqb_spec k' k) as [->|Hne]; [tauto|].
  rewrite IH; tauto.
Qed.

Lemma PyDict_keys_set {V : Type} (d : PyDict.t V) (k : string) (v : V) :
  PyDict.keys (PyDict.set d k v)
  = if PyDict.mem d k then PyDict.keys d else PyDict.keys d ++ [k].
Proof.
  unfold PyDict.mem.
  induction d as [|[k' v'] d IH]; simpl; [reflexivity|].
  destruct (String.eqb_spec k' k) as [->|Hne]; simpl; [reflexivity|].
  rewrite IH. now destruct (PyDict.get d k).
Qed.

Lemma PyDict_get_set {V : Type} (d : PyDict.t V) (k k' : string) (v : V) :
  PyDict.get (PyDict.set d k v) k'
  = if String.eqb k k' then Some v else PyDict.get d k'.
Proof.
  induction d as [|[k0 v0] d IH]; simpl.
  - reflexivity.
  - destruct (String.eqb_spec k0 k) as [->|Hne]; simpl.
    + now destruct (String.eqb_spec k k').
    + destruct (String.eqb_spec k0 k') as [->|Hne'].
      * destruct (String.eqb_spec k k'); [congruence | reflexivity].
      * apply IH.
Qed.

Lemma PyDict_fold_set_fresh {V : Type} (l acc : list (string * V)) :
  NoDup (PyDict.keys (acc ++ l)) ->
  fold_left (fun d kv => PyDict.set d (fst kv) (snd kv)) l acc = acc ++ l.
Proof.
  revert acc.
  induction l as [|[k v] l IH]; intros acc Hnd; simpl.
  - now rewrite app_nil_r.
  - rewrite PyDict_set_fresh.
    + rewrite IH; rewrite <- app_assoc; [reflexivity | exact Hnd].
    + unfold PyDict.keys in *. rewrite map_app in Hnd. simpl in Hnd.
      apply NoDup_remove_2 in Hnd. intros Hin. apply Hnd.
      apply in_or_app. now left.
Qed.

(** Building a dictionary from pairs with distinct keys keeps them as
    they are. *)
Lemma PyDict_of_items_NoDup {V : Type} (l : list (string * V)) :
  NoDup (PyDict.keys l) -> PyDict.of_items l = l.
Proof.
  intros Hnd. unfold PyDict.of_items, PyDict.empty.
  now rewrite PyDict_fold_set_fresh.
Qed.

Lemma PyDict_In_keys_set {V : Type} (d : PyDict.t V) (k k' : string) (v : V) :
  In k' (PyDict.keys (PyDict.set d k v)) <-> k' = k \/ In k' (PyDict.keys d).
Proof.
  rewrite PyDict_keys_set. unfold PyDict.mem.
  destruct (PyDict.get d k) as [v0|] eqn:Hget.
  - split; [tauto|]. intros [->|H]; [|exact H].
    apply PyDict_get_Some_In in Hget. change k with (fst (k, v0)).
    now apply in_map.
  - rewrite in_app_iff. simpl. intuition congruence.
Qed.

Lemma PyDict_NoDup_set {V : Type} (d : PyDict.t V) (k : string) (v : V) :
  NoDup (PyDict.keys d) -> NoDup (PyDict.keys (PyDict.set d k v)).
Proof.
  intros Hnd. rewrite PyDict_keys_set. unfold PyDict.mem.
  destruct (PyDict.get d k) eqn:Hget; [exact Hnd|].
  apply PyDict_get_None_iff in Hget.
  apply NoDup_app; [exact Hnd | repeat constructor; intros [] | ].
  intros x Hx [<-|[]]. contradiction.
Qed.

Lemma PyDict_get_In_keys {V : Type} (d : PyDict.t V) (k : string) :
  In k (PyDict.keys d) <-> exists v, PyDict.get d k = Some v.
Proof.
  destruct (PyDict.get d k) as [v|] eqn:Hget.
  - split; [eauto|]. intros _. apply PyDict_get_Some_In in Hget.
    change k with (fst (k, v)). now apply in_map.
  - apply PyDict_get_None_iff in Hget. split; [tauto|].
    intros [v Hv]. discriminate.
Qed.

(** Reordering the items of a dictionary changes no lookup. *)
Lemma PyDict_get_perm {V : Type} (d d' : PyDict.t V) (k : string) :
  NoDup (PyDict.keys d) -> Permutation d' d ->
  PyDict.get d' k = PyDict.get d k.
Proof.
  intros Hnd Hperm.
  assert (Hnd' : NoDup (PyDict.keys d')).
  { eapply Permutation_NoDup; [|exact Hnd].
    apply Permutation_map. now symmetry. }
  destruct (PyDict.get d k) as [v|] eqn:Hget.
  - apply PyDict_In_get; [exact Hnd'|].
    apply (Permutation_in _ (Permutation_sym Hperm)).
    now apply PyDict_get_Some_In.
  - apply PyDict_get_None_iff. apply PyDict_get_None_iff in Hget.
    intros Hin. apply Hget.
    eapply Permutation_in; [|exact Hin]. now apply Permutation_map.
Qed.

Lemma index_of_Some_In (l : list string) (x : string) (i : Z) :
  index_of l x = Some i -> In x l.
Proof.
  revert i. induction l as [|y l IH]; simpl; intros i; [discriminate|].
  destruct (String.eqb_spec y x) as [->|Hne]; [now left|].
  destruct (index_of l x); simpl; [|discriminate].
  intros _. right. eapply IH. reflexivity.
Qed.

Lemma index_of_In (l : list string) (x : string) :
  In x l ->
  exists i, index_of l x = Some i /\ 0 <= i < Z.of_nat (List.length l).
Proof.
  induction l as [|y l IH]; simpl; [tauto|].
  intros Hin.
  destruct (String.eqb_spec y x) as [->|Hne].
  - exists 0. split; [reflexivity | lia].
  - destruct Hin as [Heq|Hin]; [congruence|].
    destruct (IH Hin) as (i & -> & Hi). exists (Z.succ i).
    split; [reflexivity | lia].
Qed.

(* ----------------------------------------------------------------- *)
(** ** Sorting: permutation, order and stability *)

Section PySortedFacts.
Context {A K : Type}.
Variable key : A -> K.
Variable lt : K -> K -> bool.

Lemma insert_sorted_perm (x : A) (s : list A) :
  Permutation (insert_sorted key lt x s) (x :: s).
Proof.
  induction s as [|y s IH]; simpl; [reflexivity|].
  destruct (lt (key y) (key x)); [|reflexivity].
  rewrite IH. apply perm_swap.
Qed.

Lemma sort_stable_perm (l : list A) : Permutation (sort_stable key lt l) l.
Proof.
  induction l as [|x l IH]; simpl; [reflexivity|].
  rewrite insert_sorted_perm. now constructor.
Qed.

Lemma py_sorted_perm (reverse : bool) (l : list A) :
  Permutation (py_sorted key lt reverse l) l.
Proof.
  destruct reverse; simpl; [|apply sort_stable_perm].
  rewrite <- Permutation_rev, sort_stable_perm.
  symmetry. apply Permutation_rev.
Qed.

(** Stability: a stable sort does not reorder elements that its
    comparison cannot tell apart. *)
Lemma filter_insert_sorted (p : A -> bool) (x : A) (s : list A) :
  (forall y, In y s -> p x = true -> p y = true -> before key lt x y) ->
  filter p (insert_sorted key lt x s) = filter p (x :: s).
Proof.
  induction s as [|y s IH]; intros Hcls; [reflexivity|].
  simpl. destruct (lt (key y) (key x)) eqn:Hlt; [|reflexivity].
  simpl. rewrite IH by (intros; apply Hcls; simpl; auto).
  simpl. destruct (p x) eqn:Hpx; [|reflexivity].
  destruct (p y) eqn:Hpy; [|reflexivity].
  assert (Hb : before key lt x y) by (apply Hcls; simpl; auto).
  unfold before in Hb. congruence.
Qed.

Lemma filter_sort_stable (p : A -> bool) (l : list A) :
  (forall x y, In x l -> In y l -> p x = true -> p y = true ->
               before key lt x y) ->
  filter p (sort_stable key lt l) = filter p l.
Proof.
  induction l as [|x l IH]; intros Hcls; [reflexivity|].
  simpl sort_stable. rewrite filter_insert_sorted.
  - simpl. rewrite IH; [reflexivity|].
    intros; apply Hcls; simpl; auto.
  - intros y Hy. apply Hcls; simpl; auto.
    right. now rewrite <- (sort_stable_perm l).
Qed.

Lemma filter_rev (p : A -> bool) (l : list A) :
  filter p (rev l) = rev (filter p l).
Proof.
  induction l as [|x l IH]; simpl; [reflexivity|].
  rewrite filter_app, IH. simpl.
  destruct (p x); simpl; [reflexivity | now rewrite app_nil_r].
Qed.

Theorem py_sorted_stable (reverse : bool) (p : A -> bool) (l : list A) :
  (forall x y, In x l -> In y l -> p x = true -> p y = true ->
               before key lt x y) ->
  filter p (py_sorted key lt reverse l) = filter p l.
Proof.
  intros Hcls. destruct reverse; simpl.
  - rewrite filter_rev, filter_sort_stable, filter_rev, rev_involutive;
      [reflexivity|].
    intros x y Hx Hy. apply Hcls; now apply in_rev.
  - now apply filter_sort_stable.
Qed.

(** Order, for a comparison that is a strict weak order. *)
Hypothesis lt_asym : forall a b, lt a b = true -> lt b a = false.
Hypothesis lt_negtrans :
  forall a b c, lt b a = false -> lt c b = false -> lt c a = false.

Lemma insert_sorted_sorted (x : A) (s : list A) :
  StronglySorted (before key lt) s ->
  StronglySorted (before key lt) (insert_sorted key lt x s).
Proof.
  induction 1 as [|y s Hs IH Hall]; simpl.
  - constructor; constructor.
  - destruct (lt (key y) (key x)) eqn:Hlt.
    + constructor; [exact IH|].
      rewrite Forall_forall in *. intros z Hz.
      apply (Permutation_in _ (insert_sorted_perm x s)) in Hz.
      destruct Hz as [<-|Hz]; [|now apply Hall].
      unfold before. now apply lt_asym.
    + constructor; [now constructor|].
      constructor; [exact Hlt|].
      rewrite Forall_forall in *. intros z Hz.
      unfold before in *. eapply lt_negtrans; [exact Hlt | now apply Hall].
Qed.

Lemma sort_stable_sorted (l : list A) :
  StronglySorted (before key lt) (sort_stable key lt l).
Proof.
  induction l as [|x l IH]; simpl; [constructor|].
  now apply insert_sorted_sorted.
Qed.

Lemma StronglySorted_app (R : A -> A -> Prop) (l1 l2 : list A) :
  StronglySorted R l1 -> StronglySorted R l2 ->
  (forall x y, In x l1 -> In y l2 -> R x y) ->
  StronglySorted R (l1 ++ l2).
Proof.
  induction 1 as [|a l1 Hs IH Hall]; simpl; intros H2 H12; [exact H2|].
  constructor.
  - apply IH; [exact H2 | intros; apply H12; simpl; auto].
  - rewrite Forall_forall in *. intros z Hz.
    apply in_app_or in Hz. destruct Hz as [Hz|Hz];
      [now apply Hall | apply H12; simpl; auto].
Qed.

Lemma StronglySorted_rev (R : A -> A -> Prop) (l : list A) :
  StronglySorted R l -> StronglySorted (fun x y => R y x) (rev l).
Proof.
  induction 1 as [|a l Hs IH Hall]; simpl; [constructor|].
  rewrite Forall_forall in Hall.
  apply StronglySorted_app; [exact IH | repeat constructor |].
  intros x y Hx [<-|[]]. apply Hall. now apply in_rev.
Qed.

Theorem py_sorted_ascending (l : list A) :
  StronglySorted (before key lt) (py_sorted key lt false l).
Proof. apply sort_stable_sorted. Qed.

Theorem py_sorted_descending (l : list A) :
  StronglySorted (after key lt) (py_sorted key lt true l).
Proof.
  simpl. apply (StronglySorted_rev (before key lt)). apply sort_stable_sorted.
Qed.
End PySortedFacts.

Lemma filter_map_comm {A B : Type} (p : B -> bool) (f : A -> B) (l : list A) :
  filter p (map f l) = map f (filter (fun x => p (f x)) l).
Proof.
  induction l as [|x l IH]; simpl; [reflexivity|].
  destruct (p (f x)); simpl; now rewrite IH.
Qed.

Lemma StronglySorted_map_in {A B : Type} (R : A -> A -> Prop)
    (R' : B -> B -> Prop) (f : A -> B) (l : list A) :
  (forall x y, In x l -> In y l -> R x y -> R' (f x) (f y)) ->
  StronglySorted R l -> StronglySorted R' (map f l).
Proof.
  intros Himp Hs. induction Hs as [|a l Hs IH Hall]; simpl; [constructor|].
  constructor.
  - apply IH. intros; apply Himp; simpl; auto.
  - rewrite Forall_forall in *. intros z Hz.
    apply in_map_iff in Hz. destruct Hz as (y & <- & Hy).
    apply Himp; simpl; auto.
Qed.

Lemma StronglySorted_weaken {A : Type} (R R' : A -> A -> Prop) (l : list A) :
  (forall x y, R x y -> R' x y) ->
  StronglySorted R l -> StronglySorted R' l.
Proof.
  intros Himp Hs. rewrite <- (map_id l).
  apply (StronglySorted_map_in R R' (fun x => x)); auto.
Qed.

(* ----------------------------------------------------------------- *)
(** ** The comparisons of integers, scores and strings *)

Lemma Zltb_asym (a b : Z) : (a <? b) = true -> (b <? a) = false.
Proof. lia. Qed.

Lemma Zltb_negtrans (a b c : Z) :
  (b <? a) = false -> (c <? b) = false -> (c <? a) = false.
Proof. lia. Qed.

Lemma Qltb_false (x y : Q) : Qltb x y = false <-> (y <= x)%Q.
Proof.
  unfold Qltb. rewrite negb_false_iff. apply Qle_bool_iff.
Qed.

Lemma Qltb_true (x y : Q) : Qltb x y = true <-> (x < y)%Q.
Proof.
  unfold Qltb. rewrite negb_true_iff. rewrite <- not_true_iff_false.
  rewrite Qle_bool_iff. split; [apply Qnot_le_lt | apply Qlt_not_le].
Qed.

Lemma Qltb_asym (a b : Q) : Qltb a b = true -> Qltb b a = false.
Proof.
  rewrite Qltb_true, Qltb_false. apply Qlt_le_weak.
Qed.

Lemma Qltb_negtrans (a b c : Q) :
  Qltb b a = false -> Qltb c b = false -> Qltb c a = false.
Proof.
  rewrite !Qltb_false. intros Hab Hbc. now apply Qle_trans with b.
Qed.

Lemma string_compare_OT (a b : string) :
  String.compare a b = String_as_OT.compare a b.
Proof.
  revert b. induction a as [|c a IH]; destruct b as [|c' b]; simpl; auto.
Qed.

Lemma string_ltb_lt (a b : string) :
  String.ltb a b = true <-> String_as_OT.lt a b.
Proof.
  unfold String.ltb, String_as_OT.lt. rewrite string_compare_OT.
  destruct (String_as_OT.compare a b); split; congruence.
Qed.

Lemma string_ltb_asym (a b : string) :
  String.ltb a b = true -> String.ltb b a = false.
Proof.
  intros Hab. apply not_true_iff_false. intros Hba.
  apply string_ltb_lt in Hab, Hba.
  apply (StrictOrder_Irreflexive (R := String_as_OT.lt) a).
  now transitivity b.
Qed.

Lemma string_ltb_negtrans (a b c : string) :
  String.ltb b a = false -> String.ltb c b = false -> String.ltb c a = false.
Proof.
  intros Hba Hcb. apply not_true_iff_false. intros Hca.
  apply string_ltb_lt in Hca.
  destruct (String_as_OT.compare_spec a b) as [Heq|Hlt|Hgt].
  - assert (Hab : a = b) by exact Heq. subst b.
    apply string_ltb_lt in Hca. congruence.
  - assert (Hcb' : String_as_OT.lt c b) by now transitivity a.
    apply string_ltb_lt in Hcb'. congruence.
  - apply string_ltb_lt in Hgt. congruence.
Qed.

(** After [dates.sort()], [dates[0]] is a least string of the list. *)
Lemma sorted_dates_head (dates : list string) :
  dates <> [] ->
  exists first,
    list_getitem (py_sorted (fun s : string => s) String.ltb false dates) 0
    = Ok first /\
    In first dates /\
    forall s, In s dates -> String.ltb s first = false.
Proof.
  intros Hne.
  pose proof (py_sorted_perm (fun s : string => s) String.ltb false dates)
    as Hperm.
  pose proof (py_sorted_ascending (fun s : string => s) String.ltb
                string_ltb_asym string_ltb_negtrans dates) as Hsorted.
  destruct (py_sorted (fun s : string => s) String.ltb false dates)
    as [|first rest].
  - apply Permutation_nil in Hperm. contradiction.
  - exists first. split; [reflexivity|]. split.
    + apply (Permutation_in _ Hperm). now left.
    + intros s Hs. apply (Permutation_in _ (Permutation_sym Hperm)) in Hs.
      inversion Hsorted as [|? ? _ Hall]; subst.
      destruct Hs as [<-|Hs].
      * destruct (String.ltb first first) eqn:E; [|reflexivity].
        now rewrite (string_ltb_asym _ _ E) in E.
      * rewrite Forall_forall in Hall. exact (Hall s Hs).
Qed.

(* ----------------------------------------------------------------- *)
(** ** The calendar *)

Lemma valid_date_iff (d : date) :
  valid_date d <->
  1 <= year d <= 9999 /\ 1 <= month d <= 12 /\
  1 <= day d <= days_in_month (year d) (month d).
Proof.
  unfold valid_date, valid_dateb. rewrite !andb_true_iff, !Z.leb_le. tauto.
Qed.

Lemma valid_date_wf (d : date) : valid_date d -> wf_date d.
Proof. rewrite valid_date_iff. unfold wf_date. tauto. Qed.

Lemma is_leap_spec (y : Z) :
  is_leap y = true <-> (y mod 4 = 0 /\ (y mod 100 <> 0 \/ y mod 400 = 0)).
Proof.
  unfold is_leap.
  rewrite andb_true_iff, orb_true_iff, negb_true_iff, !Z.eqb_eq, Z.eqb_neq.
  tauto.
Qed.

Lemma days_before_year_succ (y : Z) :
  days_before_year (y + 1)
  = days_before_year y + 365 + (if is_leap y then 1 else 0).
Proof.
  unfold days_before_year. replace (y + 1 - 1) with y by lia. cbv zeta.
  destruct (is_leap y) eqn:Hleap.
  - apply is_leap_spec in Hleap.
    Z.to_euclidean_division_equations. lia.
  - assert (Hn : ~ (y mod 4 = 0 /\ (y mod 100 <> 0 \/ y mod 400 = 0))).
    { rewrite <- is_leap_spec. congruence. }
    Z.to_euclidean_division_equations. lia.
Qed.

Lemma days_before_year_mono (y1 y2 : Z) :
  y1 <= y2 -> days_before_year y1 <= days_before_year y2.
Proof.
  unfold days_before_year. cbv zeta. intros Hle.
  Z.to_euclidean_division_equations. lia.
Qed.

Lemma days_before_month_succ (y m : Z) :
  1 <= m <= 11 ->
  days_before_month y (m + 1) = days_before_month y m + days_in_month y m.
Proof.
  intros Hm. month_cases m; try lia;
    unfold days_before_month, days_in_month; destruct (is_leap y);
    reflexivity.
Qed.

Lemma days_before_month_mono (y m1 m2 : Z) :
  1 <= m1 -> m1 < m2 -> m2 <= 12 ->
  days_before_month y m1 + days_in_month y m1 <= days_before_month y m2.
Proof.
  intros H1 Hlt H2.
  month_cases m1; try lia; month_cases m2; try lia;
    calendar_tables; destruct (is_leap y); lia.
Qed.

(** The day of the year of an existing day lies within the year. *)
Lemma day_of_year_bounds (d : date) :
  wf_date d ->
  1 <= days_before_month (year d) (month d) + day d
    <= 365 + (if is_leap (year d) then 1 else 0).
Proof.
  destruct d as [y m dd]. unfold wf_date. cbn [year month day].
  intros [Hm Hd].
  month_cases m; try lia; calendar_tables; destruct (is_leap y); lia.
Qed.

Lemma toordinal_lt (a b : date) :
  wf_date a -> wf_date b -> date_lt a b -> toordinal a < toordinal b.
Proof.
  intros Ha Hb Hlt. unfold toordinal.
  pose proof (day_of_year_bounds a Ha) as Hda.
  pose proof (day_of_year_bounds b Hb) as Hdb.
  destruct Hlt as [Hy|[Hy [Hm|[Hm Hd]]]].
  - pose proof (days_before_year_succ (year a)) as Hs.
    pose proof (days_before_year_mono (year a + 1) (year b)) as Hmono.
    lia.
  - rewrite Hy in *. destruct Ha as [Hma Hdaa], Hb as [Hmb Hdbb].
    rewrite Hy in Hdaa.
    pose proof (days_before_month_mono (year b) (month a) (month b)).
    lia.
  - rewrite Hy, Hm. lia.
Qed.

Lemma date_trichotomy (a b : date) : date_lt a b \/ a = b \/ date_lt b a.
Proof.
  destruct a as [y1 m1 d1], b as [y2 m2 d2]. unfold date_lt. simpl.
  destruct (Z.lt_trichotomy y1 y2) as [H|[H|H]]; [lia| |lia].
  destruct (Z.lt_trichotomy m1 m2) as [H'|[H'|H']]; [lia| |lia].
  destruct (Z.lt_trichotomy d1 d2) as [H''|[H''|H'']]; [lia| |lia].
  subst. auto.
Qed.

Lemma toordinal_inj (a b : date) :
  wf_date a -> wf_date b -> toordinal a = toordinal b -> a = b.
Proof.
  intros Ha Hb Heq.
  destruct (date_trichotomy a b) as [H|[H|H]]; [|exact H|].
  - apply toordinal_lt in H; auto. lia.
  - apply toordinal_lt in H; auto. lia.
Qed.

Lemma toordinal_le_year (a b : date) :
  wf_date a -> wf_date b -> toordinal a <= toordinal b -> year a <= year b.
Proof.
  intros Ha Hb Hle.
  destruct (Z_le_gt_dec (year a) (year b)) as [H|H]; [exact H|].
  assert (Hlt : date_lt b a) by (left; lia).
  apply toordinal_lt in Hlt; auto. lia.
Qed.

Lemma next_day_wf (d : date) : wf_date d -> wf_date (next_day d).
Proof.
  destruct d as [y m dd]. unfold wf_date, next_day. cbn [year month day].
  intros [Hm Hd].
  destruct (dd <? days_in_month y m) eqn:Hlt; cbn [year month day].
  - lia.
  - destruct (m <? 12) eqn:Hm12; cbn [year month day].
    + split; [lia|].
      month_cases m; try lia;
        match goal with
        | |- context [Z.pos ?p + 1] =>
            let v := eval vm_compute in (Z.pos p + 1) in
            change (Z.pos p + 1) with v
        end;
        calendar_tables; destruct (is_leap y); lia.
    + split; [lia|]. calendar_tables. lia.
Qed.

Lemma toordinal_next_day (d : date) :
  wf_date d -> toordinal (next_day d) = toordinal d + 1.
Proof.
  destruct d as [y m dd]. unfold wf_date, next_day, toordinal.
  cbn [year month day]. intros [Hm Hd].
  destruct (dd <? days_in_month y m) eqn:Hlt; cbn [year month day]; [lia|].
  destruct (m <? 12) eqn:Hm12; cbn [year month day].
  - rewrite days_before_month_succ by lia. lia.
  - assert (m = 12) by lia. subst m.
    rewrite days_before_year_succ. calendar_tables.
    destruct (is_leap y); lia.
Qed.

Lemma next_day_year (d : date) : year d <= year (next_day d).
Proof.
  unfold next_day.
  destruct (day d <? _); simpl; [lia|]. destruct (month d <? 12); simpl; lia.
Qed.

(* ----------------------------------------------------------------- *)
(** ** Date strings *)

Lemma is_digit_digit_char (k : Z) :
  0 <= k <= 9 -> is_digit (digit_char k) = true.
Proof. intros Hk. digit_cases k; reflexivity. Qed.

Lemma digit_value_digit_char (k : Z) :
  0 <= k <= 9 -> digit_value (digit_char k) = k.
Proof. intros Hk. digit_cases k; reflexivity. Qed.

Lemma digit_char_not_dash (k : Z) :
  0 <= k <= 9 -> Ascii.eqb (digit_char k) "-" = false.
Proof. intros Hk. digit_cases k; reflexivity. Qed.

Lemma digit_char_compare (a b : Z) :
  0 <= a <= 9 -> 0 <= b <= 9 ->
  Ascii.compare (digit_char a) (digit_char b) = (a ?= b).
Proof. intros Ha Hb. digit_cases a; digit_cases b; reflexivity. Qed.

Lemma isoformat_digits (d : date) :
  valid_date d ->
  exists y1 y2 y3 y4 m1 m2 d1 d2,
    isoformat d = date_string y1 y2 y3 y4 m1 m2 d1 d2 /\
    year d = 1000 * y1 + 100 * y2 + 10 * y3 + y4 /\
    month d = 10 * m1 + m2 /\ day d = 10 * d1 + d2 /\
    is_decimal y1 /\ is_decimal y2 /\ is_decimal y3 /\ is_decimal y4 /\
    is_decimal m1 /\ is_decimal m2 /\ is_decimal d1 /\ is_decimal d2.
Proof.
  intros Hv. apply valid_date_iff in Hv. destruct Hv as (Hy & Hm & Hd).
  assert (Hd31 : day d <= 31).
  { destruct d as [y m dd]. cbn [year month day] in *.
    month_cases m; try lia; calendar_tables; destruct (is_leap y); lia. }
  exists (year d / 1000), (year d / 100 mod 10), (year d / 10 mod 10),
    (year d mod 10), (month d / 10), (month d mod 10), (day d / 10),
    (day d mod 10).
  unfold is_decimal.
  split; [reflexivity|].
  repeat split; Z.to_euclidean_division_equations; lia.
Qed.

Lemma split_on_date_string (y1 y2 y3 y4 m1 m2 d1 d2 : Z) :
  is_decimal y1 -> is_decimal y2 -> is_decimal y3 -> is_decimal y4 ->
  is_decimal m1 -> is_decimal m2 -> is_decimal d1 -> is_decimal d2 ->
  split_on "-" (date_string y1 y2 y3 y4 m1 m2 d1 d2)
  = [String (digit_char y1) (String (digit_char y2) (String (digit_char y3)
       (String (digit_char y4) EmptyString)));
     String (digit_char m1) (String (digit_char m2) EmptyString);
     String (digit_char d1) (String (digit_char d2) EmptyString)].
Proof.
  unfold is_decimal, date_string. intros.
  cbn [split_on].
  rewrite !digit_char_not_dash by assumption.
  reflexivity.
Qed.

Lemma is_digit_range (c : ascii) :
  is_digit c = true <-> 48 <= Z.of_N (N_of_ascii c) <= 57.
Proof. unfold is_digit. rewrite andb_true_iff, !Z.leb_le. tauto. Qed.

Lemma is_digit_not_space (c : ascii) :
  is_digit c = true -> is_space c = false.
Proof.
  rewrite is_digit_range. intros Hc. unfold is_space. cbv zeta.
  repeat (apply orb_false_iff; split);
    try (apply andb_false_iff; right); lia.
Qed.

Lemma is_digit_not_eqb (c other : ascii) :
  is_digit c = true -> is_digit other = false -> Ascii.eqb c other = false.
Proof.
  intros Hc Ho. destruct (Ascii.eqb_spec c other) as [->|]; congruence.
Qed.

Lemma scan_digits_all_digits (s : string) :
  all_digits s = true -> scan_digits s = (s, EmptyString).
Proof.
  induction s as [|c s IH]; simpl; [reflexivity|].
  intros H. apply andb_true_iff in H. destruct H as [Hc Hs].
  now rewrite Hc, IH.
Qed.

(** On a non-empty run of digits [int] reads the number they write. *)
Lemma py_int_all_digits (c : ascii) (s : string) :
  all_digits (String c s) = true ->
  py_int (String c s) = Ok (digits_value 0 (String c s)).
Proof.
  intros Hall. pose proof Hall as Hcs. simpl in Hcs.
  apply andb_true_iff in Hcs. destruct Hcs as [Hc _].
  unfold py_int. cbn [lstrip]. rewrite (is_digit_not_space c Hc).
  rewrite !(is_digit_not_eqb c _ Hc) by reflexivity. rewrite Hc.
  rewrite (scan_digits_all_digits _ Hall). reflexivity.
Qed.

Lemma py_int_digits4 (k1 k2 k3 k4 : Z) :
  is_decimal k1 -> is_decimal k2 -> is_decimal k3 -> is_decimal k4 ->
  py_int (String (digit_char k1) (String (digit_char k2)
            (String (digit_char k3) (String (digit_char k4) EmptyString))))
  = Ok (1000 * k1 + 100 * k2 + 10 * k3 + k4).
Proof.
  unfold is_decimal. intros.
  rewrite py_int_all_digits;
    cbn [all_digits digits_value];
    rewrite ?is_digit_digit_char, ?digit_value_digit_char by assumption;
    [f_equal; lia | reflexivity].
Qed.

Lemma py_int_digits2 (k1 k2 : Z) :
  is_decimal k1 -> is_decimal k2 ->
  py_int (String (digit_char k1) (String (digit_char k2) EmptyString))
  = Ok (10 * k1 + k2).
Proof.
  unfold is_decimal. intros.
  rewrite py_int_all_digits;
    cbn [all_digits digits_value];
    rewrite ?is_digit_digit_char, ?digit_value_digit_char by assumption;
    [f_equal; lia | reflexivity].
Qed.

Lemma valid_date_c_int (d : date) :
  valid_date d -> c_int (year d) && c_int (month d) && c_int (day d) = true.
Proof.
  intros Hv. apply valid_date_iff in Hv. destruct Hv as (Hyr & Hmo & Hda).
  assert (Hd31 : day d <= 31).
  { destruct d as [y m dd]. cbn [year month day] in *.
    month_cases m; try lia; calendar_tables; destruct (is_leap y); lia. }
  unfold c_int. rewrite !andb_true_iff, !Z.leb_le. lia.
Qed.

(** Reading back the ISO string of a date gives the date. *)
Lemma first_date_of_isoformat (d : date) :
  valid_date d -> first_date_of (isoformat d) = Ok d.
Proof.
  intros Hv.
  destruct (isoformat_digits d Hv)
    as (y1 & y2 & y3 & y4 & m1 & m2 & d1 & d2 & -> & Hy & Hm & Hd & H).
  destruct H as (? & ? & ? & ? & ? & ? & ? & ?).
  unfold first_date_of. rewrite split_on_date_string by assumption.
  cbn [list_getitem nth_error bind].
  rewrite py_int_digits4 by assumption. cbn [bind].
  rewrite !py_int_digits2 by assumption. cbn [bind].
  rewrite <- Hy, <- Hm, <- Hd. unfold date_of.
  rewrite (valid_date_c_int d Hv). destruct d as [y m dd]. cbn [year month day].
  unfold valid_date in Hv. now rewrite Hv.
Qed.

Lemma isoformat_inj (a b : date) :
  valid_date a -> valid_date b -> isoformat a = isoformat b -> a = b.
Proof.
  intros Ha Hb Heq.
  pose proof (first_date_of_isoformat a Ha) as Hpa.
  pose proof (first_date_of_isoformat b Hb) as Hpb.
  rewrite Heq in Hpa. congruence.
Qed.

(** Date strings compare as the dates they write. *)
Lemma isoformat_lt (a b : date) :
  valid_date a -> valid_date b -> date_lt a b ->
  String.ltb (isoformat a) (isoformat b) = true.
Proof.
  intros Ha Hb Hlt.
  destruct (isoformat_digits a Ha)
    as (a1 & a2 & a3 & a4 & a5 & a6 & a7 & a8 & -> & Hya & Hma & Hda & HA).
  destruct (isoformat_digits b Hb)
    as (b1 & b2 & b3 & b4 & b5 & b6 & b7 & b8 & -> & Hyb & Hmb & Hdb & HB).
  destruct HA as (? & ? & ? & ? & ? & ? & ? & ?).
  destruct HB as (? & ? & ? & ? & ? & ? & ? & ?).
  unfold date_lt in Hlt. rewrite Hya, Hyb, Hma, Hmb, Hda, Hdb in Hlt.
  unfold String.ltb, date_string. cbn [String.compare].
  rewrite !digit_char_compare by assumption.
  change (Ascii.compare "-" "-") with Eq. cbv iota.
  unfold is_decimal in *.
  repeat (match goal with
          | |- context [?x ?= ?y] => destruct (Z.compare_spec x y)
          end; cbv iota);
    solve [reflexivity | exfalso; lia].
Qed.

(* ----------------------------------------------------------------- *)
(** ** The days of a range *)

Lemma days_from_length (d : date) (n : nat) :
  List.length (days_from d n) = n.
Proof.
  revert d. induction n as [|n IH]; intros d; simpl; [reflexivity|].
  now rewrite IH.
Qed.

Lemma days_from_In (n : nat) (d x : date) :
  wf_date d -> In x (days_from d n) ->
  wf_date x /\ year d <= year x /\
  toordinal d <= toordinal x < toordinal d + Z.of_nat n.
Proof.
  revert d. induction n as [|n IH]; intros d Hwf Hin; simpl in Hin;
    [contradiction|].
  destruct Hin as [<-|Hin].
  - split; [exact Hwf | lia].
  - destruct (IH (next_day d) (next_day_wf d Hwf) Hin) as (Hx & Hy & Ho).
    rewrite toordinal_next_day in Ho by assumption.
    pose proof (next_day_year d). split; [exact Hx | lia].
Qed.

Lemma days_from_complete (n : nat) (d x : date) :
  wf_date d -> wf_date x ->
  toordinal d <= toordinal x < toordinal d + Z.of_nat n ->
  In x (days_from d n).
Proof.
  revert d. induction n as [|n IH]; intros d Hwf Hx Ho; [lia|].
  simpl. destruct (Z.eq_dec (toordinal d) (toordinal x)) as [Heq|Hne].
  - left. now apply toordinal_inj.
  - right. apply IH; [now apply next_day_wf | exact Hx |].
    rewrite toordinal_next_day by assumption. lia.
Qed.

Lemma days_from_increasing (n : nat) (d : date) :
  wf_date d ->
  StronglySorted (fun a b => toordinal a < toordinal b) (days_from d n).
Proof.
  revert d. induction n as [|n IH]; intros d Hwf; simpl; constructor.
  - apply IH. now apply next_day_wf.
  - rewrite Forall_forall. intros x Hx.
    apply days_from_In in Hx; [|now apply next_day_wf].
    rewrite toordinal_next_day in Hx by assumption. lia.
Qed.

(** The days from a valid first day up to a valid last day are valid. *)
Lemma daterange_valid (first_date last_date x : date) :
  valid_date first_date -> valid_date last_date ->
  In x (daterange first_date last_date) ->
  valid_date x /\ toordinal first_date <= toordinal x <= toordinal last_date.
Proof.
  intros Hf Hl Hin. unfold daterange in Hin.
  apply days_from_In in Hin; [|now apply valid_date_wf].
  destruct Hin as (Hwf & Hy & Ho).
  assert (Hle : toordinal x <= toordinal last_date) by lia.
  split; [|lia].
  apply valid_date_iff.
  pose proof (toordinal_le_year x last_date Hwf (valid_date_wf _ Hl) Hle).
  apply valid_date_iff in Hf, Hl. unfold wf_date in Hwf. lia.
Qed.

Lemma isoformat_NoDup (days : list date) :
  (forall x, In x days -> valid_date x) ->
  StronglySorted (fun a b => toordinal a < toordinal b) days ->
  NoDup (map isoformat days).
Proof.
  intros Hvalid Hsorted.
  induction Hsorted as [|a days Hs IH Hall]; simpl; constructor.
  - intros Hin. apply in_map_iff in Hin. destruct Hin as (x & Heq & Hx).
    rewrite Forall_forall in Hall. specialize (Hall x Hx).
    apply isoformat_inj in Heq; [subst; lia | |]; apply Hvalid; simpl; auto.
  - apply IH. intros x Hx. apply Hvalid. now right.
Qed.

Lemma daterange_In (first_date last_date d : date) :
  valid_date first_date -> valid_date last_date ->
  In d (daterange first_date last_date)
  <-> valid_date d /\
      toordinal first_date <= toordinal d <= toordinal last_date.
Proof.
  intros Hf Hl. split.
  - now apply daterange_valid.
  - intros [Hd Ho]. unfold daterange.
    apply days_from_complete; try now apply valid_date_wf.
    lia.
Qed.

Lemma daterange_NoDup (first_date last_date : date) :
  valid_date first_date -> valid_date last_date ->
  NoDup (map isoformat (daterange first_date last_date)).
Proof.
  intros Hf Hl. apply isoformat_NoDup.
  - intros x Hx. now apply (daterange_valid first_date last_date).
  - apply days_from_increasing. now apply valid_date_wf.
Qed.

(* ----------------------------------------------------------------- *)
(** ** MetricExtractor: the daily time series *)

Lemma except_KeyError_category_score (data : PyDict.t report)
    (str_date category : string) :
  except_KeyError (category_score data str_date category) None
  = Ok (day_score data str_date category).
Proof.
  unfold category_score, day_score, report_score, PyDict.getitem.
  destruct (PyDict.get data str_date) as [r|]; simpl; [|reflexivity].
  destruct (PyDict.get (categories r) category) as [c|]; simpl;
    [|reflexivity].
  destruct (PyDict.get c "score"); reflexivity.
Qed.

(** The loop over the days, for days whose strings are distinct and
    new to the two series. *)
Lemma record_days (data : PyDict.t report) (days : list date)
    (a s : PyDict.t sample) :
  NoDup (PyDict.keys a ++ map strftime days) ->
  NoDup (PyDict.keys s ++ map strftime days) ->
  fold_left (record_day data) days
    (Ok {| ts_accessibility := a; ts_speed := s |})
  = Ok {| ts_accessibility :=
            a ++ map (fun d => (strftime d,
                                day_score data (strftime d) "accessibility"))
                   days;
          ts_speed :=
            s ++ map (fun d => (strftime d,
                                day_score data (strftime d) "performance"))
                   days |}.
Proof.
  revert a s. induction days as [|d days IH]; intros a s Ha Hs.
  - simpl. now rewrite !app_nil_r.
  - cbn [fold_left map]. unfold record_day at 2. cbn [bind].
    rewrite !except_KeyError_category_score. cbn [bind].
    cbn [ts_accessibility ts_speed].
    cbn [map] in Ha, Hs.
    rewrite !PyDict_set_fresh.
    + rewrite IH.
      * now rewrite <- !app_assoc.
      * unfold PyDict.keys in *. rewrite map_app. cbn [map fst].
        now rewrite <- app_assoc.
      * unfold PyDict.keys in *. rewrite map_app. cbn [map fst].
        now rewrite <- app_assoc.
    + apply NoDup_remove_2 in Hs. intros Hin. apply Hs, in_or_app. auto.
    + apply NoDup_remove_2 in Ha. intros Hin. apply Ha, in_or_app. auto.
Qed.

(** The date read from [dates[0]] is the earliest of the dates. *)
Lemma earliest_date (dates : list string) :
  dates <> [] ->
  (forall s, In s dates -> exists d, valid_date d /\ s = isoformat d) ->
  exists first_date,
    valid_date first_date /\ In (isoformat first_date) dates /\
    list_getitem (py_sorted (fun s : string => s) String.ltb false dates) 0
    = Ok (isoformat first_date) /\
    forall d, valid_date d -> In (isoformat d) dates ->
              toordinal first_date <= toordinal d.
Proof.
  intros Hne Hiso.
  destruct (sorted_dates_head dates Hne) as (first & Hget & Hin & Hmin).
  destruct (Hiso first Hin) as (d0 & Hd0 & ->).
  exists d0. repeat split; try assumption.
  intros d Hd Hdin. specialize (Hmin _ Hdin).
  destruct (Z_le_gt_dec (toordinal d0) (toordinal d)) as [Hle|Hgt];
    [exact Hle|].
  exfalso.
  assert (Hlt : date_lt d d0).
  { destruct (date_trichotomy d d0) as [H|[H|H]]; [exact H | subst; lia |].
    apply toordinal_lt in H; try now apply valid_date_wf. lia. }
  apply isoformat_lt in Hlt; try assumption. congruence.
Qed.

Example extract_scores_data_scored :
  extract_scores (mkdate 2020 5 3) data_scored
    ["2020-05-03"; "2020-05-01"]%string
  = Ok series_scored.
Proof. vm_compute. reflexivity. Qed.

Example extract_scores_data_latest_unscored :
  extract_scores (mkdate 2020 5 2) data_latest_unscored
    ["2020-05-01"; "2020-05-02"]%string
  = Ok series_latest_unscored.
Proof. vm_compute. reflexivity. Qed.

(** From the year 1000 on, the key that [strftime] writes for a day is
    its ISO string. *)
Lemma strftime_isoformat (d : date) :
  1000 <= year d -> strftime d = isoformat d.
Proof.
  intros Hy. unfold strftime, isoformat, year_digits.
  destruct (year d <? 10) eqn:H1; [apply Z.ltb_lt in H1; lia|].
  destruct (year d <? 100) eqn:H2; [apply Z.ltb_lt in H2; lia|].
  destruct (year d <? 1000) eqn:H3; [apply Z.ltb_lt in H3; lia|].
  reflexivity.
Qed.

Lemma daterange_year (first_date last_date d : date) :
  valid_date first_date -> In d (daterange first_date last_date) ->
  year first_date <= year d.
Proof.
  intros Hf Hin. unfold daterange in Hin.
  apply days_from_In in Hin; [tauto | now apply valid_date_wf].
Qed.

Lemma daterange_strftime (first_date last_date : date) :
  valid_date first_date -> 1000 <= year first_date ->
  map strftime (daterange first_date last_date)
  = map isoformat (daterange first_date last_date).
Proof.
  intros Hf Hy. apply map_ext_in. intros d Hd.
  apply strftime_isoformat.
  pose proof (daterange_year first_date last_date d Hf Hd). lia.
Qed.

(** C5.  For a non-empty list of snapshot dates, each the ISO string of
    a calendar date of the year 1000 or later, and [today] the current
    date: [extract_scores] returns a time series whose two maps have,
    as keys and in order, the strings of the days of
    [daterange first_date today], where [first_date] is the earliest
    snapshot date; these days are exactly the calendar days from
    [first_date] through [today] inclusive, their strings are pairwise
    distinct, and their number is the inclusive day count; the key of a
    day is its ISO string, and its entry is the accessibility
    (performance) score of the report dated that day, and [None] for
    both when no report is dated that day. *)
Theorem extract_scores_daily (today : date) (data : PyDict.t report)
    (dates : list string) :
  valid_date today ->
  dates <> [] ->
  (forall s, In s dates ->
     exists d, valid_date d /\ 1000 <= year d /\ s = isoformat d) ->
  exists first_date out,
    (valid_date first_date /\ 1000 <= year first_date /\
     In (isoformat first_date) dates /\
     forall d, valid_date d -> In (isoformat d) dates ->
               toordinal first_date <= toordinal d) /\
    extract_scores today data dates = Ok out /\
    PyDict.keys (ts_accessibility out)
    = map strftime (daterange first_date today) /\
    PyDict.keys (ts_speed out)
    = map strftime (daterange first_date today) /\
    NoDup (map strftime (daterange first_date today)) /\
    List.length (daterange first_date today)
    = Z.to_nat (toordinal today - toordinal first_date + 1) /\
    (forall d, In d (daterange first_date today)
               <-> valid_date d /\
                   toordinal first_date <= toordinal d <= toordinal today) /\
    (forall d, In d (daterange first_date today) ->
       strftime d = isoformat d /\
       PyDict.get (ts_accessibility out) (strftime d)
       = Some (day_score data (isoformat d) "accessibility") /\
       PyDict.get (ts_speed out) (strftime d)
       = Some (day_score data (isoformat d) "performance")).
Proof.
  intros Htoday Hne Hiso.
  assert (Hiso' : forall s, In s dates ->
                    exists d, valid_date d /\ s = isoformat d).
  { intros s Hs. destruct (Hiso s Hs) as (d & Hd & _ & ->). eauto. }
  destruct (earliest_date dates Hne Hiso')
    as (first_date & Hvalid & Hin & Hget & Hmin).
  assert (Hyear : 1000 <= year first_date).
  { destruct (Hiso _ Hin) as (d & Hd & Hy & Heq).
    apply isoformat_inj in Heq; [now subst | assumption | assumption]. }
  pose proof (daterange_strftime first_date today Hvalid Hyear) as Hkeys.
  assert (Hnd : NoDup (map strftime (daterange first_date today)))
    by (rewrite Hkeys; now apply daterange_NoDup).
  exists first_date. eexists.
  split; [repeat split; assumption|].
  split.
  { unfold extract_scores. rewrite Hget. cbn [bind].
    rewrite first_date_of_isoformat by assumption. cbn [bind].
    apply record_days; exact Hnd. }
  cbn [ts_accessibility ts_speed app PyDict.empty].
  unfold PyDict.keys. rewrite !map_map. cbn [fst].
  split; [reflexivity|]. split; [reflexivity|]. split; [exact Hnd|].
  split; [apply days_from_length|].
  split; [intros d; now apply daterange_In|].
  intros d Hd.
  assert (Hd' : strftime d = isoformat d).
  { apply strftime_isoformat.
    pose proof (daterange_year first_date today d Hvalid Hd). lia. }
  split; [exact Hd'|].
  rewrite <- Hd'.
  split; apply PyDict_In_get;
    try (unfold PyDict.keys; rewrite map_map; exact Hnd);
    apply in_map_iff; exists d; auto.
Qed.

Lemma extract_scores_daily_witness :
  valid_date (mkdate 2020 5 3) /\
  ["2020-05-03"; "2020-05-01"]%string <> [] /\
  (forall s, In s ["2020-05-03"; "2020-05-01"]%string ->
             exists d, valid_date d /\ 1000 <= year d /\ s = isoformat d) /\
  extract_scores (mkdate 2020 5 3) data_scored
    ["2020-05-03"; "2020-05-01"]%string
  = Ok series_scored /\
  exists first_date out,
    (valid_date first_date /\ 1000 <= year first_date /\
     In (isoformat first_date) ["2020-05-03"; "2020-05-01"]%string /\
     forall d, valid_date d ->
               In (isoformat d) ["2020-05-03"; "2020-05-01"]%string ->
               toordinal first_date <= toordinal d) /\
    extract_scores (mkdate 2020 5 3) data_scored
      ["2020-05-03"; "2020-05-01"]%string = Ok out /\
    PyDict.keys (ts_accessibility out)
    = map strftime (daterange first_date (mkdate 2020 5 3)) /\
    PyDict.keys (ts_speed out)
    = map strftime (daterange first_date (mkdate 2020 5 3)) /\
    NoDup (map strftime (daterange first_date (mkdate 2020 5 3))) /\
    List.length (daterange first_date (mkdate 2020 5 3))
    = Z.to_nat (toordinal (mkdate 2020 5 3) - toordinal first_date + 1) /\
    (forall d, In d (daterange first_date (mkdate 2020 5 3))
               <-> valid_date d /\
                   toordinal first_date <= toordinal d
                   <= toordinal (mkdate 2020 5 3)) /\
    (forall d, In d (daterange first_date (mkdate 2020 5 3)) ->
       strftime d = isoformat d /\
       PyDict.get (ts_accessibility out) (strftime d)
       = Some (day_score data_scored (isoformat d) "accessibility") /\
       PyDict.get (ts_speed out) (strftime d)
       = Some (day_score data_scored (isoformat d) "performance")).
Proof.
  assert (Htoday : valid_date (mkdate 2020 5 3)) by reflexivity.
  assert (Hne : ["2020-05-03"; "2020-05-01"]%string <> []) by discriminate.
  assert (Hiso : forall s, In s ["2020-05-03"; "2020-05-01"]%string ->
            exists d, valid_date d /\ 1000 <= year d /\ s = isoformat d).
  { intros s [<-|[<-|[]]].
    - exists (mkdate 2020 5 3).
      split; [reflexivity|]. split; [simpl; lia | reflexivity].
    - exists (mkdate 2020 5 1).
      split; [reflexivity|]. split; [simpl; lia | reflexivity]. }
  split; [exact Htoday|]. split; [exact Hne|]. split; [exact Hiso|].
  split; [vm_compute; reflexivity|].
  exact (extract_scores_daily (mkdate 2020 5 3) data_scored
           ["2020-05-03"; "2020-05-01"]%string Htoday Hne Hiso).
Defined.

(* ----------------------------------------------------------------- *)
(** ** SiteScoreSummarizer: the statistics *)



(** [max] returns an element of the list that no element exceeds. *)
Lemma py_max_spec (l : list Q) (x : Q) :
  In (py_max x l) (x :: l) /\
  (forall y, In y (x :: l) -> (y <= py_max x l)%Q).
Proof.
  unfold py_max. revert x.
  induction l as [|z l IH]; intros x; simpl.
  - split; [now left | intros y [<-|[]]; apply Qle_refl].
  - destruct (Qltb x z) eqn:Hlt.
    + destruct (IH z) as [Hin Hmax]. split.
      * simpl in Hin. tauto.
      * intros y [<-|Hy]; [|now apply Hmax].
        apply Qltb_true in Hlt. apply Qle_trans with z.
        -- now apply Qlt_le_weak.
        -- apply Hmax. now left.
    + destruct (IH x) as [Hin Hmax]. split.
      * simpl in Hin. tauto.
      * intros y [<-|[<-|Hy]].
        -- apply Hmax. now left.
        -- apply Qltb_false in Hlt. apply Qle_trans with x; [exact Hlt|].
           apply Hmax. now left.
        -- apply Hmax. now right.
Qed.

(** A non-empty list has a least element. *)
Lemma Qlist_min (x : Q) (l : list Q) :
  exists lo, In lo (x :: l) /\ (forall y, In y (x :: l) -> (lo <= y)%Q).
Proof.
  revert x. induction l as [|z l IH]; intros x.
  - exists x. split; [now left | intros y [<-|[]]; apply Qle_refl].
  - destruct (IH z) as (lo & Hin & Hlo).
    destruct (Qlt_le_dec x lo) as [Hlt|Hle].
    + exists x. split; [now left|].
      intros y [<-|Hy]; [apply Qle_refl|].
      apply Qle_trans with lo; [now apply Qlt_le_weak | now apply Hlo].
    + exists lo. split; [now right|].
      intros y [<-|Hy]; [exact Hle | now apply Hlo].
Qed.

Lemma Qsum_bounds (l : list Q) (lo hi : Q) :
  (forall y, In y l -> (lo <= y)%Q /\ (y <= hi)%Q) ->
  (inject_Z (Z.of_nat (List.length l)) * lo <= Qsum l)%Q /\
  (Qsum l <= inject_Z (Z.of_nat (List.length l)) * hi)%Q.
Proof.
  induction l as [|x l IH]; intros Hb.
  - simpl. split; rewrite Qmult_0_l; apply Qle_refl.
  - destruct (Hb x (or_introl eq_refl)) as [Hlo Hhi].
    destruct IH as [IHlo IHhi]; [intros; apply Hb; now right|].
    cbn [List.length Qsum fold_right]. fold (Qsum l).
    rewrite Nat2Z.inj_succ. unfold Z.succ. rewrite inject_Z_plus.
    set (n := inject_Z (Z.of_nat (List.length l))) in *.
    change (inject_Z 1) with 1%Q.
    assert (El : ((n + 1) * lo == lo + n * lo)%Q) by ring.
    assert (Eh : ((n + 1) * hi == hi + n * hi)%Q) by ring.
    rewrite El, Eh. split; now apply Qplus_le_compat.
Qed.

(** The exact mean of a non-empty list lies between its bounds. *)
Lemma exact_mean_bounds (x : Q) (l : list Q) (lo hi : Q) :
  (forall y, In y (x :: l) -> (lo <= y)%Q /\ (y <= hi)%Q) ->
  (lo <= Qsum (x :: l) / inject_Z (Z.of_nat (List.length (x :: l))))%Q /\
  (Qsum (x :: l) / inject_Z (Z.of_nat (List.length (x :: l))) <= hi)%Q.
Proof.
  intros Hb. destruct (Qsum_bounds (x :: l) lo hi Hb) as [Hlo Hhi].
  assert (Hpos : (0 < inject_Z (Z.of_nat (List.length (x :: l))))%Q).
  { change 0%Q with (inject_Z 0). rewrite <- Zlt_Qlt. simpl List.length. lia. }
  split.
  - apply Qle_shift_div_l; [exact Hpos|].
    now rewrite Qmult_comm.
  - apply Qle_shift_div_r; [exact Hpos|].
    now rewrite Qmult_comm.
Qed.

Lemma metric_statistics_intro (to_float : Q -> Q) (x : Q) (rest : list Q)
    (c : sample) :
  (forall a b, (a <= b)%Q -> (to_float a <= to_float b)%Q) ->
  (forall q, In q (x :: rest) -> (to_float q == q)%Q) ->
  metric_statistics to_float (x :: rest) (Ok c)
    (Some (py_max x rest)) (Some (mean to_float (x :: rest))) (Some c).
Proof.
  intros Hmono Hfix.
  destruct (py_max_spec rest x) as [Hmax_in Hmax].
  destruct (Qlist_min x rest) as (lo & Hlo_in & Hlo).
  destruct (exact_mean_bounds x rest lo (py_max x rest)) as [Hge Hle].
  { intros y Hy. split; [now apply Hlo | now apply Hmax]. }
  exists (py_max x rest), (mean to_float (x :: rest)), c, lo.
  repeat split; try assumption; try reflexivity.
  - apply Qle_trans with (to_float lo).
    + rewrite (Hfix lo Hlo_in). apply Qle_refl.
    + now apply Hmono.
  - apply Qle_trans with (to_float (py_max x rest)).
    + now apply Hmono.
    + rewrite (Hfix _ Hmax_in). apply Qle_refl.
Qed.

(** The shape of a summary that [summarize] returns. *)
Lemma summarize_Ok_inv (to_float : Q -> Q) (latest_date : string)
    (accs speeds : list Q) (data : PyDict.t report) (calc : calculations) :
  summarize to_float latest_date accs speeds data = Ok calc ->
  match accs with
  | [] => max_accessibility calc = None /\ average_accessibility calc = None
          /\ current_accessibility calc = None
  | x :: rest =>
      max_accessibility calc = Some (py_max x rest) /\
      average_accessibility calc = Some (mean to_float accs) /\
      exists c, category_score data latest_date "accessibility" = Ok c /\
                current_accessibility calc = Some c
  end /\
  match speeds with
  | [] => max_speed calc = None /\ average_speed calc = None
          /\ current_speed calc = None
  | x :: rest =>
      max_speed calc = Some (py_max x rest) /\
      average_speed calc = Some (mean to_float speeds) /\
      exists c, category_score data latest_date "performance" = Ok c /\
                current_speed calc = Some c
  end.
Proof.
  unfold summarize. intros H.
  apply bind_Ok_inv in H. destruct H as (c1 & H1 & H2).
  assert (Hc1 : match accs with
                | [] => c1 = no_calculations
                | x :: rest =>
                    exists c, category_score data latest_date "accessibility"
                              = Ok c /\
                    c1 = {| max_accessibility := Some (py_max x rest);
                            average_accessibility := Some (mean to_float accs);
                            current_accessibility := Some c;
                            max_speed := None; average_speed := None;
                            current_speed := None |}
                end).
  { destruct accs as [|x rest]; [congruence|].
    apply bind_Ok_inv in H1. destruct H1 as (c & Hc & Hok).
    exists c. split; [exact Hc | congruence]. }
  clear H1.
  destruct speeds as [|y rs].
  - inversion H2; subst calc; clear H2.
    destruct accs as [|x rest].
    + subst c1. simpl. auto.
    + destruct Hc1 as (c & Hc & ->). simpl. eauto 8.
  - apply bind_Ok_inv in H2. destruct H2 as (cs & Hcs & Hok).
    inversion Hok; subst calc; clear Hok. simpl.
    destruct accs as [|x rest].
    + subst c1. simpl. eauto 8.
    + destruct Hc1 as (c & Hc & ->). simpl. eauto 10.
Qed.

Lemma calculate_scores_Ok_inv (to_float : Q -> Q) (latest_date : string)
    (extracted : time_series) (data : PyDict.t report) (calc : calculations) :
  snd (calculate_scores to_float latest_date extracted data) = Ok calc ->
  summarize to_float latest_date
    (filter_not_None (PyDict.values (ts_accessibility extracted)))
    (filter_not_None (PyDict.values (ts_speed extracted))) data = Ok calc.
Proof.
  unfold calculate_scores.
  destruct (summarize _ _ _ _ _) as [c|err]; simpl; [congruence|].
  unfold report_problem. destruct (global_bound "url"); discriminate.
Qed.


(** C8 (amended).  Provided the report of the latest date carries a
    score entry for every metric that has a non-absent value in the
    series, [calculate_scores] returns a summary in which, for each of
    accessibility and speed: when the metric has at least one
    non-absent value, max, average and current are all present, max
    and average are computed over the non-absent values only, and
    [max >= average >= least non-absent value]; when it has none, the
    three keys are all missing.  ([to_float], the rounding that ends
    [statistics.mean], is monotone and leaves the samples, which are
    floats already, unchanged.) *)
Theorem calculate_scores_statistics (to_float : Q -> Q) (latest_date : string)
    (extracted : time_series) (data : PyDict.t report) :
  let accs := filter_not_None (PyDict.values (ts_accessibility extracted)) in
  let speeds := filter_not_None (PyDict.values (ts_speed extracted)) in
  (forall a b, (a <= b)%Q -> (to_float a <= to_float b)%Q) ->
  (forall q, In q accs \/ In q speeds -> (to_float q == q)%Q) ->
  (accs <> [] ->
   exists c, category_score data latest_date "accessibility" = Ok c) ->
  (speeds <> [] ->
   exists c, category_score data latest_date "performance" = Ok c) ->
  exists calc,
    calculate_scores to_float latest_date extracted data = ([], Ok calc) /\
    metric_statistics to_float accs
      (category_score data latest_date "accessibility")
      (max_accessibility calc) (average_accessibility calc)
      (current_accessibility calc) /\
    metric_statistics to_float speeds
      (category_score data latest_date "performance")
      (max_speed calc) (average_speed calc) (current_speed calc).
Proof.
  intros accs speeds Hmono Hfix Hacc Hspeed.
  unfold calculate_scores. fold accs. fold speeds. unfold summarize.
  destruct accs as [|xa ra] eqn:Ea; destruct speeds as [|xs rs] eqn:Es.
  - eexists. split; [reflexivity|]. simpl. auto.
  - destruct Hspeed as [cs Hcs]; [discriminate|]. rewrite Hcs. simpl.
    eexists. split; [reflexivity|]. split; [simpl; auto|]. simpl max_speed.
    simpl average_speed. simpl current_speed.
    apply metric_statistics_intro; auto.
  - destruct Hacc as [ca Hca]; [discriminate|]. rewrite Hca. simpl.
    eexists. split; [reflexivity|]. split; [|simpl; auto].
    simpl max_accessibility. simpl average_accessibility.
    simpl current_accessibility.
    apply metric_statistics_intro; auto.
  - destruct Hacc as [ca Hca]; [discriminate|].
    destruct Hspeed as [cs Hcs]; [discriminate|].
    rewrite Hca, Hcs. simpl.
    eexists. split; [reflexivity|].
    split; apply metric_statistics_intro; auto.
Qed.

Lemma calculate_scores_statistics_witness :
  let to_float := fun q : Q => q in
  let accs :=
    filter_not_None (PyDict.values (ts_accessibility series_scored)) in
  let speeds := filter_not_None (PyDict.values (ts_speed series_scored)) in
  (forall a b, (a <= b)%Q -> (to_float a <= to_float b)%Q) /\
  (forall q, In q accs \/ In q speeds -> (to_float q == q)%Q) /\
  (accs <> [] ->
   exists c, category_score data_scored "2020-05-03" "accessibility" = Ok c) /\
  (speeds <> [] ->
   exists c, category_score data_scored "2020-05-03" "performance" = Ok c) /\
  exists calc,
    calculate_scores to_float "2020-05-03" series_scored data_scored
    = ([], Ok calc) /\
    metric_statistics to_float accs
      (category_score data_scored "2020-05-03" "accessibility")
      (max_accessibility calc) (average_accessibility calc)
      (current_accessibility calc) /\
    metric_statistics to_float speeds
      (category_score data_scored "2020-05-03" "performance")
      (max_speed calc) (average_speed calc) (current_speed calc).
Proof.
  cbv zeta.
  assert (Hmono : forall a b : Q, (a <= b)%Q -> (a <= b)%Q) by auto.
  assert (Hfix : forall q : Q,
            In q (filter_not_None
                    (PyDict.values (ts_accessibility series_scored)))
            \/ In q (filter_not_None
                       (PyDict.values (ts_speed series_scored))) ->
            (q == q)%Q) by (intros; apply Qeq_refl).
  assert (Hacc : filter_not_None
                   (PyDict.values (ts_accessibility series_scored)) <> [] ->
            exists c, category_score data_scored "2020-05-03" "accessibility"
                      = Ok c) by (intros _; eexists; reflexivity).
  assert (Hspeed : filter_not_None (PyDict.values (ts_speed series_scored))
                   <> [] ->
            exists c, category_score data_scored "2020-05-03" "performance"
                      = Ok c) by (intros _; eexists; reflexivity).
  split; [exact Hmono|]. split; [exact Hfix|]. split; [exact Hacc|].
  split; [exact Hspeed|].
  exact (calculate_scores_statistics (fun q : Q => q) "2020-05-03"
           series_scored data_scored Hmono Hfix Hacc Hspeed).
Defined.

(** C8, counterexample.  Two reports, the later one without an
    accessibility category: the series has the non-absent accessibility
    value 0.9 (and two speed values), yet [calculate_scores] returns no
    statistics at all; reading the current accessibility score of the
    latest date fails and the call ends in an exception. *)
Lemma calculate_scores_latest_unscored_counterexample :
  filter_not_None (PyDict.values (ts_accessibility series_latest_unscored))
  = [0.9%Q]
  /\ category_score data_latest_unscored "2020-05-02" "accessibility"
     = Raise (KeyError "accessibility")
  /\ snd (calculate_scores (fun q : Q => q) "2020-05-02"
            series_latest_unscored data_latest_unscored)
     = Raise (NameError "url").
Proof. repeat split; vm_compute; reflexivity. Qed.

(** C9 (defect of the code).  Whatever fails inside [calculate_scores],
    the caller receives [NameError] for the name [url], not the failure
    itself: the handler prints the failure's [repr] and then formats a
    message with [url], a name bound neither in the function nor in the
    module, so the [raise err] after it is never reached and no site is
    ever printed. *)
Theorem calculate_scores_failure_is_NameError (to_float : Q -> Q)
    (latest_date : string) (extracted : time_series) (data : PyDict.t report)
    (out : list printed) (err : exn) :
  calculate_scores to_float latest_date extracted data = (out, Raise err) ->
  err = NameError "url" /\
  exists failure, out = [PrintRepr failure] /\ failure <> err.
Proof.
  unfold calculate_scores.
  destruct (summarize _ _ _ _ _) as [c|failure] eqn:Hs; [discriminate|].
  unfold report_problem. change (global_bound "url") with false.
  intros [= <- <-]. split; [reflexivity|].
  exists failure. split; [reflexivity|].
  intros ->. revert Hs. unfold summarize, category_score, PyDict.getitem.
  repeat match goal with
         | |- context [match ?x with _ => _ end] => destruct x; simpl
         end; discriminate.
Qed.

Lemma calculate_scores_failure_is_NameError_witness :
  calculate_scores (fun q : Q => q) "2020-05-02" series_latest_unscored
    data_latest_unscored
  = ([PrintRepr (KeyError "accessibility")], Raise (NameError "url")) /\
  NameError "url" = NameError "url" /\
  exists failure,
    [PrintRepr (KeyError "accessibility")] = [PrintRepr failure] /\
    failure <> NameError "url".
Proof.
  assert (Hrun : calculate_scores (fun q : Q => q) "2020-05-02"
                   series_latest_unscored data_latest_unscored
                 = ([PrintRepr (KeyError "accessibility")],
                    Raise (NameError "url")))
    by (vm_compute; reflexivity).
  split; [exact Hrun|].
  exact (calculate_scores_failure_is_NameError (fun q : Q => q) "2020-05-02"
           series_latest_unscored data_latest_unscored _ _ Hrun).
Defined.



(* ----------------------------------------------------------------- *)
(** ** ReadingAgeResolver: grades and ages *)




Lemma translate_reading_age_ignores_argument (g : py_globals)
    (a b : pyval) :
  translate_reading_age g a = translate_reading_age g b.
Proof. reflexivity. Qed.

(** The ages that [translate_reading_age] returns. *)
Lemma approx_age_of_range (grade age : Z) :
  approx_age_of grade = Some age -> 6 <= age <= 18.
Proof.
  unfold approx_age_of.
  destruct ((0 <? grade) && (grade <? 13)) eqn:H1.
  - intros [= <-]. lia.
  - destruct (13 <? grade); [intros [= <-]; lia | discriminate].
Qed.

Lemma translate_reading_age_range (g : py_globals) (current_age : pyval)
    (age : Z) :
  translate_reading_age g current_age = Some age -> 6 <= age <= 18.
Proof.
  unfold translate_reading_age.
  destruct (g_scores g) as [scores|]; simpl; [|discriminate].
  destruct (PyDict.getitem scores "reading age") as [label|]; simpl;
    [|discriminate].
  destruct (re_search_digits label) as [[m|]|]; simpl; try discriminate.
  destruct (py_int m) as [n|]; simpl; [|discriminate].
  apply approx_age_of_range.
Qed.



(** [find_reading_age] never raises: it returns the label of the
    primary method, else that of the fallback method, else [None], the
    sentinel label being turned into [None]. *)
Lemma find_reading_age_total (language_data : PyDict.t (PyDict.t pyval)) :
  find_reading_age language_data
  = Ok (let reading_age :=
          match standard_label language_data "dragnet" with
          | Ok v => v
          | Raise _ =>
              match standard_label language_data "trafilatura" with
              | Ok v => v
              | Raise _ => PyNone
              end
          end in
        match reading_age with
        | PyStr s =>
            if String.eqb s "-1th and 0th grade" then PyNone else reading_age
        | _ => reading_age
        end).
Proof.
  unfold find_reading_age.
  assert (Hk : forall method,
            (exists v, standard_label language_data method = Ok v) \/
            (exists k, standard_label language_data method
                       = Raise (KeyError k))).
  { intros method. unfold standard_label, PyDict.getitem.
    destruct (PyDict.get language_data method) as [d|]; simpl; eauto.
    destruct (PyDict.get d "standard"); eauto. }
  destruct (Hk "dragnet"%string) as [[v ->]|[k ->]]; simpl.
  - destruct v as [|s|n]; try reflexivity.
    destruct (String.eqb s "-1th and 0th grade"); reflexivity.
  - destruct (Hk "trafilatura"%string) as [[v ->]|[k' ->]]; simpl;
      [|reflexivity].
    destruct v as [|s|n]; try reflexivity.
    destruct (String.eqb s "-1th and 0th grade"); reflexivity.
Qed.

(** C3 (defect of the code).  The label "13th and 14th grade", found
    under the primary method and stored in [scores] as the main loop
    does, is translated to [None]: the second test reads [> 13] where
    grade 13 needed [> 12], so grade 13 falls between the two branches.
    The specification's mapping caps it at 18.  The labels for grades
    7 and 14 give 12 and 18, and the sentinel is resolved to [None]. *)
Theorem translate_reading_age_grade_13 :
  let stored (v : pyval) :=
    {| g_scores := Some (PyDict.set PyDict.empty "reading age" v) |} in
  let found (label : string) :=
    find_reading_age [("dragnet", [("standard", PyStr label)])]%string in
  found "13th and 14th grade"%string = Ok (PyStr "13th and 14th grade")
  /\ translate_reading_age (stored (PyStr "13th and 14th grade"))
       (PyStr "13th and 14th grade") = None
  /\ spec_reading_age "13th and 14th grade" = Some 18
  /\ translate_reading_age (stored (PyStr "7th and 8th grade"))
       (PyStr "7th and 8th grade") = Some 12
  /\ translate_reading_age (stored (PyStr "14th and 15th grade"))
       (PyStr "14th and 15th grade") = Some 18
  /\ found "-1th and 0th grade"%string = Ok PyNone
  /\ translate_reading_age (stored PyNone) PyNone = None.
Proof. cbv zeta. repeat split; vm_compute; reflexivity. Qed.

(** C4 (defect of the code).  Two program states that give
    [translate_reading_age] the same argument, "7th and 8th grade", and
    differ in the global [scores] alone get different results, 12 and
    18: the function reads [scores['reading age']] and never its
    parameter. *)
Theorem translate_reading_age_depends_on_scores :
  let g1 := {| g_scores :=
                 Some [("reading age", PyStr "7th and 8th grade")]%string |} in
  let g2 :=
    {| g_scores :=
         Some [("reading age", PyStr "14th and 15th grade")]%string |} in
  translate_reading_age g1 (PyStr "7th and 8th grade") = Some 12
  /\ translate_reading_age g2 (PyStr "7th and 8th grade") = Some 18.
Proof. cbv zeta. split; vm_compute; reflexivity. Qed.

(* ----------------------------------------------------------------- *)
(** ** RankingBuilder: the order of the rankings *)

(** A ranking built from a dictionary is the sorted list of its items. *)
Lemma ranking_of_items {V : Type} (lt : V -> V -> bool) (reverse : bool)
    (d : PyDict.t V) :
  NoDup (PyDict.keys d) ->
  PyDict.of_items (py_sorted snd lt reverse (PyDict.items d))
  = py_sorted snd lt reverse d.
Proof.
  intros Hnd. apply PyDict_of_items_NoDup. unfold PyDict.keys, PyDict.items.
  eapply Permutation_NoDup; [|exact Hnd].
  apply Permutation_map. symmetry. apply py_sorted_perm.
Qed.

Lemma ranking_descending (d : PyDict.t Q) :
  StronglySorted (fun x y => (snd y <= snd x)%Q) (py_sorted snd Qltb true d).
Proof.
  apply (StronglySorted_weaken (after snd Qltb)).
  - intros x y H. unfold after in H. now apply Qltb_false in H.
  - apply py_sorted_descending; [exact Qltb_asym | exact Qltb_negtrans].
Qed.

Lemma ranking_ascending (d : PyDict.t Z) :
  StronglySorted (fun x y => snd x <= snd y) (py_sorted snd Z.ltb false d).
Proof.
  apply (StronglySorted_weaken (before snd Z.ltb)).
  - intros x y H. unfold before in H. lia.
  - apply py_sorted_ascending; [exact Zltb_asym | exact Zltb_negtrans].
Qed.

Lemma ranking_stable_Q (reverse : bool) (d : PyDict.t Q) (v : Q) :
  filter (fun x => Qeq_bool (snd x) v) (py_sorted snd Qltb reverse d)
  = filter (fun x => Qeq_bool (snd x) v) d.
Proof.
  apply py_sorted_stable. intros x y _ _ Hx Hy. unfold before.
  apply Qeq_bool_iff in Hx, Hy. apply Qltb_false.
  rewrite Hx, Hy. apply Qle_refl.
Qed.

Lemma ranking_stable_Z (reverse : bool) (d : PyDict.t Z) (v : Z) :
  filter (fun x => snd x =? v) (py_sorted snd Z.ltb reverse d)
  = filter (fun x => snd x =? v) d.
Proof.
  apply py_sorted_stable. intros x y _ _ Hx Hy. unfold before. lia.
Qed.

(** A ranking has the keys and the values of the dictionary it sorts. *)
Lemma ranking_keys {V : Type} (lt : V -> V -> bool) (reverse : bool)
    (d : PyDict.t V) (k : string) :
  In k (PyDict.keys (py_sorted snd lt reverse d)) <-> In k (PyDict.keys d).
Proof.
  unfold PyDict.keys.
  split; apply Permutation_in, Permutation_map;
    [|symmetry]; apply py_sorted_perm.
Qed.

Lemma ranking_get {V : Type} (lt : V -> V -> bool) (reverse : bool)
    (d : PyDict.t V) (k : string) :
  NoDup (PyDict.keys d) ->
  PyDict.get (py_sorted snd lt reverse d) k = PyDict.get d k.
Proof.
  intros Hnd. apply PyDict_get_perm; [exact Hnd | apply py_sorted_perm].
Qed.

Example build_combined_rankings_with_ties :
  build_combined_rankings averages_with_ties
  = {| r_speed :=
         [("https://c.example/", 0.9); ("https://a.example/", 0.5);
          ("https://b.example/", 0.5)]%string%Q;
       r_accessibility :=
         [("https://b.example/", 0.95); ("https://a.example/", 0.8);
          ("https://c.example/", 0.8)]%string%Q;
       r_reading_age :=
         [("https://b.example/", 12); ("https://a.example/", 14);
          ("https://c.example/", 14)]%string |}.
Proof. vm_compute. reflexivity. Qed.

(** C6.  For per-site averages held in dictionaries (keys without
    repetition), [build_combined_rankings] returns, for speed and for
    accessibility, the items of the input in descending order of value,
    and for reading age in ascending order; each ranking keeps the
    items of equal value in the order in which the input dictionary
    iterates them.  (The rankings are a function of the input: the same
    averages give the same rankings.) *)
Theorem build_combined_rankings_order (averages : avg_scores) :
  NoDup (PyDict.keys (avg_speed averages)) ->
  NoDup (PyDict.keys (avg_accessibility averages)) ->
  NoDup (PyDict.keys (avg_reading_age averages)) ->
  let rk := build_combined_rankings averages in
  (Permutation (r_speed rk) (avg_speed averages) /\
   StronglySorted (fun x y => (snd y <= snd x)%Q) (r_speed rk) /\
   forall v, filter (fun x => Qeq_bool (snd x) v) (r_speed rk)
             = filter (fun x => Qeq_bool (snd x) v) (avg_speed averages)) /\
  (Permutation (r_accessibility rk) (avg_accessibility averages) /\
   StronglySorted (fun x y => (snd y <= snd x)%Q) (r_accessibility rk) /\
   forall v, filter (fun x => Qeq_bool (snd x) v) (r_accessibility rk)
             = filter (fun x => Qeq_bool (snd x) v)
                 (avg_accessibility averages)) /\
  (Permutation (r_reading_age rk) (avg_reading_age averages) /\
   StronglySorted (fun x y => snd x <= snd y) (r_reading_age rk) /\
   forall v, filter (fun x => snd x =? v) (r_reading_age rk)
             = filter (fun x => snd x =? v) (avg_reading_age averages)).
Proof.
  intros Hs Ha Hr rk. unfold rk, build_combined_rankings.
  cbn [r_speed r_accessibility r_reading_age].
  rewrite !ranking_of_items by assumption.
  repeat split;
    auto using py_sorted_perm, ranking_descending, ranking_ascending,
      ranking_stable_Q, ranking_stable_Z.
Qed.

Lemma build_combined_rankings_order_witness :
  let rk := build_combined_rankings averages_with_ties in
  NoDup (PyDict.keys (avg_speed averages_with_ties)) /\
  NoDup (PyDict.keys (avg_accessibility averages_with_ties)) /\
  NoDup (PyDict.keys (avg_reading_age averages_with_ties)) /\
  (Permutation (r_speed rk) (avg_speed averages_with_ties) /\
   StronglySorted (fun x y => (snd y <= snd x)%Q) (r_speed rk) /\
   forall v, filter (fun x => Qeq_bool (snd x) v) (r_speed rk)
             = filter (fun x => Qeq_bool (snd x) v)
                 (avg_speed averages_with_ties)) /\
  (Permutation (r_accessibility rk) (avg_accessibility averages_with_ties) /\
   StronglySorted (fun x y => (snd y <= snd x)%Q) (r_accessibility rk) /\
   forall v, filter (fun x => Qeq_bool (snd x) v) (r_accessibility rk)
             = filter (fun x => Qeq_bool (snd x) v)
                 (avg_accessibility averages_with_ties)) /\
  (Permutation (r_reading_age rk) (avg_reading_age averages_with_ties) /\
   StronglySorted (fun x y => snd x <= snd y) (r_reading_age rk) /\
   forall v, filter (fun x => snd x =? v) (r_reading_age rk)
             = filter (fun x => snd x =? v)
                 (avg_reading_age averages_with_ties)).
Proof.
  cbv zeta.
  assert (Hnd : NoDup ["https://a.example/"; "https://b.example/";
                       "https://c.example/"]%string).
  { repeat constructor; simpl; intuition discriminate. }
  split; [exact Hnd|]. split; [exact Hnd|]. split; [exact Hnd|].
  exact (build_combined_rankings_order averages_with_ties Hnd Hnd Hnd).
Defined.

(* ----------------------------------------------------------------- *)
(** ** The run: which sites the rankings hold *)

Lemma filled_with_set {V : Type} (f : string -> V) (seen : list string)
    (d : PyDict.t V) (k : string) :
  filled_with f seen d -> filled_with f (seen ++ [k]) (PyDict.set d k (f k)).
Proof.
  intros (Hnd & Hkeys & Hval). split; [|split].
  - now apply PyDict_NoDup_set.
  - intros k'. rewrite PyDict_In_keys_set, Hkeys, in_app_iff. simpl.
    intuition congruence.
  - intros k' v. rewrite PyDict_get_set.
    destruct (String.eqb_spec k k') as [->|Hne]; [congruence | apply Hval].
Qed.

Lemma filled_if_truthy_set (g : string -> option Z) (seen : list string)
    (d : PyDict.t Z) (k : string) :
  filled_if_truthy g seen d ->
  filled_if_truthy g (seen ++ [k]) (set_if_truthy d k (g k)).
Proof.
  intros (Hnd & Hkeys & Hval). unfold set_if_truthy.
  destruct (g k) as [n|] eqn:Hg; [destruct (Z.eqb_spec n 0) as [->|Hn0]|].
  - split; [exact Hnd | split; [|exact Hval]].
    intros k'. rewrite Hkeys, in_app_iff. simpl.
    split; [intuition|]. intros [[H|[<-|[]]] (m & Hm & Hm0)]; eauto.
    congruence.
  - split; [now apply PyDict_NoDup_set | split].
    + intros k'. rewrite PyDict_In_keys_set, Hkeys, in_app_iff. simpl.
      split.
      * intros [->|[H1 H2]]; [eauto 6 | tauto].
      * intros [[H|[<-|[]]] H2]; auto.
    + intros k' m. rewrite PyDict_get_set.
      destruct (String.eqb_spec k k') as [->|Hne]; [congruence | apply Hval].
  - split; [exact Hnd | split; [|exact Hval]].
    intros k'. rewrite Hkeys, in_app_iff. simpl.
    split; [intuition|]. intros [[H|[<-|[]]] (m & Hm & Hm0)]; eauto.
    congruence.
Qed.

Section RunFacts.
Variable to_float : Q -> Q.
Variable today : date.
Variable lighthouse_index : PyDict.t (list report).
Variable latest_language_data : PyDict.t (PyDict.t (PyDict.t pyval)).

Local Abbreviation after_sites :=
  (accumulated to_float today lighthouse_index latest_language_data).
Local Abbreviation placeholder_average :=
  (average_or_0 to_float today lighthouse_index).

Lemma accumulated_initial : after_sites [] initial_state.
Proof.
  unfold accumulated, filled_with, filled_if_truthy. simpl.
  repeat split; try constructor; try tauto; try discriminate;
    intros; try contradiction; tauto.
Qed.

Lemma main_step_accumulated (seen : list string) (st st' : main_state)
    (url : string) :
  after_sites seen st ->
  main_step to_float today lighthouse_index latest_language_data (Ok st) url
  = Ok st' ->
  after_sites (seen ++ [url]) st'.
Proof.
  intros (Hsites & Hacc & Hspeed & Hage & Hok) Hstep.
  unfold main_step in Hstep. simpl in Hstep.
  apply bind_Ok_inv in Hstep. destruct Hstep as (scores & Hscores & Hst').
  inversion Hst'; subst st'; clear Hst'. unfold accumulated. simpl.
  assert (Ea : get_or_0 (average_accessibility scores)
               = placeholder_average average_accessibility url)
    by (unfold average_or_0; now rewrite Hscores).
  assert (Es : get_or_0 (average_speed scores)
               = placeholder_average average_speed url)
    by (unfold average_or_0; now rewrite Hscores).
  rewrite Ea, Es.
  split; [apply (filled_with_set (fun u => u)); exact Hsites|].
  split; [now apply filled_with_set|].
  split; [now apply filled_with_set|].
  split; [now apply filled_if_truthy_set|].
  intros u Hu. apply in_app_or in Hu. destruct Hu as [Hu|[<-|[]]]; eauto.
Qed.

Lemma main_loop_Raise (sites : list string) (err : exn) :
  fold_left (main_step to_float today lighthouse_index latest_language_data)
    sites (Raise err) = Raise err.
Proof. induction sites as [|url sites IH]; simpl; [reflexivity | exact IH]. Qed.

Lemma main_loop_accumulated (sites seen : list string) (st st' : main_state) :
  after_sites seen st ->
  fold_left (main_step to_float today lighthouse_index latest_language_data)
    sites (Ok st) = Ok st' ->
  after_sites (seen ++ sites) st'.
Proof.
  revert seen st. induction sites as [|url sites IH]; intros seen st Hacc Hrun.
  - simpl in Hrun. inversion Hrun; subst. now rewrite app_nil_r.
  - cbn [fold_left] in Hrun.
    destruct (main_step to_float today lighthouse_index latest_language_data
                (Ok st) url) as [st1|err] eqn:Hstep.
    + replace (seen ++ url :: sites) with ((seen ++ [url]) ++ sites)
        by now rewrite <- app_assoc.
      apply (IH _ st1); [|exact Hrun].
      now apply (main_step_accumulated seen st).
    + rewrite main_loop_Raise in Hrun. discriminate.
Qed.
End RunFacts.

Lemma site_reading_age_range
    (latest_language_data : PyDict.t (PyDict.t (PyDict.t pyval)))
    (url : string) (age : Z) :
  site_reading_age latest_language_data url = Some age -> 6 <= age <= 18.
Proof.
  unfold site_reading_age.
  destruct (bind _ _) as [label|err]; [|discriminate].
  apply translate_reading_age_range.
Qed.

Example main_nz :
  main (fun q : Q => q) (mkdate 2020 5 3) lighthouse_index_nz language_data_nz
    sites_nz
  = Ok ({| r_speed :=
             [("https://www.govt.nz/covid-19-novel-coronavirus/", 110 # 200);
              ("https://nodata.example/", 0)]%string%Q;
           r_accessibility :=
             [("https://www.govt.nz/covid-19-novel-coronavirus/", 160 # 200);
              ("https://nodata.example/", 0)]%string%Q;
           r_reading_age :=
             [("https://www.govt.nz/covid-19-novel-coronavirus/", 14)]%string |},
        [("https://www.govt.nz/covid-19-novel-coronavirus/",
          {| e_accessibility := Some (160 # 200)%Q;
             e_speed := Some (110 # 200)%Q;
             e_reading_age := Some 14;
             e_overall := Some 8 |});
         ("https://nodata.example/",
          {| e_accessibility := Some 0%Q;
             e_speed := Some 0%Q;
             e_reading_age := None;
             e_overall := Some 3 |})]%string).
Proof. vm_compute. reflexivity. Qed.

(** C7 (amended).  After a run of the main loop over the monitored
    sites, the reading-age ranking contains exactly the sites that have
    a computed reading age, each with that age; the speed ranking and
    the accessibility ranking contain every site of the run, a site
    whose summary has no average for the metric being included with the
    placeholder value 0. *)
Theorem rankings_cover (to_float : Q -> Q) (today : date)
    (lighthouse_index : PyDict.t (list report))
    (latest_language_data : PyDict.t (PyDict.t (PyDict.t pyval)))
    (sites : list string) (st : main_state) :
  main_loop to_float today lighthouse_index latest_language_data sites
  = Ok st ->
  let rk := build_combined_rankings (avg st) in
  (forall url, In url (PyDict.keys (r_reading_age rk))
               <-> In url sites /\
                   exists age, site_reading_age latest_language_data url
                               = Some age) /\
  (forall url age, PyDict.get (r_reading_age rk) url = Some age ->
                   site_reading_age latest_language_data url = Some age) /\
  (forall url, In url (PyDict.keys (r_speed rk)) <-> In url sites) /\
  (forall url, In url (PyDict.keys (r_accessibility rk)) <-> In url sites) /\
  (forall url, In url sites ->
     exists scores,
       site_scores to_float today lighthouse_index url = Ok scores /\
       PyDict.get (r_speed rk) url
       = Some (match average_speed scores with
               | Some average => average
               | None => 0%Q
               end) /\
       PyDict.get (r_accessibility rk) url
       = Some (match average_accessibility scores with
               | Some average => average
               | None => 0%Q
               end)).
Proof.
  intros Hrun rk. unfold main_loop in Hrun.
  apply (main_loop_accumulated to_float today lighthouse_index
           latest_language_data sites [] initial_state st
           (accumulated_initial _ _ _ _)) in Hrun.
  simpl app in Hrun.
  destruct Hrun as (_ & (Na & Ka & Va) & (Ns & Ks & Vs) & (Nr & Kr & Vr) & Hok).
  unfold rk, build_combined_rankings.
  cbn [r_speed r_accessibility r_reading_age].
  rewrite !ranking_of_items by assumption.
  split; [|split; [|split; [|split]]].
  - intros url. rewrite ranking_keys, Kr. split.
    + intros (Hin & age & Hage & _). eauto.
    + intros (Hin & age & Hage). split; [exact Hin|]. exists age.
      split; [exact Hage|]. apply site_reading_age_range in Hage. lia.
  - intros url age. rewrite ranking_get by assumption. apply Vr.
  - intros url. now rewrite ranking_keys, Ks.
  - intros url. now rewrite ranking_keys, Ka.
  - intros url Hin. destruct (Hok url Hin) as (scores & Hscores).
    exists scores. split; [exact Hscores|].
    rewrite !ranking_get by assumption.
    apply Ks in Hin as Hs. apply Ka in Hin as Ha.
    apply PyDict_get_In_keys in Hs, Ha.
    destruct Hs as (vs & Hvs). destruct Ha as (va & Hva).
    rewrite Hvs, Hva. rewrite (Vs _ _ Hvs), (Va _ _ Hva).
    unfold average_or_0. rewrite Hscores. split; reflexivity.
Qed.

Lemma rankings_cover_witness :
  exists st,
    main_loop (fun q : Q => q) (mkdate 2020 5 3) lighthouse_index_nz
      language_data_nz sites_nz = Ok st /\
    (forall url, In url (PyDict.keys (r_reading_age
                                        (build_combined_rankings (avg st))))
                 <-> In url sites_nz /\
                     exists age, site_reading_age language_data_nz url
                                 = Some age) /\
    (forall url age,
       PyDict.get (r_reading_age (build_combined_rankings (avg st))) url
       = Some age ->
       site_reading_age language_data_nz url = Some age) /\
    (forall url, In url (PyDict.keys (r_speed
                                        (build_combined_rankings (avg st))))
                 <-> In url sites_nz) /\
    (forall url, In url (PyDict.keys (r_accessibility
                                        (build_combined_rankings (avg st))))
                 <-> In url sites_nz) /\
    (forall url, In url sites_nz ->
       exists scores,
         site_scores (fun q : Q => q) (mkdate 2020 5 3) lighthouse_index_nz url
         = Ok scores /\
         PyDict.get (r_speed (build_combined_rankings (avg st))) url
         = Some (match average_speed scores with
                 | Some average => average
                 | None => 0%Q
                 end) /\
         PyDict.get (r_accessibility (build_combined_rankings (avg st))) url
         = Some (match average_accessibility scores with
                 | Some average => average
                 | None => 0%Q
                 end)).
Proof.
  destruct (main_loop (fun q : Q => q) (mkdate 2020 5 3) lighthouse_index_nz
              language_data_nz sites_nz) as [st|err] eqn:Hrun.
  - exists st. split; [reflexivity|].
    exact (rankings_cover (fun q : Q => q) (mkdate 2020 5 3)
             lighthouse_index_nz language_data_nz sites_nz st Hrun).
  - vm_compute in Hrun. discriminate Hrun.
Defined.

(** C7, counterexample.  A run over one monitored site for which no
    audit data is filed: [process_site] raises [KeyError], the site's
    [scores] stay empty and no average is computed for it, and yet the
    speed ranking and the accessibility ranking of the run contain it,
    with the value 0. *)
Lemma rankings_placeholder_counterexample :
  process_site (fun q : Q => q) (mkdate 2020 5 3) lighthouse_index_nz
    "https://nodata.example/"
  = Raise (KeyError "https://nodata.example/")
  /\ site_scores (fun q : Q => q) (mkdate 2020 5 3) lighthouse_index_nz
       "https://nodata.example/"
     = Ok no_calculations
  /\ average_speed no_calculations = None
  /\ average_accessibility no_calculations = None
  /\ main (fun q : Q => q) (mkdate 2020 5 3) lighthouse_index_nz
       language_data_nz ["https://nodata.example/"]%string
     = Ok ({| r_speed := [("https://nodata.example/", 0)]%string%Q;
              r_accessibility := [("https://nodata.example/", 0)]%string%Q;
              r_reading_age := [] |},
           [("https://nodata.example/",
             {| e_accessibility := Some 0%Q;
                e_speed := Some 0%Q;
                e_reading_age := None;
                e_overall := Some 3 |})]%string).
Proof. repeat split; vm_compute; reflexivity. Qed.

(* ----------------------------------------------------------------- *)
(** ** LeaderboardComposer: the overall score *)

Section TopTable.
Variable site_count : Z.
Variable rk : rankings.

Lemma add_overall_Some (ranking : list string) (site : string) (e : entry)
    (o : Z) :
  e_overall e = Some o ->
  add_overall site_count ranking site e
  = Ok (with_overall e (o + rank_term site_count ranking site)).
Proof.
  intros Ho. unfold add_overall, getitem_overall, py_index, rank_term.
  rewrite Ho. simpl.
  destruct (index_of ranking site); simpl; [reflexivity|].
  destruct e; simpl in *. subst. now rewrite Z.add_0_r.
Qed.

Lemma site_entry_ranked (site : string) :
  In site (PyDict.keys (r_speed rk)) ->
  site_entry site_count rk site = Ok (row_of site_count rk site).
Proof.
  intros Hin. destruct (index_of_In _ _ Hin) as (i & Hi & _).
  unfold site_entry, set_overall, py_index. rewrite Hi. simpl.
  erewrite add_overall_Some by reflexivity. simpl.
  erewrite add_overall_Some by reflexivity.
  unfold row_of, overall_formula, with_overall. simpl.
  unfold rank_term at 3. now rewrite Hi.
Qed.

Lemma site_entry_unranked (site : string) :
  ~ In site (PyDict.keys (r_speed rk)) ->
  site_entry site_count rk site = Raise (KeyError "overall").
Proof.
  intros Hnotin. unfold site_entry, set_overall, py_index.
  destruct (index_of (PyDict.keys (r_speed rk)) site) as [i|] eqn:Hi.
  - exfalso. eauto using index_of_Some_In.
  - reflexivity.
Qed.

Lemma fill_top_table_ranked (sites : list string) (acc : PyDict.t entry) :
  NoDup (PyDict.keys acc ++ sites) ->
  (forall site, In site sites -> In site (PyDict.keys (r_speed rk))) ->
  fill_top_table site_count rk sites acc
  = Ok (acc ++ map (fun site => (site, row_of site_count rk site)) sites).
Proof.
  revert acc. induction sites as [|site sites IH]; intros acc Hnd Hin; simpl.
  - now rewrite app_nil_r.
  - rewrite site_entry_ranked by (apply Hin; simpl; auto). simpl.
    assert (Hfresh : ~ In site (PyDict.keys acc)).
    { apply NoDup_remove_2 in Hnd. intros H. apply Hnd, in_or_app. auto. }
    rewrite PyDict_set_fresh by exact Hfresh.
    rewrite IH.
    + now rewrite <- app_assoc.
    + unfold PyDict.keys in *. rewrite map_app. simpl.
      now rewrite <- app_assoc.
    + intros; apply Hin; simpl; auto.
Qed.

Lemma fill_top_table_unranked (sites : list string) (acc : PyDict.t entry)
    (site : string) :
  In site sites -> ~ In site (PyDict.keys (r_speed rk)) ->
  fill_top_table site_count rk sites acc = Raise (KeyError "overall").
Proof.
  revert acc. induction sites as [|s sites IH]; intros acc Hin Hnot;
    simpl in *; [tauto|].
  destruct (in_dec string_dec s (PyDict.keys (r_speed rk))) as [Hs|Hs].
  - rewrite site_entry_ranked by exact Hs. simpl.
    destruct Hin as [->|Hin]; [tauto | now apply IH].
  - now rewrite site_entry_unranked.
Qed.

Lemma overall_keys_rows (sites : list string) :
  overall_keys (map (fun site => (site, row_of site_count rk site)) sites)
  = Ok (map (fun site => (overall_formula site_count rk site,
                          (site, row_of site_count rk site))) sites).
Proof.
  induction sites as [|site sites IH]; simpl; [reflexivity|].
  now rewrite IH.
Qed.
End TopTable.

(** Every site of the site list ranked for speed: the leaderboard is
    built, each row's overall is the blend with [site_count] the
    length of the site list, and the rows come by overall descending,
    equal overalls in site-list order. *)
Lemma build_top_table_ranked (site_list : list string) (rk : rankings) :
  NoDup site_list ->
  (forall site, In site site_list -> In site (PyDict.keys (r_speed rk))) ->
  let N := Z.of_nat (List.length site_list) in
  let keyed := map (fun site => (overall_formula N rk site,
                                 (site, row_of N rk site))) site_list in
  build_top_table site_list rk
  = Ok (map snd (py_sorted fst Z.ltb true keyed)).
Proof.
  intros Hnd Hin N keyed. unfold build_top_table. fold N.
  rewrite fill_top_table_ranked by assumption. simpl app. simpl bind.
  unfold PyDict.items. rewrite overall_keys_rows. simpl bind. fold keyed.
  rewrite PyDict_of_items_NoDup; [reflexivity|].
  unfold PyDict.keys. rewrite map_map.
  assert (Hperm : Permutation
            (map (fun x => fst (snd x)) (py_sorted fst Z.ltb true keyed))
            site_list).
  { rewrite (Permutation_map _ (py_sorted_perm fst Z.ltb true keyed)).
    unfold keyed. rewrite map_map. simpl. now rewrite map_id. }
  eapply Permutation_NoDup; [symmetry; exact Hperm | exact Hnd].
Qed.

(** A site ranked for speed and accessibility but missing from the
    reading-age ranking gets its overall from the two terms alone. *)
Lemma overall_formula_missing_reading_age (site_count : Z) (rk : rankings)
    (site : string) (i j : Z) :
  index_of (PyDict.keys (r_speed rk)) site = Some i ->
  index_of (PyDict.keys (r_accessibility rk)) site = Some j ->
  ~ In site (PyDict.keys (r_reading_age rk)) ->
  overall_formula site_count rk site
  = 2 * (site_count - i) + (site_count - j).
Proof.
  intros Hi Hj Hnot. unfold overall_formula, rank_term. rewrite Hi, Hj.
  destruct (index_of (PyDict.keys (r_reading_age rk)) site) as [k|] eqn:Hk.
  - exfalso. eauto using index_of_Some_In.
  - lia.
Qed.

Example build_top_table_abc :
  let rk := {| r_speed := [("A", 0.9); ("B", 0.8); ("C", 0.7)]%string%Q;
               r_accessibility := [("B", 0.9); ("C", 0.8); ("A", 0.7)]%string%Q;
               r_reading_age := [("C", 10); ("A", 11); ("B", 12)]%string |} in
  option_map (map (fun x => (fst x, e_overall (snd x))))
    (match build_top_table ["A"; "B"; "C"]%string rk with
     | Ok t => Some t | Raise _ => None end)
  = Some [("A", Some 9); ("B", Some 8); ("C", Some 7)]%string.
Proof. vm_compute. reflexivity. Qed.

(** C1 (amended).  For a site list (the keys of a dictionary, hence
    without repetition) whose sites all appear in the speed ranking,
    [build_top_table] returns a leaderboard holding exactly the sites of
    the list; the overall of each is
    [2 * (N - speed position) + (N - accessibility position) +
     (N - reading-age position)], a term being present only when the site
    appears in that ranking, where [N] is the number of sites in the site
    list and positions are zero-based; the rows are ordered by overall
    descending, sites of equal overall in site-list order.  On the
    specification's three-site example this gives 9, 8, 7 and the order
    A, B, C (see [build_top_table_abc]). *)
Theorem build_top_table_overall (site_list : list string) (rk : rankings) :
  NoDup site_list ->
  (forall site, In site site_list -> In site (PyDict.keys (r_speed rk))) ->
  exists table,
    build_top_table site_list rk = Ok table /\
    Permutation (PyDict.keys table) site_list /\
    (forall site e, In (site, e) table ->
       e_overall e
       = Some (overall_formula (Z.of_nat (List.length site_list)) rk site)) /\
    StronglySorted
      (fun x y =>
         overall_formula (Z.of_nat (List.length site_list)) rk (fst y)
         <= overall_formula (Z.of_nat (List.length site_list)) rk (fst x))
      table /\
    (forall o,
       filter (fun site =>
                 overall_formula (Z.of_nat (List.length site_list)) rk site
                 =? o)
              (PyDict.keys table)
       = filter (fun site =>
                   overall_formula (Z.of_nat (List.length site_list)) rk site
                   =? o)
                site_list).
Proof.
  intros Hnd Hin.
  pose proof (build_top_table_ranked site_list rk Hnd Hin) as Hbuild.
  cbv zeta in Hbuild.
  set (N := Z.of_nat (List.length site_list)) in *.
  set (keyed := map (fun site => (overall_formula N rk site,
                                  (site, row_of N rk site))) site_list) in *.
  set (sorted := py_sorted fst Z.ltb true keyed) in *.
  assert (Hkeyed : forall x, In x sorted ->
            x = (overall_formula N rk (fst (snd x)),
                 (fst (snd x), row_of N rk (fst (snd x))))).
  { intros x Hx.
    apply (Permutation_in _ (py_sorted_perm fst Z.ltb true keyed)) in Hx.
    unfold keyed in Hx. apply in_map_iff in Hx. destruct Hx as (s & <- & _).
    reflexivity. }
  exists (map snd sorted). split; [exact Hbuild|].
  assert (Hkeys : PyDict.keys (map snd sorted)
                  = map (fun x => fst (snd x)) sorted).
  { unfold PyDict.keys. now rewrite map_map. }
  repeat split.
  - rewrite Hkeys. unfold sorted.
    rewrite (Permutation_map _ (py_sorted_perm fst Z.ltb true keyed)).
    unfold keyed. rewrite map_map. simpl. now rewrite map_id.
  - intros site e Hrow. apply in_map_iff in Hrow.
    destruct Hrow as (x & Hsnd & Hx). rewrite (Hkeyed x Hx) in Hsnd.
    simpl in Hsnd. inversion Hsnd; subst. reflexivity.
  - apply (StronglySorted_map_in (after fst Z.ltb)).
    + intros x y Hx Hy Hafter. unfold after in Hafter.
      rewrite (Hkeyed x Hx), (Hkeyed y Hy) in Hafter. simpl in Hafter.
      rewrite (Hkeyed x Hx), (Hkeyed y Hy). simpl. lia.
    + apply py_sorted_descending; [exact Zltb_asym | exact Zltb_negtrans].
  - intros o. rewrite Hkeys, filter_map_comm. unfold sorted.
    rewrite py_sorted_stable.
    + transitivity
        (filter (fun site => overall_formula N rk site =? o)
                (map (fun x => fst (snd x)) keyed)).
      * symmetry.
        apply (filter_map_comm (fun site => overall_formula N rk site =? o)
                 (fun x => fst (snd x)) keyed).
      * unfold keyed. rewrite map_map. simpl. now rewrite map_id.
    + intros x y Hx Hy Hpx Hpy. unfold before.
      unfold keyed in Hx, Hy. apply in_map_iff in Hx, Hy.
      destruct Hx as (sx & <- & _). destruct Hy as (sy & <- & _).
      simpl in *. lia.
Qed.

(** The specification's example as an instance of the theorem. *)
Lemma build_top_table_overall_witness :
  let rk := {| r_speed := [("A", 0.9); ("B", 0.8); ("C", 0.7)]%string%Q;
               r_accessibility := [("B", 0.9); ("C", 0.8); ("A", 0.7)]%string%Q;
               r_reading_age := [("C", 10); ("A", 11); ("B", 12)]%string |} in
  let abc := ["A"; "B"; "C"]%string in
  NoDup abc /\
  (forall site, In site abc -> In site (PyDict.keys (r_speed rk))) /\
  overall_formula 3 rk "A" = 9 /\
  overall_formula 3 rk "B" = 8 /\
  overall_formula 3 rk "C" = 7 /\
  exists table,
    build_top_table abc rk = Ok table /\
    Permutation (PyDict.keys table) abc /\
    (forall site e, In (site, e) table ->
       e_overall e = Some (overall_formula 3 rk site)) /\
    StronglySorted
      (fun x y => overall_formula 3 rk (fst y) <= overall_formula 3 rk (fst x))
      table /\
    (forall o,
       filter (fun site => overall_formula 3 rk site =? o) (PyDict.keys table)
       = filter (fun site => overall_formula 3 rk site =? o) abc).
Proof.
  cbv zeta.
  assert (Hnd : NoDup ["A"; "B"; "C"]%string).
  { repeat constructor; simpl; intuition discriminate. }
  assert (Hin : forall site, In site ["A"; "B"; "C"]%string ->
                In site (PyDict.keys
                  [("A", 0.9); ("B", 0.8); ("C", 0.7)]%string%Q)).
  { intros site H. exact H. }
  split; [exact Hnd|]. split; [exact Hin|].
  split; [reflexivity|]. split; [reflexivity|]. split; [reflexivity|].
  exact (build_top_table_overall ["A"; "B"; "C"]%string
           {| r_speed := [("A", 0.9); ("B", 0.8); ("C", 0.7)]%string%Q;
              r_accessibility := [("B", 0.9); ("C", 0.8); ("A", 0.7)]%string%Q;
              r_reading_age := [("C", 10); ("A", 11); ("B", 12)]%string |}
           Hnd Hin).
Defined.

(** C1, counterexample.  Two sites, both ranked for speed and
    accessibility, one of them alone ranked for reading age: the code
    counts the reading-age term of A from the two sites of the site list,
    2 - 0, and gives A the overall 8, where a count from the one entry of
    the reading-age ranking, 1 - 0, gives 7. *)
Lemma build_top_table_site_count_counterexample :
  let rk := {| r_speed := [("A", 0.9); ("B", 0.8)]%string%Q;
               r_accessibility := [("A", 0.9); ("B", 0.8)]%string%Q;
               r_reading_age := [("A", 11)]%string |} in
  build_top_table ["A"; "B"]%string rk
  = Ok [("A", {| e_accessibility := Some 0.9%Q; e_speed := Some 0.9%Q;
                 e_reading_age := Some 11; e_overall := Some 8 |});
        ("B", {| e_accessibility := Some 0.8%Q; e_speed := Some 0.8%Q;
                 e_reading_age := None; e_overall := Some 3 |})]%string
  /\ spec_overall rk "A" = 7
  /\ spec_overall rk "B" = 3.
Proof. cbv zeta. repeat split; vm_compute; reflexivity. Qed.

(** C2 (defect of the code).  A site of the site list that is absent
    from the speed ranking makes [build_top_table] raise [KeyError]
    for ['overall']: the [ValueError] of the speed lookup is caught, but
    the row is left without an ['overall'] key, and the [+=] that
    follows loads that key before it looks the site up in the
    accessibility ranking; only [ValueError] is caught there.  No
    leaderboard is returned, whatever the other rankings hold. *)
Theorem build_top_table_unranked_speed_raises
    (site_list : list string) (rk : rankings) (site : string) :
  In site site_list ->
  ~ In site (PyDict.keys (r_speed rk)) ->
  build_top_table site_list rk = Raise (KeyError "overall").
Proof.
  intros Hin Hnot. unfold build_top_table.
  now rewrite (fill_top_table_unranked _ rk site_list PyDict.empty site).
Qed.

Lemma build_top_table_unranked_speed_raises_witness :
  let rk := {| r_speed := [];
               r_accessibility := [("A", 0.5)]%string%Q;
               r_reading_age := [] |} in
  In "A"%string ["A"]%string /\
  ~ In "A"%string (PyDict.keys (r_speed rk)) /\
  build_top_table ["A"]%string rk = Raise (KeyError "overall").
Proof.
  cbv zeta.
  assert (Hin : In "A"%string ["A"]%string) by (left; reflexivity).
  assert (Hnot : ~ In "A"%string (PyDict.keys (@nil (string * Q))))
    by (intros []).
  split; [exact Hin|]. split; [exact Hnot|].
  exact (build_top_table_unranked_speed_raises ["A"]%string
           {| r_speed := [];
              r_accessibility := [("A", 0.5)]%string%Q;
              r_reading_age := [] |} "A"%string Hin Hnot).
Defined.

(* ----------------------------------------------------------------- *)
(** ** The index of the audit data *)

Lemma find_app {A : Type} (p : A -> bool) (l1 l2 : list A) :
  find p (l1 ++ l2)
  = match find p l1 with
    | Some x => Some x
    | None => find p l2
    end.
Proof.
  induction l1 as [|x l1 IH]; simpl; [reflexivity|].
  destruct (p x); [reflexivity | exact IH].
Qed.

Lemma existsb_eqb_In (x : string) (l : list string) :
  existsb (String.eqb x) l = true <-> In x l.
Proof.
  rewrite existsb_exists. split.
  - intros (y & Hy & Heq). apply String.eqb_eq in Heq. now subst.
  - intros Hin. exists x. split; [exact Hin | apply String.eqb_refl].
Qed.

Lemma date_indexed_fold (l : list report) (acc : PyDict.t report) :
  let indexed :=
    fold_left
      (fun parsed_data loaded_json =>
         PyDict.set parsed_data (fetch_date loaded_json) loaded_json)
      l acc in
  (NoDup (PyDict.keys acc) -> NoDup (PyDict.keys indexed)) /\
  (forall d, PyDict.get indexed d
             = match find (fun r => String.eqb (fetch_date r) d) (rev l) with
               | Some r => Some r
               | None => PyDict.get acc d
               end) /\
  (forall d, In d (PyDict.keys indexed)
             <-> In d (PyDict.keys acc) \/ In d (map fetch_date l)).
Proof.
  revert acc. induction l as [|x l IH]; intros acc; cbn [fold_left].
  - cbv zeta. simpl. split; [auto|]. split; [reflexivity|]. intros d. tauto.
  - specialize (IH (PyDict.set acc (fetch_date x) x)). cbv zeta in *.
    destruct IH as (IHnd & IHget & IHkeys). split; [|split].
    + intros Hnd. apply IHnd. now apply PyDict_NoDup_set.
    + intros d. rewrite IHget. cbn [rev]. rewrite find_app.
      destruct (find _ (rev l)); [reflexivity|].
      cbn [find]. rewrite PyDict_get_set.
      destruct (String.eqb (fetch_date x) d); reflexivity.
    + intros d. rewrite IHkeys, PyDict_In_keys_set. cbn [map In].
      intuition congruence.
Qed.

(** [get_date_indexed_lighthouse_data]: the index has one entry per
    fetch date of the reports, and when several reports share a date,
    the one loaded last is the one kept. *)
Theorem get_date_indexed_last_wins (json_file_list : list report) :
  let parsed_data := get_date_indexed_lighthouse_data json_file_list in
  NoDup (PyDict.keys parsed_data) /\
  (forall d, In d (PyDict.keys parsed_data)
             <-> exists r, In r json_file_list /\ fetch_date r = d) /\
  (forall d, PyDict.get parsed_data d
             = find (fun r => String.eqb (fetch_date r) d)
                 (rev json_file_list)).
Proof.
  cbv zeta.
  destruct (date_indexed_fold json_file_list PyDict.empty)
    as (Hnd & Hget & Hkeys).
  unfold get_date_indexed_lighthouse_data. fold fetch_date.
  cbv zeta in Hnd, Hget, Hkeys.
  change (fun parsed_data loaded_json =>
            PyDict.set parsed_data
              (hd EmptyString (split_on "T" (fetchTime loaded_json)))
              loaded_json)
    with (fun parsed_data loaded_json =>
            PyDict.set parsed_data (fetch_date loaded_json) loaded_json).
  split; [apply Hnd; constructor|]. split.
  - intros d. rewrite Hkeys, in_map_iff. simpl. split.
    + intros [[]|(r & Hd & Hr)]. eauto.
    + intros (r & Hr & Hd). right. eauto.
  - intros d. rewrite Hget. simpl.
    destruct (find _ (rev json_file_list)); reflexivity.
Qed.

Lemma add_file_get (combined : PyDict.t (list report)) (x : report)
    (url : string) :
  PyDict.get (add_file combined x) url
  = if String.eqb (finalUrl x) url
    then Some (match PyDict.get combined url with
               | Some files => files
               | None => []
               end ++ [x])
    else PyDict.get combined url.
Proof.
  unfold add_file, PyDict.mem. cbv zeta.
  destruct (PyDict.get combined (finalUrl x)) as [files|] eqn:Hget.
  - rewrite Hget, PyDict_get_set.
    destruct (String.eqb_spec (finalUrl x) url) as [<-|Hne];
      [now rewrite Hget | reflexivity].
  - rewrite PyDict_get_set, String.eqb_refl, !PyDict_get_set.
    destruct (String.eqb_spec (finalUrl x) url) as [<-|Hne];
      [now rewrite Hget | reflexivity].
Qed.

Lemma add_file_NoDup (combined : PyDict.t (list report)) (x : report) :
  NoDup (PyDict.keys combined) -> NoDup (PyDict.keys (add_file combined x)).
Proof.
  intros Hnd. unfold add_file. cbv zeta.
  destruct (PyDict.mem combined (finalUrl x));
    destruct (PyDict.get _ (finalUrl x));
    auto using PyDict_NoDup_set.
Qed.

Lemma get_map_fold (l : list report) (acc : PyDict.t (list report)) :
  (NoDup (PyDict.keys acc) -> NoDup (PyDict.keys (fold_left add_file l acc)))
  /\
  forall url,
    PyDict.get (fold_left add_file l acc) url
    = match filter (fun r => String.eqb (finalUrl r) url) l with
      | [] => PyDict.get acc url
      | files => Some (match PyDict.get acc url with
                       | Some old => old
                       | None => []
                       end ++ files)
      end.
Proof.
  revert acc. induction l as [|x l IH]; intros acc; cbn [fold_left filter].
  - split; [auto | reflexivity].
  - destruct (IH (add_file acc x)) as [IHnd IHget]. split.
    + intros Hnd. apply IHnd. now apply add_file_NoDup.
    + intros url. rewrite IHget, add_file_get.
      destruct (String.eqb (finalUrl x) url).
      * destruct (filter _ l) as [|y files]; [reflexivity|].
        now rewrite <- app_assoc.
      * reflexivity.
Qed.

(** [get_map_of_lighthouse_data]: under each URL the index lists
    exactly the files whose report has that [finalUrl], in the order in
    which the files were read; a URL no report has is not a key, and no
    file is lost or listed twice. *)
Theorem get_map_of_lighthouse_data_groups (json_file_list : list report) :
  let combined := get_map_of_lighthouse_data json_file_list in
  NoDup (PyDict.keys combined) /\
  forall url,
    PyDict.get combined url
    = match filter (fun r => String.eqb (finalUrl r) url) json_file_list with
      | [] => None
      | files => Some files
      end.
Proof.
  cbv zeta. unfold get_map_of_lighthouse_data.
  destruct (get_map_fold json_file_list PyDict.empty) as [Hnd Hget].
  split; [apply Hnd; constructor|].
  intros url. rewrite Hget. reflexivity.
Qed.

(** [translate_to_lighthouse_key] returns the URL itself or its alias
    in [url_mappings], the URL itself whenever it is a key, and a key of
    the index whenever the URL or its alias is one. *)
Theorem translate_to_lighthouse_key_result (lighthouse_keys : list string)
    (url key : string) :
  translate_to_lighthouse_key lighthouse_keys url = Ok key ->
  (key = url \/ PyDict.get url_mappings url = Some key) /\
  (In url lighthouse_keys -> key = url) /\
  (In url lighthouse_keys \/
   (exists alias, PyDict.get url_mappings url = Some alias /\
                  In alias lighthouse_keys) ->
   In key lighthouse_keys).
Proof.
  unfold translate_to_lighthouse_key, PyDict.getitem.
  destruct (existsb (String.eqb url) lighthouse_keys) eqn:Hurl.
  - intros [= <-]. apply existsb_eqb_In in Hurl. auto.
  - assert (Hnot : ~ In url lighthouse_keys).
    { rewrite <- existsb_eqb_In. congruence. }
    destruct (PyDict.get url_mappings url) as [alias|]; simpl;
      [|discriminate].
    destruct (existsb (String.eqb alias) lighthouse_keys) eqn:Halias;
      intros [= <-].
    + apply existsb_eqb_In in Halias.
      repeat split; auto; intros; contradiction.
    + assert (Hnot' : ~ In alias lighthouse_keys).
      { rewrite <- existsb_eqb_In. congruence. }
      repeat split; auto; try tauto.
      intros [H|(a & [= <-] & Ha)]; contradiction.
Qed.

Lemma translate_to_lighthouse_key_result_witness :
  translate_to_lighthouse_key ["https://covid19.govt.nz/"]%string
    "https://www.govt.nz/covid-19-novel-coronavirus/"
  = Ok "https://covid19.govt.nz/"%string /\
  ("https://covid19.govt.nz/"%string
   = "https://www.govt.nz/covid-19-novel-coronavirus/"%string \/
   PyDict.get url_mappings "https://www.govt.nz/covid-19-novel-coronavirus/"
   = Some "https://covid19.govt.nz/"%string) /\
  (In "https://www.govt.nz/covid-19-novel-coronavirus/"%string
      ["https://covid19.govt.nz/"]%string ->
   "https://covid19.govt.nz/"%string
   = "https://www.govt.nz/covid-19-novel-coronavirus/"%string) /\
  (In "https://www.govt.nz/covid-19-novel-coronavirus/"%string
      ["https://covid19.govt.nz/"]%string \/
   (exists alias,
      PyDict.get url_mappings "https://www.govt.nz/covid-19-novel-coronavirus/"
      = Some alias /\ In alias ["https://covid19.govt.nz/"]%string) ->
   In "https://covid19.govt.nz/"%string ["https://covid19.govt.nz/"]%string).
Proof.
  assert (Hrun : translate_to_lighthouse_key ["https://covid19.govt.nz/"]%string
                   "https://www.govt.nz/covid-19-novel-coronavirus/"
                 = Ok "https://covid19.govt.nz/"%string) by reflexivity.
  split; [exact Hrun|].
  exact (translate_to_lighthouse_key_result _ _ _ Hrun).
Defined.

Section RunOutcomes.
Variable to_float : Q -> Q.
Variable today : date.
Variable lighthouse_index : PyDict.t (list report).
Variable latest_language_data : PyDict.t (PyDict.t (PyDict.t pyval)).

(** A site for which neither its URL nor its alias is a key of the
    index: [process_site] raises [KeyError] for the URL, and the main
    loop goes on with empty scores for the site. *)
Theorem process_site_without_data (url : string) :
  ~ In url (PyDict.keys lighthouse_index) ->
  (forall alias, PyDict.get url_mappings url = Some alias ->
                 ~ In alias (PyDict.keys lighthouse_index)) ->
  process_site to_float today lighthouse_index url = Raise (KeyError url) /\
  site_scores to_float today lighthouse_index url = Ok no_calculations.
Proof.
  intros Hurl Halias.
  assert (Hp : process_site to_float today lighthouse_index url
               = Raise (KeyError url)).
  { unfold process_site, translate_to_lighthouse_key, PyDict.getitem.
    assert (E : existsb (String.eqb url) (PyDict.keys lighthouse_index)
                = false).
    { apply not_true_iff_false. now rewrite existsb_eqb_In. }
    rewrite E.
    apply PyDict_get_None_iff in Hurl.
    destruct (PyDict.get url_mappings url) as [alias|] eqn:Hmap; simpl;
      [|reflexivity].
    assert (E' : existsb (String.eqb alias) (PyDict.keys lighthouse_index)
                 = false).
    { apply not_true_iff_false. rewrite existsb_eqb_In. now apply Halias. }
    rewrite E'. simpl. now rewrite Hurl. }
  split; [exact Hp|]. unfold site_scores. now rewrite Hp.
Qed.

Lemma main_step_Ok (st : main_state) (url : string) (scores : calculations) :
  site_scores to_float today lighthouse_index url = Ok scores ->
  exists st',
    main_step to_float today lighthouse_index latest_language_data (Ok st) url
    = Ok st'.
Proof.
  intros Hs. unfold main_step. cbn [bind]. rewrite Hs. cbn [bind].
  eexists. reflexivity.
Qed.

Lemma main_step_Raise (st : main_state) (url : string) (err : exn) :
  site_scores to_float today lighthouse_index url = Raise err ->
  main_step to_float today lighthouse_index latest_language_data (Ok st) url
  = Raise err.
Proof.
  intros Hs. unfold main_step. cbn [bind]. now rewrite Hs.
Qed.

Lemma main_loop_from_Ok (sites : list string) (st : main_state) :
  (forall url, In url sites ->
     exists scores,
       site_scores to_float today lighthouse_index url = Ok scores) ->
  exists st',
    fold_left (main_step to_float today lighthouse_index latest_language_data)
      sites (Ok st) = Ok st'.
Proof.
  revert st. induction sites as [|url sites IH]; intros st Hall.
  - exists st. reflexivity.
  - destruct (Hall url (or_introl eq_refl)) as (scores & Hs).
    destruct (main_step_Ok st url scores Hs) as (st1 & Hst1).
    cbn [fold_left]. rewrite Hst1. apply IH. intros; apply Hall; now right.
Qed.

(** The loop over the monitored sites completes exactly when no site's
    processing raises anything but [KeyError]. *)
Theorem main_loop_completes_iff (sites : list string) :
  (exists st,
     main_loop to_float today lighthouse_index latest_language_data sites
     = Ok st)
  <-> forall url, In url sites ->
        exists scores,
          site_scores to_float today lighthouse_index url = Ok scores.
Proof.
  split.
  - intros (st & Hrun). unfold main_loop in Hrun.
    apply (main_loop_accumulated to_float today lighthouse_index
             latest_language_data sites [] initial_state st
             (accumulated_initial _ _ _ _)) in Hrun.
    destruct Hrun as (_ & _ & _ & _ & Hok). exact Hok.
  - intros Hall. unfold main_loop. now apply main_loop_from_Ok.
Qed.

(** The first site whose processing raises something other than
    [KeyError] ends the run with that exception: the sites after it are
    not processed and no ranking is built. *)
Theorem main_loop_first_failure (before after : list string) (url : string)
    (err : exn) :
  (forall u, In u before ->
     exists scores,
       site_scores to_float today lighthouse_index u = Ok scores) ->
  site_scores to_float today lighthouse_index url = Raise err ->
  main_loop to_float today lighthouse_index latest_language_data
    (before ++ url :: after) = Raise err /\
  main to_float today lighthouse_index latest_language_data
    (before ++ url :: after) = Raise err.
Proof.
  intros Hbefore Hurl.
  assert (Hloop : main_loop to_float today lighthouse_index
                    latest_language_data (before ++ url :: after)
                  = Raise err).
  { unfold main_loop. rewrite fold_left_app.
    destruct (main_loop_from_Ok before initial_state Hbefore) as (st & ->).
    cbn [fold_left]. rewrite (main_step_Raise st url err Hurl).
    apply main_loop_Raise. }
  split; [exact Hloop|]. unfold main. now rewrite Hloop.
Qed.
End RunOutcomes.

Lemma process_site_without_data_witness :
  ~ In "https://nodata.example/"%string (PyDict.keys lighthouse_index_nz) /\
  (forall alias,
     PyDict.get url_mappings "https://nodata.example/" = Some alias ->
     ~ In alias (PyDict.keys lighthouse_index_nz)) /\
  process_site (fun q : Q => q) (mkdate 2020 5 3) lighthouse_index_nz
    "https://nodata.example/"
  = Raise (KeyError "https://nodata.example/") /\
  site_scores (fun q : Q => q) (mkdate 2020 5 3) lighthouse_index_nz
    "https://nodata.example/"
  = Ok no_calculations.
Proof.
  assert (Hurl : ~ In "https://nodata.example/"%string
                     (PyDict.keys lighthouse_index_nz)).
  { simpl. intros [H|[]]. discriminate H. }
  assert (Halias : forall alias,
            PyDict.get url_mappings "https://nodata.example/" = Some alias ->
            ~ In alias (PyDict.keys lighthouse_index_nz)).
  { intros alias H. vm_compute in H. discriminate H. }
  split; [exact Hurl|]. split; [exact Halias|].
  exact (process_site_without_data (fun q : Q => q) (mkdate 2020 5 3)
           lighthouse_index_nz "https://nodata.example/" Hurl Halias).
Defined.

Lemma main_loop_first_failure_witness :
  (forall u, In u ["https://nodata.example/"]%string ->
     exists scores,
       site_scores (fun q : Q => q) (mkdate 2020 5 2)
         lighthouse_index_unscored u = Ok scores) /\
  site_scores (fun q : Q => q) (mkdate 2020 5 2) lighthouse_index_unscored
    "https://covid19.govt.nz/"
  = Raise (NameError "url") /\
  main_loop (fun q : Q => q) (mkdate 2020 5 2) lighthouse_index_unscored
    language_data_nz
    (["https://nodata.example/"%string]
       ++ "https://covid19.govt.nz/"%string
       :: ["https://later.example/"%string])%list
  = Raise (NameError "url") /\
  main (fun q : Q => q) (mkdate 2020 5 2) lighthouse_index_unscored
    language_data_nz
    (["https://nodata.example/"%string]
       ++ "https://covid19.govt.nz/"%string
       :: ["https://later.example/"%string])%list
  = Raise (NameError "url").
Proof.
  assert (Hbefore : forall u, In u ["https://nodata.example/"]%string ->
            exists scores,
              site_scores (fun q : Q => q) (mkdate 2020 5 2)
                lighthouse_index_unscored u = Ok scores).
  { intros u [<-|[]]. eexists. vm_compute. reflexivity. }
  assert (Hurl : site_scores (fun q : Q => q) (mkdate 2020 5 2)
                   lighthouse_index_unscored "https://covid19.govt.nz/"
                 = Raise (NameError "url")) by (vm_compute; reflexivity).
  split; [exact Hbefore|]. split; [exact Hurl|].
  exact (main_loop_first_failure (fun q : Q => q) (mkdate 2020 5 2)
           lighthouse_index_unscored language_data_nz
           ["https://nodata.example/"]%string ["https://later.example/"]%string
           "https://covid19.govt.nz/" (NameError "url") Hbefore Hurl).
Defined.

(* ----------------------------------------------------------------- *)
(** ** The leaderboard of a run *)

Lemma rank_term_bounds (site_list ranking : list string) (site : string) :
  NoDup ranking -> incl ranking site_list ->
  (In site ranking ->
   1 <= rank_term (Z.of_nat (List.length site_list)) ranking site
     <= Z.of_nat (List.length site_list)) /\
  (~ In site ranking ->
   rank_term (Z.of_nat (List.length site_list)) ranking site = 0).
Proof.
  intros Hnd Hincl. unfold rank_term. split.
  - intros Hin. destruct (index_of_In _ _ Hin) as (i & -> & Hi).
    pose proof (NoDup_incl_length Hnd Hincl). lia.
  - intros Hnot.
    destruct (index_of ranking site) as [i|] eqn:Hi; [|reflexivity].
    exfalso. eauto using index_of_Some_In.
Qed.

Lemma rank_term_range (site_list ranking : list string) (site : string) :
  NoDup ranking -> incl ranking site_list ->
  0 <= rank_term (Z.of_nat (List.length site_list)) ranking site
    <= Z.of_nat (List.length site_list).
Proof.
  intros Hnd Hincl.
  destruct (rank_term_bounds site_list ranking site Hnd Hincl) as [Hin Hout].
  destruct (in_dec string_dec site ranking) as [H|H].
  - specialize (Hin H). lia.
  - rewrite (Hout H). lia.
Qed.

Lemma build_top_table_ranked_rows (site_list : list string) (rk : rankings)
    (site : string) (e : entry) :
  In (site, e)
     (map snd
        (py_sorted fst Z.ltb true
           (map (fun s =>
                   (overall_formula (Z.of_nat (List.length site_list)) rk s,
                    (s, row_of (Z.of_nat (List.length site_list)) rk s)))
              site_list))) ->
  In site site_list /\
  e = row_of (Z.of_nat (List.length site_list)) rk site.
Proof.
  intros Hin. apply in_map_iff in Hin. destruct Hin as (x & Hsnd & Hx).
  apply (Permutation_in _ (py_sorted_perm fst Z.ltb true _)) in Hx.
  apply in_map_iff in Hx. destruct Hx as (s & <- & Hs).
  simpl in Hsnd. inversion Hsnd; subst. auto.
Qed.

(** [build_top_table], for a site list whose sites are all ranked for
    speed and rankings that rank only sites of the list: every row
    carries the site's values in the three rankings (the default where
    it has none) and an overall between 2 and 4 times the number of
    sites. *)
Theorem build_top_table_rows (site_list : list string) (rk : rankings) :
  NoDup site_list ->
  (forall site, In site site_list -> In site (PyDict.keys (r_speed rk))) ->
  NoDup (PyDict.keys (r_speed rk)) ->
  NoDup (PyDict.keys (r_accessibility rk)) ->
  NoDup (PyDict.keys (r_reading_age rk)) ->
  incl (PyDict.keys (r_speed rk)) site_list ->
  incl (PyDict.keys (r_accessibility rk)) site_list ->
  incl (PyDict.keys (r_reading_age rk)) site_list ->
  exists table,
    build_top_table site_list rk = Ok table /\
    forall site e, In (site, e) table ->
      e_speed e = PyDict.get (r_speed rk) site /\
      e_accessibility e = PyDict.get (r_accessibility rk) site /\
      e_reading_age e = PyDict.get (r_reading_age rk) site /\
      exists overall,
        e_overall e = Some overall /\
        2 <= overall <= 4 * Z.of_nat (List.length site_list).
Proof.
  intros Hnd Hranked Ns Na Nr Is Ia Ir.
  eexists. split; [apply build_top_table_ranked; assumption|].
  cbv zeta. intros site e Hin.
  apply build_top_table_ranked_rows in Hin. destruct Hin as [Hsite ->].
  cbn [row_of e_speed e_accessibility e_reading_age e_overall].
  repeat split; try reflexivity.
  eexists. split; [reflexivity|]. unfold overall_formula.
  destruct (rank_term_bounds site_list _ site Ns Is) as [Hs _].
  specialize (Hs (Hranked site Hsite)).
  pose proof (rank_term_range site_list _ site Na Ia).
  pose proof (rank_term_range site_list _ site Nr Ir).
  lia.
Qed.

Lemma build_top_table_rows_witness :
  let site_list := ["A"; "B"; "C"]%string in
  let rk := {| r_speed := [("A", 0.9); ("B", 0.8); ("C", 0.7)]%string%Q;
               r_accessibility := [("B", 0.9); ("C", 0.8); ("A", 0.7)]%string%Q;
               r_reading_age := [("C", 10); ("A", 11)]%string |} in
  NoDup site_list /\
  (forall site, In site site_list -> In site (PyDict.keys (r_speed rk))) /\
  incl (PyDict.keys (r_reading_age rk)) site_list /\
  exists table,
    build_top_table site_list rk = Ok table /\
    forall site e, In (site, e) table ->
      e_speed e = PyDict.get (r_speed rk) site /\
      e_accessibility e = PyDict.get (r_accessibility rk) site /\
      e_reading_age e = PyDict.get (r_reading_age rk) site /\
      exists overall,
        e_overall e = Some overall /\
        2 <= overall <= 4 * Z.of_nat (List.length site_list).
Proof.
  cbv zeta.
  assert (Hne : forall a b : string, String.eqb a b = false -> a <> b)
    by (intros a b H; now apply String.eqb_neq).
  assert (Hnd3 : forall a b c : string,
            String.eqb a b = false -> String.eqb a c = false ->
            String.eqb b c = false -> NoDup [a; b; c]).
  { intros a b c Hab Hac Hbc. apply Hne in Hab, Hac, Hbc.
    repeat constructor; simpl; intuition congruence. }
  assert (Hnd2 : forall a b : string,
            String.eqb a b = false -> NoDup [a; b]).
  { intros a b Hab. apply Hne in Hab.
    repeat constructor; simpl; intuition congruence. }
  assert (Hnd : NoDup ["A"; "B"; "C"]%string) by (apply Hnd3; reflexivity).
  assert (Hranked : forall site, In site ["A"; "B"; "C"]%string ->
            In site (PyDict.keys [("A", 0.9); ("B", 0.8);
                                  ("C", 0.7)]%string%Q))
    by (intros site H; exact H).
  assert (Hincl : incl (PyDict.keys [("C", 10); ("A", 11)]%string)
                    ["A"; "B"; "C"]%string)
    by (intros x Hx; simpl in *; tauto).
  split; [exact Hnd|]. split; [exact Hranked|]. split; [exact Hincl|].
  apply (build_top_table_rows ["A"; "B"; "C"]%string
           {| r_speed := [("A", 0.9); ("B", 0.8); ("C", 0.7)]%string%Q;
              r_accessibility :=
                [("B", 0.9); ("C", 0.8); ("A", 0.7)]%string%Q;
              r_reading_age := [("C", 10); ("A", 11)]%string |}).
  - exact Hnd.
  - exact Hranked.
  - exact Hnd.
  - apply Hnd3; reflexivity.
  - apply Hnd2; reflexivity.
  - intros x Hx. exact Hx.
  - intros x Hx. simpl in *. tauto.
  - exact Hincl.
Defined.

Lemma leaderboard_keys_perm (site_list : list string) (rk : rankings)
    (site_count : Z) :
  Permutation
    (PyDict.keys
       (map snd
          (py_sorted fst Z.ltb true
             (map (fun s => (overall_formula site_count rk s,
                             (s, row_of site_count rk s))) site_list))))
    site_list.
Proof.
  unfold PyDict.keys. rewrite map_map.
  rewrite (Permutation_map _ (py_sorted_perm fst Z.ltb true _)).
  rewrite map_map. simpl. now rewrite map_id.
Qed.

Lemma ranking_NoDup {V : Type} (lt : V -> V -> bool) (reverse : bool)
    (d : PyDict.t V) :
  NoDup (PyDict.keys d) ->
  NoDup (PyDict.keys (py_sorted snd lt reverse d)).
Proof.
  intros Hnd. unfold PyDict.keys.
  eapply Permutation_NoDup; [|exact Hnd].
  apply Permutation_map. symmetry. apply py_sorted_perm.
Qed.

Section RunLeaderboard.
Variable to_float : Q -> Q.
Variable today : date.
Variable lighthouse_index : PyDict.t (list report).
Variable latest_language_data : PyDict.t (PyDict.t (PyDict.t pyval)).

(** Lines 226-264: when the loop over the sites completes, the run
    completes: [build_top_table] does not raise on the rankings the loop
    has accumulated, the leaderboard has one row for each monitored
    site, and every row carries an overall between 3 and 4 times the
    number of distinct sites. *)
Theorem main_leaderboard (sites : list string) (st : main_state) :
  main_loop to_float today lighthouse_index latest_language_data sites
  = Ok st ->
  exists table,
    main to_float today lighthouse_index latest_language_data sites
    = Ok (build_combined_rankings (avg st), table) /\
    NoDup (PyDict.keys table) /\
    (forall url, In url (PyDict.keys table) <-> In url sites) /\
    (forall url e, In (url, e) table ->
       exists overall,
         e_overall e = Some overall /\
         3 <= overall
           <= 4 * Z.of_nat (List.length (PyDict.keys (site_list st)))).
Proof.
  intros Hrun.
  assert (Hacc : accumulated to_float today lighthouse_index
                   latest_language_data sites st).
  { apply (main_loop_accumulated to_float today lighthouse_index
             latest_language_data sites [] initial_state st).
    - apply accumulated_initial.
    - exact Hrun. }
  destruct Hacc as ((Hnd & Hkeys & _) & (Hnda & Hka & _) & (Hnds & Hks & _)
                    & (Hndr & Hkr & _) & _).
  set (rk := build_combined_rankings (avg st)).
  assert (Es : r_speed rk = py_sorted snd Qltb true (avg_speed (avg st)))
    by (apply ranking_of_items; exact Hnds).
  assert (Ea : r_accessibility rk
               = py_sorted snd Qltb true (avg_accessibility (avg st)))
    by (apply ranking_of_items; exact Hnda).
  assert (Er : r_reading_age rk
               = py_sorted snd Z.ltb false (avg_reading_age (avg st)))
    by (apply ranking_of_items; exact Hndr).
  assert (Hranked : forall site, In site (PyDict.keys (site_list st)) ->
            In site (PyDict.keys (r_speed rk))).
  { intros site Hin. rewrite Es. apply ranking_keys.
    apply Hks. now apply Hkeys. }
  assert (Hranked_a : forall site, In site (PyDict.keys (site_list st)) ->
            In site (PyDict.keys (r_accessibility rk))).
  { intros site Hin. rewrite Ea. apply ranking_keys.
    apply Hka. now apply Hkeys. }
  assert (Is : incl (PyDict.keys (r_speed rk)) (PyDict.keys (site_list st))).
  { intros site Hin. rewrite Es in Hin. apply ranking_keys in Hin.
    apply Hkeys. now apply Hks. }
  assert (Ia : incl (PyDict.keys (r_accessibility rk))
                 (PyDict.keys (site_list st))).
  { intros site Hin. rewrite Ea in Hin. apply ranking_keys in Hin.
    apply Hkeys. now apply Hka. }
  assert (Ir : incl (PyDict.keys (r_reading_age rk))
                 (PyDict.keys (site_list st))).
  { intros site Hin. rewrite Er in Hin. apply ranking_keys in Hin.
    apply Hkeys. now apply Hkr in Hin. }
  assert (Ns : NoDup (PyDict.keys (r_speed rk)))
    by (rewrite Es; now apply ranking_NoDup).
  assert (Na : NoDup (PyDict.keys (r_accessibility rk)))
    by (rewrite Ea; now apply ranking_NoDup).
  assert (Nr : NoDup (PyDict.keys (r_reading_age rk)))
    by (rewrite Er; now apply ranking_NoDup).
  eexists. split.
  { unfold main. rewrite Hrun. cbn [bind]. fold rk.
    rewrite (build_top_table_ranked _ rk Hnd Hranked). reflexivity. }
  split.
  { eapply Permutation_NoDup; [|exact Hnd].
    symmetry. apply leaderboard_keys_perm. }
  split.
  { intros url. rewrite <- Hkeys. split; apply Permutation_in.
    - apply leaderboard_keys_perm.
    - symmetry. apply leaderboard_keys_perm. }
  intros url e Hin.
  apply build_top_table_ranked_rows in Hin. destruct Hin as [Hsite ->].
  cbn [row_of e_overall]. eexists. split; [reflexivity|].
  unfold overall_formula.
  destruct (rank_term_bounds _ _ url Ns Is) as [Hs _].
  specialize (Hs (Hranked url Hsite)).
  destruct (rank_term_bounds _ _ url Na Ia) as [Ha _].
  specialize (Ha (Hranked_a url Hsite)).
  pose proof (rank_term_range _ _ url Nr Ir).
  lia.
Qed.
End RunLeaderboard.

Lemma main_leaderboard_witness :
  exists st,
    main_loop (fun q : Q => q) (mkdate 2020 5 3) lighthouse_index_nz
      language_data_nz sites_nz = Ok st /\
    exists table,
      main (fun q : Q => q) (mkdate 2020 5 3) lighthouse_index_nz
        language_data_nz sites_nz
      = Ok (build_combined_rankings (avg st), table) /\
      NoDup (PyDict.keys table) /\
      (forall url, In url (PyDict.keys table) <-> In url sites_nz) /\
      (forall url e, In (url, e) table ->
         exists overall,
           e_overall e = Some overall /\
           3 <= overall
             <= 4 * Z.of_nat (List.length (PyDict.keys (site_list st)))).
Proof.
  destruct (main_loop (fun q : Q => q) (mkdate 2020 5 3) lighthouse_index_nz
              language_data_nz sites_nz) as [st|err] eqn:Hrun.
  - exists st. split; [reflexivity|].
    exact (main_leaderboard (fun q : Q => q) (mkdate 2020 5 3)
             lighthouse_index_nz language_data_nz sites_nz st Hrun).
  - vm_compute in Hrun. discriminate Hrun.
Defined.

(* ----------------------------------------------------------------- *)
(** ** MetricExtractor: what the loop keeps, and how it fails *)

Lemma PyDict_mem_keys {V W : Type} (a : PyDict.t V) (s : PyDict.t W)
    (k : string) :
  PyDict.keys a = PyDict.keys s -> PyDict.mem a k = PyDict.mem s k.
Proof.
  intros Hkeys. unfold PyDict.mem.
  destruct (PyDict.get a k) as [v|] eqn:Ha;
    destruct (PyDict.get s k) as [w|] eqn:Hs; try reflexivity; exfalso.
  - apply PyDict_get_None_iff in Hs. apply Hs. rewrite <- Hkeys.
    apply PyDict_get_In_keys. eauto.
  - apply PyDict_get_None_iff in Ha. apply Ha. rewrite Hkeys.
    apply PyDict_get_In_keys. eauto.
Qed.

(** One turn of the loop over the days never raises, and keeps the two
    series in step. *)
Lemma record_day_daily (data : PyDict.t report) (out : time_series)
    (single_date : date) :
  daily_series data out ->
  exists out',
    record_day data (Ok out) single_date = Ok out' /\
    daily_series data out' /\
    forall k, In k (PyDict.keys (ts_accessibility out'))
              <-> k = strftime single_date
                  \/ In k (PyDict.keys (ts_accessibility out)).
Proof.
  intros (Hkeys & Hnd & Ha & Hs).
  unfold record_day. cbn [bind].
  rewrite !except_KeyError_category_score. cbn [bind].
  eexists. split; [reflexivity|].
  cbn [ts_accessibility ts_speed].
  split; [|intros k; apply PyDict_In_keys_set].
  unfold daily_series. cbn [ts_accessibility ts_speed].
  split; [|split; [|split]].
  - rewrite !PyDict_keys_set.
    rewrite (PyDict_mem_keys _ (ts_speed out) _ Hkeys), Hkeys. reflexivity.
  - now apply PyDict_NoDup_set.
  - intros k v. rewrite PyDict_get_set.
    destruct (String.eqb_spec (strftime single_date) k) as [<-|Hne].
    + now intros [= <-].
    + apply Ha.
  - intros k v. rewrite PyDict_get_set.
    destruct (String.eqb_spec (strftime single_date) k) as [<-|Hne].
    + now intros [= <-].
    + apply Hs.
Qed.

Lemma record_days_daily (data : PyDict.t report) (days : list date)
    (out : time_series) :
  daily_series data out ->
  exists out',
    fold_left (record_day data) days (Ok out) = Ok out' /\
    daily_series data out' /\
    forall k, In k (PyDict.keys (ts_accessibility out'))
              <-> In k (PyDict.keys (ts_accessibility out))
                  \/ In k (map strftime days).
Proof.
  revert out. induction days as [|d days IH]; intros out Hout.
  - exists out. split; [reflexivity|]. split; [exact Hout|].
    intros k. simpl. tauto.
  - destruct (record_day_daily data out d Hout) as (out1 & Hstep & H1 & Hk1).
    destruct (IH out1 H1) as (out' & Hrun & H' & Hk').
    exists out'. cbn [fold_left]. rewrite Hstep.
    split; [exact Hrun|]. split; [exact H'|].
    intros k. rewrite Hk', Hk1. cbn [map In]. intuition congruence.
Qed.

Lemma daily_series_empty (data : PyDict.t report) :
  daily_series data
    {| ts_accessibility := PyDict.empty; ts_speed := PyDict.empty |}.
Proof.
  unfold daily_series. simpl.
  repeat split; try constructor; intros; discriminate.
Qed.

Lemma list_getitem_errors {A : Type} (l : list A) (i : nat) (err : exn) :
  list_getitem l i = Raise err -> err = IndexError.
Proof.
  unfold list_getitem. destruct (nth_error l i); [discriminate|].
  now intros [= <-].
Qed.

Lemma py_int_errors (s : string) (err : exn) :
  py_int s = Raise err -> err = ValueError.
Proof.
  unfold py_int. cbv zeta.
  destruct (match lstrip s with
            | EmptyString => (false, lstrip s)
            | String c r =>
                if Ascii.eqb c "+" then (false, r)
                else if Ascii.eqb c "-" then (true, r)
                else (false, lstrip s)
            end) as [negative s2].
  destruct s2 as [|c s2]; [now intros [= <-]|].
  destruct (is_digit c); [|now intros [= <-]].
  destruct (scan_digits (String c s2)) as [digits rest].
  destruct (all_spaces rest); [discriminate | now intros [= <-]].
Qed.

Lemma date_of_errors (y m d : Z) (err : exn) :
  date_of y m d = Raise err -> err = ValueError \/ err = OverflowError.
Proof.
  unfold date_of. destruct (c_int y && c_int m && c_int d).
  - destruct (valid_dateb _); [discriminate | intros [= <-]; now left].
  - intros [= <-]. now right.
Qed.

Lemma first_date_of_errors (s : string) (err : exn) :
  first_date_of s = Raise err ->
  err = IndexError \/ err = ValueError \/ err = OverflowError.
Proof.
  assert (Hpart : forall parts i e,
            (p <- list_getitem parts i ;; py_int p) = Raise e ->
            e = IndexError \/ e = ValueError).
  { intros parts i e.
    destruct (list_getitem parts i) as [p|e'] eqn:Hp; cbn [bind].
    - intros H. right. now apply py_int_errors in H.
    - intros [= <-]. left. now apply list_getitem_errors in Hp. }
  unfold first_date_of. cbv zeta.
  destruct (bind (list_getitem (split_on "-" s) 0) _) as [y|e] eqn:Hy;
    cbn [bind]; [|intros [= <-]; apply Hpart in Hy; tauto].
  destruct (bind (list_getitem (split_on "-" s) 1) _) as [m|e] eqn:Hm;
    cbn [bind]; [|intros [= <-]; apply Hpart in Hm; tauto].
  destruct (bind (list_getitem (split_on "-" s) 2) _) as [d|e] eqn:Hd;
    cbn [bind]; [|intros [= <-]; apply Hpart in Hd; tauto].
  intros H. apply date_of_errors in H. tauto.
Qed.

(** The date [extract_scores] starts from: [dates[0]] after the sort,
    split at the dashes and read as a date. *)
Lemma first_date_errors (dates : list string) (err : exn) :
  (first <- list_getitem
              (py_sorted (fun s : string => s) String.ltb false dates) 0 ;;
   first_date_of first) = Raise err ->
  err = IndexError \/ err = ValueError \/ err = OverflowError.
Proof.
  destruct (list_getitem _ 0) as [first|e] eqn:Hfirst; cbn [bind].
  - apply first_date_of_errors.
  - intros [= <-]. left. now apply list_getitem_errors in Hfirst.
Qed.

(** [int] skips the blank before the year; a year that does not fit a
    C [int] is an [OverflowError], one out of range a [ValueError]. *)
Example first_date_of_samples :
  first_date_of " 2020-05-01" = Ok (mkdate 2020 5 1) /\
  first_date_of "99999999999-01-01" = Raise OverflowError /\
  first_date_of "0000-01-01" = Raise ValueError /\
  first_date_of "2020-05" = Raise IndexError /\
  first_date_of "2020-5x-01" = Raise ValueError.
Proof. repeat split; vm_compute; reflexivity. Qed.

(** Below the year 1000 the key that [strftime] writes is not the ISO
    string. *)
Example strftime_year_999 :
  strftime (mkdate 999 12 31) = "999-12-31"%string /\
  isoformat (mkdate 999 12 31) = "0999-12-31"%string /\
  strftime (mkdate 2020 5 1) = "2020-05-01"%string.
Proof. repeat split; vm_compute; reflexivity. Qed.

Lemma extract_scores_outcome (today : date) (data : PyDict.t report)
    (dates : list string) :
  match (first <- list_getitem
                    (py_sorted (fun s : string => s) String.ltb false dates)
                    0 ;;
         first_date_of first) with
  | Ok first_date =>
      exists out, extract_scores today data dates = Ok out /\
                  daily_series data out
  | Raise err => extract_scores today data dates = Raise err
  end.
Proof.
  unfold extract_scores.
  destruct (list_getitem _ 0) as [first|err]; cbn [bind]; [|reflexivity].
  destruct (first_date_of first) as [first_date|err]; cbn [bind];
    [|reflexivity].
  destruct (record_days_daily data (daterange first_date today) _
              (daily_series_empty data)) as (out & Hrun & Hout & _).
  eauto.
Qed.

(** Lines 74-93.  Whatever the dates and whatever the reports, a series
    that [extract_scores] returns has the same dates, in the same
    order, in its accessibility and its speed map, no date twice, and
    under every date the two scores of the report of that date
    ([None] where there is no report or no score): a report that lacks
    a category, or a day the range yields twice, does not break this. *)
Theorem extract_scores_series (today : date) (data : PyDict.t report)
    (dates : list string) (out : time_series) :
  extract_scores today data dates = Ok out ->
  PyDict.keys (ts_accessibility out) = PyDict.keys (ts_speed out) /\
  NoDup (PyDict.keys (ts_accessibility out)) /\
  (forall k v, PyDict.get (ts_accessibility out) k = Some v ->
               v = day_score data k "accessibility") /\
  (forall k v, PyDict.get (ts_speed out) k = Some v ->
               v = day_score data k "performance").
Proof.
  intros Hrun. pose proof (extract_scores_outcome today data dates) as H.
  destruct (bind _ _) as [first_date|err].
  - destruct H as (out' & Hrun' & Hout).
    rewrite Hrun in Hrun'. inversion Hrun'; subst out'. exact Hout.
  - rewrite Hrun in H. discriminate H.
Qed.

Lemma extract_scores_series_witness :
  extract_scores (mkdate 2020 5 2) data_latest_unscored
    ["2020-05-01"; "2020-05-02"]%string = Ok series_latest_unscored /\
  PyDict.keys (ts_accessibility series_latest_unscored)
  = PyDict.keys (ts_speed series_latest_unscored) /\
  NoDup (PyDict.keys (ts_accessibility series_latest_unscored)) /\
  (forall k v,
     PyDict.get (ts_accessibility series_latest_unscored) k = Some v ->
     v = day_score data_latest_unscored k "accessibility") /\
  (forall k v, PyDict.get (ts_speed series_latest_unscored) k = Some v ->
               v = day_score data_latest_unscored k "performance").
Proof.
  assert (Hrun : extract_scores (mkdate 2020 5 2) data_latest_unscored
                   ["2020-05-01"; "2020-05-02"]%string
                 = Ok series_latest_unscored) by (vm_compute; reflexivity).
  split; [exact Hrun|].
  exact (extract_scores_series (mkdate 2020 5 2) data_latest_unscored
           ["2020-05-01"; "2020-05-02"]%string series_latest_unscored Hrun).
Defined.

(** Lines 75-81.  [extract_scores] fails only on the dates it is given:
    with no date at all it raises [IndexError] (from [dates[0]]); any
    failure is an [IndexError], a [ValueError] or an [OverflowError],
    never the [KeyError] that the main loop catches, and is the same
    whatever the reports and whatever the current day; and when it
    returns for one set of reports and one current day, it returns for
    all. *)
Theorem extract_scores_failure (today : date) (data : PyDict.t report)
    (dates : list string) :
  extract_scores today data [] = Raise IndexError /\
  (forall err, extract_scores today data dates = Raise err ->
     (err = IndexError \/ err = ValueError \/ err = OverflowError) /\
     (forall key, err <> KeyError key) /\
     forall today' data', extract_scores today' data' dates = Raise err) /\
  (forall out, extract_scores today data dates = Ok out ->
     forall today' data',
       exists out', extract_scores today' data' dates = Ok out').
Proof.
  split; [reflexivity|].
  pose proof (extract_scores_outcome today data dates) as H.
  pose proof (first_date_errors dates) as Herr.
  split.
  - intros err Hrun.
    destruct (bind _ _) as [first_date|err0] eqn:Hfirst.
    + destruct H as (out & Hout & _). rewrite Hrun in Hout. discriminate.
    + rewrite Hrun in H. inversion H; subst err0.
      specialize (Herr err eq_refl).
      split; [exact Herr|]. split.
      * intros key ->. destruct Herr as [E|[E|E]]; discriminate E.
      * intros today' data'.
        pose proof (extract_scores_outcome today' data' dates) as H'.
        now rewrite Hfirst in H'.
  - intros out Hrun today' data'.
    destruct (bind _ _) as [first_date|err0] eqn:Hfirst.
    + pose proof (extract_scores_outcome today' data' dates) as H'.
      rewrite Hfirst in H'. destruct H' as (out' & Hout' & _). eauto.
    + rewrite Hrun in H. discriminate.
Qed.

Lemma string_ltb_antisym (a b : string) :
  String.ltb a b = false -> String.ltb b a = false -> a = b.
Proof.
  intros Hab Hba.
  destruct (String_as_OT.compare_spec a b) as [Heq|Hlt|Hgt].
  - exact Heq.
  - apply string_ltb_lt in Hlt. congruence.
  - apply string_ltb_lt in Hgt. congruence.
Qed.

Lemma sorted_dates_head_same (dates dates' : list string) :
  (forall s, In s dates <-> In s dates') ->
  list_getitem (py_sorted (fun s : string => s) String.ltb false dates) 0
  = list_getitem (py_sorted (fun s : string => s) String.ltb false dates') 0.
Proof.
  intros Hsame.
  destruct dates as [|x l]; destruct dates' as [|x' l'].
  - reflexivity.
  - exfalso. apply (Hsame x'). now left.
  - exfalso. apply (Hsame x). now left.
  - destruct (sorted_dates_head (x :: l)) as (first & -> & Hin & Hmin);
      [discriminate|].
    destruct (sorted_dates_head (x' :: l')) as (first' & -> & Hin' & Hmin');
      [discriminate|].
    f_equal. apply string_ltb_antisym.
    + apply Hmin'. now apply Hsame.
    + apply Hmin. now apply Hsame.
Qed.

(** Lines 75-76.  Because of [dates.sort()], the series depends on the
    dates only as a set: neither the order in which the caller lists
    them nor a date listed twice changes the result, or the failure. *)
Theorem extract_scores_set_of_dates (today : date) (data : PyDict.t report)
    (dates dates' : list string) :
  (forall s, In s dates <-> In s dates') ->
  extract_scores today data dates = extract_scores today data dates'.
Proof.
  intros Hsame. unfold extract_scores.
  now rewrite (sorted_dates_head_same dates dates' Hsame).
Qed.

Lemma extract_scores_set_of_dates_witness :
  (forall s, In s ["2020-05-03"; "2020-05-01"]%string
             <-> In s ["2020-05-01"; "2020-05-03"; "2020-05-01"]%string) /\
  extract_scores (mkdate 2020 5 3) data_scored
    ["2020-05-03"; "2020-05-01"]%string
  = extract_scores (mkdate 2020 5 3) data_scored
      ["2020-05-01"; "2020-05-03"; "2020-05-01"]%string.
Proof.
  assert (Hsame : forall s,
            In s ["2020-05-03"; "2020-05-01"]%string
            <-> In s ["2020-05-01"; "2020-05-03"; "2020-05-01"]%string)
    by (intros s; simpl; tauto).
  split; [exact Hsame|].
  exact (extract_scores_set_of_dates (mkdate 2020 5 3) data_scored
           ["2020-05-03"; "2020-05-01"]%string
           ["2020-05-01"; "2020-05-03"; "2020-05-01"]%string Hsame).
Defined.

(* ----------------------------------------------------------------- *)
(** ** SiteScoreSummarizer: when a summary is returned *)

(** Lines 95-117.  [calculate_scores] returns a summary exactly when,
    for each metric that has a number somewhere in its series, the
    report of the latest date carries a score entry for that metric;
    and a run that returns a summary has printed nothing. *)
Theorem calculate_scores_returns_iff (to_float : Q -> Q)
    (latest_date : string) (extracted : time_series)
    (data : PyDict.t report) :
  let accs := filter_not_None (PyDict.values (ts_accessibility extracted)) in
  let speeds := filter_not_None (PyDict.values (ts_speed extracted)) in
  ((exists calc,
      snd (calculate_scores to_float latest_date extracted data) = Ok calc)
   <->
   (accs <> [] ->
    exists c, category_score data latest_date "accessibility" = Ok c) /\
   (speeds <> [] ->
    exists c, category_score data latest_date "performance" = Ok c)) /\
  (forall out calc,
     calculate_scores to_float latest_date extracted data = (out, Ok calc) ->
     out = []).
Proof.
  intros accs speeds. split; [split|].
  - intros [calc Hcalc]. apply calculate_scores_Ok_inv in Hcalc.
    apply summarize_Ok_inv in Hcalc. fold accs speeds in Hcalc.
    destruct Hcalc as [Ha Hs]. split.
    + intros Hne. destruct accs as [|x rest]; [congruence|].
      destruct Ha as (_ & _ & c & Hc & _). eauto.
    + intros Hne. destruct speeds as [|x rest]; [congruence|].
      destruct Hs as (_ & _ & c & Hc & _). eauto.
  - intros [Ha Hs]. unfold calculate_scores. fold accs speeds.
    unfold summarize.
    destruct accs as [|xa ra]; destruct speeds as [|xs rs].
    + eexists. reflexivity.
    + destruct Hs as [cs Hcs]; [discriminate|]. rewrite Hcs.
      eexists. reflexivity.
    + destruct Ha as [ca Hca]; [discriminate|]. rewrite Hca.
      eexists. reflexivity.
    + destruct Ha as [ca Hca]; [discriminate|].
      destruct Hs as [cs Hcs]; [discriminate|]. rewrite Hca, Hcs.
      eexists. reflexivity.
  - intros out calc. unfold calculate_scores.
    destruct (summarize _ _ _ _ _) as [c|err]; [congruence|].
    unfold report_problem. destruct (global_bound "url"); discriminate.
Qed.

(* ----------------------------------------------------------------- *)
(** ** [process_site]: the report behind the current values *)

Lemma StronglySorted_last {A : Type} (R : A -> A -> Prop) (l : list A)
    (x : A) (rest : list A) :
  StronglySorted R l -> rev l = x :: rest ->
  forall y, In y l -> y = x \/ R y x.
Proof.
  intros Hs. revert x rest.
  induction Hs as [|a l' Hs IH Hall]; intros x rest Hrev y Hy.
  - contradiction.
  - cbn [rev] in Hrev. destruct (rev l') as [|x' rest'] eqn:Hr.
    + assert (El : l' = [])
        by (rewrite <- (rev_involutive l'), Hr; reflexivity).
      subst l'. simpl in Hrev. inversion Hrev; subst.
      destruct Hy as [<-|[]]. now left.
    + simpl in Hrev. inversion Hrev; subst x' rest.
      destruct Hy as [<-|Hy].
      * right. rewrite Forall_forall in Hall. apply Hall.
        apply in_rev. rewrite Hr. now left.
      * exact (IH x rest' eq_refl y Hy).
Qed.

(** After [dates_covered.sort()], [dates_covered[-1]] is a greatest
    string of the list. *)
Lemma sorted_dates_last (dates : list string) (latest : string) :
  list_last (py_sorted (fun s : string => s) String.ltb false dates)
  = Ok latest ->
  In latest dates /\
  forall s, In s dates -> String.ltb latest s = false.
Proof.
  unfold list_last. intros Hlast.
  pose proof (py_sorted_perm (fun s : string => s) String.ltb false dates)
    as Hperm.
  pose proof (py_sorted_ascending (fun s : string => s) String.ltb
                string_ltb_asym string_ltb_negtrans dates) as Hsorted.
  destruct (rev (py_sorted (fun s : string => s) String.ltb false dates))
    as [|x rest] eqn:Hrev; [discriminate|].
  inversion Hlast; subst x. split.
  - apply (Permutation_in _ Hperm). apply in_rev. rewrite Hrev. now left.
  - intros s Hs. apply (Permutation_in _ (Permutation_sym Hperm)) in Hs.
    destruct (StronglySorted_last _ _ _ _ Hsorted Hrev s Hs) as [->|H].
    + destruct (String.ltb latest latest) eqn:E; [|reflexivity].
      now rewrite (string_ltb_asym _ _ E) in E.
    + exact H.
Qed.

Lemma get_date_indexed_unfold (json_file_list : list report) :
  get_date_indexed_lighthouse_data json_file_list
  = fold_left
      (fun parsed_data loaded_json =>
         PyDict.set parsed_data (fetch_date loaded_json) loaded_json)
      json_file_list PyDict.empty.
Proof. reflexivity. Qed.

Lemma category_score_day_score (data : PyDict.t report)
    (str_date category : string) (c : sample) :
  category_score data str_date category = Ok c ->
  c = day_score data str_date category.
Proof.
  intros Hc.
  pose proof (except_KeyError_category_score data str_date category) as H.
  rewrite Hc in H. simpl in H. congruence.
Qed.

(** Lines 184-196.  When [process_site] returns for a site, the data it
    read are the reports filed under the site's URL, or under its alias
    in [url_mappings]; the current accessibility and the current speed
    of the summary, when it has them, are the scores of one report of
    that group: the one with the greatest fetch date, and among several
    reports of that date the one loaded last. *)
Theorem process_site_current_is_latest (to_float : Q -> Q) (today : date)
    (lighthouse_index : PyDict.t (list report)) (url : string)
    (scores : calculations) (series : time_series) :
  process_site to_float today lighthouse_index url = Ok (scores, series) ->
  exists key files latest,
    (key = url \/ PyDict.get url_mappings url = Some key) /\
    PyDict.get lighthouse_index key = Some files /\
    In latest files /\
    (forall r, In r files ->
               String.ltb (fetch_date latest) (fetch_date r) = false) /\
    find (fun r => String.eqb (fetch_date r) (fetch_date latest)) (rev files)
    = Some latest /\
    (forall c, current_accessibility scores = Some c ->
               c = report_score latest "accessibility") /\
    (forall c, current_speed scores = Some c ->
               c = report_score latest "performance").
Proof.
  intros H. unfold process_site in H.
  apply bind_Ok_inv in H. destruct H as (key & Hkey & H).
  apply bind_Ok_inv in H. destruct H as (files & Hfiles & H).
  cbv zeta in H.
  apply bind_Ok_inv in H. destruct H as (latest_date & Hlast & H).
  apply bind_Ok_inv in H. destruct H as (extracted & Hext & H).
  apply bind_Ok_inv in H. destruct H as (sc & Hcalc & H).
  inversion H; subst sc extracted; clear H.
  set (site_data := get_date_indexed_lighthouse_data files) in *.
  destruct (date_indexed_fold files PyDict.empty) as (_ & Hget & Hkeys).
  cbv zeta in Hget, Hkeys. rewrite <- get_date_indexed_unfold in Hget, Hkeys.
  fold site_data in Hget, Hkeys.
  apply sorted_dates_last in Hlast. destruct Hlast as [Hin Hmax].
  assert (Hfind : exists latest,
            find (fun r => String.eqb (fetch_date r) latest_date) (rev files)
            = Some latest /\ PyDict.get site_data latest_date = Some latest).
  { apply PyDict_get_In_keys in Hin. destruct Hin as [r Hr].
    specialize (Hget latest_date). rewrite Hr in Hget.
    destruct (find _ (rev files)) as [r'|] eqn:Hf.
    - exists r'. split; [reflexivity | congruence].
    - simpl in Hget. discriminate. }
  destruct Hfind as (latest & Hfind & Hdata).
  pose proof (find_some _ _ Hfind) as [Hlatest Hdate].
  apply in_rev in Hlatest. apply String.eqb_eq in Hdate. subst latest_date.
  exists key, files, latest.
  split.
  { unfold translate_to_lighthouse_key in Hkey.
    destruct (existsb _ _); [inversion Hkey; now left|].
    unfold PyDict.getitem in Hkey.
    destruct (PyDict.get url_mappings url) as [mapped|]; simpl in Hkey;
      [|discriminate].
    destruct (existsb _ _); inversion Hkey; subst; auto. }
  split.
  { unfold PyDict.getitem in Hfiles.
    destruct (PyDict.get lighthouse_index key); [congruence | discriminate]. }
  split; [exact Hlatest|].
  split.
  { intros r Hr. apply Hmax. apply Hkeys. right. now apply in_map. }
  split; [exact Hfind|].
  apply calculate_scores_Ok_inv in Hcalc. apply summarize_Ok_inv in Hcalc.
  assert (Hday : forall category,
            day_score site_data (fetch_date latest) category
            = report_score latest category)
    by (intros category; unfold day_score; now rewrite Hdata).
  destruct Hcalc as [Ha Hs]. split.
  - intros c Hc.
    destruct (filter_not_None (PyDict.values (ts_accessibility series)))
      as [|x rest].
    + destruct Ha as (_ & _ & Hnone). congruence.
    + destruct Ha as (_ & _ & c' & Hc' & Hcur).
      apply category_score_day_score in Hc'. rewrite Hday in Hc'.
      congruence.
  - intros c Hc.
    destruct (filter_not_None (PyDict.values (ts_speed series)))
      as [|x rest].
    + destruct Hs as (_ & _ & Hnone). congruence.
    + destruct Hs as (_ & _ & c' & Hc' & Hcur).
      apply category_score_day_score in Hc'. rewrite Hday in Hc'.
      congruence.
Qed.

Lemma process_site_current_is_latest_witness :
  exists scores series,
    process_site (fun q : Q => q) (mkdate 2020 5 3) lighthouse_index_nz
      "https://www.govt.nz/covid-19-novel-coronavirus/"
    = Ok (scores, series) /\
    exists key files latest,
      (key = "https://www.govt.nz/covid-19-novel-coronavirus/"%string \/
       PyDict.get url_mappings
         "https://www.govt.nz/covid-19-novel-coronavirus/" = Some key) /\
      PyDict.get lighthouse_index_nz key = Some files /\
      In latest files /\
      (forall r, In r files ->
                 String.ltb (fetch_date latest) (fetch_date r) = false) /\
      find (fun r => String.eqb (fetch_date r) (fetch_date latest))
        (rev files) = Some latest /\
      (forall c, current_accessibility scores = Some c ->
                 c = report_score latest "accessibility") /\
      (forall c, current_speed scores = Some c ->
                 c = report_score latest "performance").
Proof.
  destruct (process_site (fun q : Q => q) (mkdate 2020 5 3)
              lighthouse_index_nz
              "https://www.govt.nz/covid-19-novel-coronavirus/")
    as [[scores series]|err] eqn:Hrun.
  - exists scores, series. split; [reflexivity|].
    exact (process_site_current_is_latest (fun q : Q => q) (mkdate 2020 5 3)
             lighthouse_index_nz
             "https://www.govt.nz/covid-19-novel-coronavirus/"
             scores series Hrun).
  - vm_compute in Hrun. discriminate Hrun.
Defined.

(* ----------------------------------------------------------------- *)
(** ** The reading age of a site in the run *)

